(** * Peer-Tutor Connect: the question / response / notification core

    A shallow embedding of the backend's data layer
    ([backend/data/questions.js], [backend/data/responses.js],
    [backend/data/notifications.js], [backend/validation.js]) and of the
    route handlers that orchestrate it ([backend/routes/responses.js],
    [backend/routes/questions.js], [backend/routes/notifications.js]),
    followed by the properties of the ownership checks, the cascade
    delete, the notification fan-out and the listing order.

    Conventions of the embedding.
    - A MongoDB collection is the list of its documents in insertion
      order; a document is a record with the fields the code writes.
    - An [ObjectId] is kept as its 24-digit lower-case hexadecimal
      string, the form [toString()] gives and the only form
      [isValidObjectId] accepts.
    - A [Date] is the integer number of milliseconds since the epoch.
    - An [async] function is a state transformer over the database that
      either returns a value or throws; writes made before a throw stay.
    - A JavaScript string is the sequence of its UTF-16 code units, and
      [.length] counts them.  A [string] here is such a sequence with
      every code unit below 256 (an [ascii] is the code unit of that
      number, so [String.length] is [.length], and is also what
      express-validator's [isLength] counts, which departs from
      [.length] only on code units from 256 on); text with a code unit
      from 256 on is outside the embedding.
    - A number is an integer literal of the JSON body, read as
      [JSON.parse] reads it: as the nearest double.
    - The driver and express-validator are libraries outside the
      repository; their operations are modelled on lists and values as
      far as the handlers use them.  Console logging is left out. *)

From Stdlib Require Import String Ascii List ZArith Bool Arith Lia DecimalString.
From Stdlib Require Import Sorting.Sorted Sorting.Permutation.
Import ListNotations.
Local Open Scope string_scope.
Local Open Scope list_scope.

(* ===================================================================== *)
(** ** JavaScript values of a request payload *)
(* ===================================================================== *)

(** The values a JSON body, a query string or a missing property can
    hold.  [JNum z] is the number [JSON.parse] gives for the integer
    literal [z]: the double nearest to [z]. *)
Inductive JsValue : Type :=
| JUndef
| JNull
| JBool (b : bool)
| JNum (z : Z)
| JStr (s : string).

(** A plain object: its own enumerable properties in insertion order,
    as [Object.entries] lists them. *)
Definition JsObject := list (string * JsValue).

(** [obj[key]]: the value of the property, [undefined] when absent. *)
Fixpoint prop (key : string) (o : JsObject) : JsValue :=
  match o with
  | [] => JUndef
  | (k, v) :: rest => if String.eqb k key then v else prop key rest
  end.

(** [obj[key] = v] on a plain object: overwrite in place, or append. *)
Fixpoint setProp (key : string) (v : JsValue) (o : JsObject) : JsObject :=
  match o with
  | [] => [(key, v)]
  | (k, w) :: rest =>
      if String.eqb k key then (k, v) :: rest else (k, w) :: setProp key v rest
  end.

(** JavaScript truthiness, for [if (isHelpful && ...)]. *)
Definition truthy (v : JsValue) : bool :=
  match v with
  | JUndef | JNull => false
  | JBool b => b
  | JNum z => negb (Z.eqb z 0)
  | JStr s => negb (String.eqb s EmptyString)
  end.

(* ===================================================================== *)
(** ** backend/validation.js *)
(* ===================================================================== *)

(** The code units [String.prototype.trim] strips (and the [\s] of the
    regular expressions behind express-validator's [trim()]): the white
    space TAB, VT, FF, SP and NBSP (U+00A0) and the line terminators LF
    and CR.  The others of the standard (U+1680, U+2000 to U+200A,
    U+2028, U+2029, U+202F, U+205F, U+3000, U+FEFF) are code units from
    256 on. *)
Definition isWhite (c : ascii) : bool :=
  let n := nat_of_ascii c in
  ((Nat.leb 9 n) && (Nat.leb n 13)) || (Nat.eqb n 32) || (Nat.eqb n 160).

Fixpoint trimStart (s : string) : string :=
  match s with
  | EmptyString => EmptyString
  | String c rest => if isWhite c then trimStart rest else s
  end.

Fixpoint trimEnd (s : string) : string :=
  match s with
  | EmptyString => EmptyString
  | String c rest =>
      match trimEnd rest with
      | EmptyString => if isWhite c then EmptyString else String c EmptyString
      | kept => String c kept
      end
  end.

(** [String.prototype.trim]. *)
Definition trim (s : string) : string := trimEnd (trimStart s).

Definition isLowerHex (c : ascii) : bool :=
  let n := nat_of_ascii c in
  ((Nat.leb 48 n) && (Nat.leb n 57)) || ((Nat.leb 97 n) && (Nat.leb n 102)).

Fixpoint allChars (p : ascii -> bool) (s : string) : bool :=
  match s with
  | EmptyString => true
  | String c rest => p c && allChars p rest
  end.

Definition ObjectId := string.

(** [new ObjectId(id)] guarded by [isValidObjectId(id)]: the driver
    accepts a 24-digit hexadecimal string, and the round trip through
    [String(new ObjectId(id)) === String(id)] keeps only the lower-case
    ones; every other value is refused. *)
Definition asObjectId (id : JsValue) : option ObjectId :=
  match id with
  | JStr s =>
      if (Nat.eqb (String.length s) 24) && allChars isLowerHex s then Some s else None
  | _ => None
  end.

Definition isValidObjectId (id : JsValue) : bool :=
  match asObjectId id with Some _ => true | None => false end.

(** What the code throws: one constructor per [throw new Error(...)]
    template, plus the driver's own failure. *)
Inductive Error : Type :=
| InvalidId (what : string)            (* `Invalid ${what} ID` *)
| NoUpdates                            (* 'No updates provided' *)
| CannotUpdateField (key : string)     (* `Cannot update field: ${key}` *)
| IsRequired (field : string)          (* `${field} is required` *)
| MustBeString (field : string)        (* `${field} must be a string` *)
| TooShort (field : string) (min : nat)
| TooLong (field : string) (max : nat)
| MustBeBoolean (field : string)       (* `${field} must be a boolean` *)
| NotFound (what : string)             (* `${what} not found` *)
| FailedToCreate (what : string)       (* `Failed to create ${what}` *)
| StorageFailure.                      (* thrown by the MongoDB driver *)

Inductive Result (A : Type) : Type :=
| Ok (a : A)
| Throw (e : Error).
Arguments Ok {A} a.
Arguments Throw {A} e.

(** [validateString(value, fieldName, minLength, maxLength)];
    [String.length] is [trimmed.length], one [ascii] per code unit. *)
Definition validateString (value : JsValue) (fieldName : string)
           (minLength maxLength : nat) : Result string :=
  match value with
  | JUndef | JNull => Throw (IsRequired fieldName)
  | JStr s =>
      let trimmed := trim s in
      if Nat.ltb (String.length trimmed) minLength then Throw (TooShort fieldName minLength)
      else if Nat.ltb maxLength (String.length trimmed) then Throw (TooLong fieldName maxLength)
      else Ok trimmed
  | _ => Throw (MustBeString fieldName)
  end.

(** The error kinds of the design, as it sorts the thrown errors. *)
Inductive ErrorKind : Type := InvalidInput | KNotFound | Unavailable.

Definition kindOf (e : Error) : ErrorKind :=
  match e with
  | NotFound _ => KNotFound
  | StorageFailure | FailedToCreate _ => Unavailable
  | _ => InvalidInput
  end.

(* ===================================================================== *)
(** ** The persisted documents *)
(* ===================================================================== *)

Module Student.
Record t : Type := mk
  { _id : ObjectId; firstName : string; lastName : string }.
End Student.

Module Question.
Record t : Type := mk
  { _id : ObjectId;
    courseId : ObjectId;
    posterId : ObjectId;
    title : string;
    content : string;
    isAnonymous : bool;
    isResolved : bool;
    createdAt : Z;
    updatedAt : Z }.
End Question.

Module Response.
Record t : Type := mk
  { _id : ObjectId;
    questionId : ObjectId;
    posterId : ObjectId;
    content : string;
    isAnonymous : bool;
    isHelpful : bool;
    createdAt : Z;
    updatedAt : Z }.
End Response.

Module Notification.
Record t : Type := mk
  { _id : ObjectId;
    recipientId : ObjectId;
    questionId : ObjectId;
    senderId : ObjectId;
    type : string;
    message : string;
    isRead : bool;
    createdAt : Z }.
End Notification.

(** [COLLECTIONS] of [database_config/index.js] (courses are not used by
    the operations below). *)
Inductive Coll : Type := STUDENTS | QUESTIONS | RESPONSES | NOTIFICATIONS.

Record Db : Type := mkDb
  { students : list Student.t;
    questions : list Question.t;
    responses : list Response.t;
    notifications : list Notification.t }.

Definition withQuestions (qs : list Question.t) (db : Db) : Db :=
  mkDb (students db) qs (responses db) (notifications db).
Definition withResponses (rs : list Response.t) (db : Db) : Db :=
  mkDb (students db) (questions db) rs (notifications db).
Definition withNotifications (ns : list Notification.t) (db : Db) : Db :=
  mkDb (students db) (questions db) (responses db) ns.

(** What a request takes from outside the program: the clock read by
    [new Date()], the [_id] the driver gives to an inserted document,
    and which collections the driver fails to reach. *)
Record Env : Type := mkEnv
  { now : Z;
    insertedId : Coll -> ObjectId;
    unreachable : Coll -> bool }.

(* ===================================================================== *)
(** ** Async functions: state and exceptions *)
(* ===================================================================== *)

Definition M (A : Type) : Type := Db -> Result A * Db.

Definition ret {A} (a : A) : M A := fun db => (Ok a, db).
Definition throw {A} (e : Error) : M A := fun db => (Throw e, db).
Definition lift {A} (r : Result A) : M A := fun db => (r, db).

Definition bind {A B} (m : M A) (k : A -> M B) : M B :=
  fun db =>
    match m db with
    | (Ok a, db') => k a db'
    | (Throw e, db') => (Throw e, db')
    end.

(** [try { m } catch (e) { h e }]. *)
Definition tryCatch {A} (m : M A) (h : Error -> M A) : M A :=
  fun db =>
    match m db with
    | (Ok a, db') => (Ok a, db')
    | (Throw e, db') => h e db'
    end.

Declare Scope async_scope.
Delimit Scope async_scope with async.
Notation "x <- m ;; k" := (bind m (fun x => k))
  (at level 61, m at next level, right associativity) : async_scope.
Notation "m ;;; k" := (bind m (fun _ => k))
  (at level 61, right associativity) : async_scope.
Local Open Scope async_scope.

(* ===================================================================== *)
(** ** The MongoDB driver on a list of documents *)
(* ===================================================================== *)

Section Documents.
Context {D : Type}.
Variable idOf : D -> ObjectId.

(** [findOne({ _id })]. *)
Fixpoint findOne (id : ObjectId) (docs : list D) : option D :=
  match docs with
  | [] => None
  | d :: rest => if String.eqb (idOf d) id then Some d else findOne id rest
  end.

(** [findOneAndUpdate({ _id }, { $set })] on the documents. *)
Fixpoint updateOne (id : ObjectId) (set : D -> D) (docs : list D) : list D :=
  match docs with
  | [] => []
  | d :: rest =>
      if String.eqb (idOf d) id then set d :: rest
      else d :: updateOne id set rest
  end.

(** [deleteOne({ _id })] on the documents. *)
Fixpoint deleteOne (id : ObjectId) (docs : list D) : list D :=
  match docs with
  | [] => []
  | d :: rest =>
      if String.eqb (idOf d) id then rest else d :: deleteOne id rest
  end.

(** [deleteMany(filter)] on the documents. *)
Definition deleteMany (matches : D -> bool) (docs : list D) : list D :=
  filter (fun d => negb (matches d)) docs.

(** [$sort] by a key, with the comparison of the chosen direction.
    The server promises no order among documents with equal keys; the
    embedding keeps them in the order they had (an insertion sort). *)
Fixpoint insertSorted (before : D -> D -> bool) (d : D) (sorted : list D) : list D :=
  match sorted with
  | [] => [d]
  | e :: rest =>
      if before d e then d :: sorted
      else e :: insertSorted before d rest
  end.

Fixpoint sortDocs (before : D -> D -> bool) (docs : list D) : list D :=
  match docs with
  | [] => []
  | d :: rest => insertSorted before d (sortDocs before rest)
  end.
End Documents.

(** [deletedCount] of a delete. *)
Definition deletedCount {D} (before after : list D) : nat :=
  length before - length after.

Section DataLayer.
Variable env : Env.

(** An operation on a collection: the driver throws when it cannot
    reach the collection and otherwise runs the operation. *)
Definition onCollection {A} (c : Coll) (op : Db -> A * Db) : M A :=
  fun db =>
    if unreachable env c then (Throw StorageFailure, db)
    else let (a, db') := op db in (Ok a, db').

(** The result of [insertOne]. *)
Record InsertOneResult : Type := mkInserted
  { acknowledged : bool; result_insertedId : ObjectId }.

(* ------------------------------------------------------------------- *)
(** *** backend/data/responses.js *)
(* ------------------------------------------------------------------- *)

Definition createResponse (responseData : JsObject) : M Response.t :=
  match asObjectId (prop "questionId" responseData) with
  | None => throw (InvalidId "question")
  | Some questionId =>
  match asObjectId (prop "posterId" responseData) with
  | None => throw (InvalidId "poster")
  | Some posterId =>
      content <- lift (validateString (prop "content" responseData) "Content" 1 1500) ;;
      let isAnonymous :=
        match prop "isAnonymous" responseData with
        | JUndef => JBool false
        | v => v
        end in
      match isAnonymous with
      | JBool isAnonymous =>
          let newResponse (id : ObjectId) :=
            Response.mk id questionId posterId content isAnonymous false
                        (now env) (now env) in
          result <- onCollection RESPONSES (fun db =>
                      let id := insertedId env RESPONSES in
                      (mkInserted true id,
                       withResponses (responses db ++ [newResponse id]) db)) ;;
          if negb (acknowledged result) then throw (FailedToCreate "response")
          else ret (newResponse (result_insertedId result))
      | _ => throw (MustBeBoolean "isAnonymous")
      end
  end
  end.

Definition getResponseById (responseId : JsValue) : M (option Response.t) :=
  match asObjectId responseId with
  | None => throw (InvalidId "response")
  | Some id =>
      onCollection RESPONSES (fun db => (findOne Response._id id (responses db), db))
  end.

(** The [updateFields] object of [updateResponse], before [updatedAt]
    is added. *)
Record ResponseUpdateFields : Type := mkResponseFields
  { set_r_content : option string; set_isHelpful : option bool }.

Definition responseAllowedUpdates : list string := ["content"; "isHelpful"].

(** The loop over [Object.entries(updates)]. *)
Fixpoint responseUpdateLoop (entries : JsObject) (updateFields : ResponseUpdateFields)
  : Result ResponseUpdateFields :=
  match entries with
  | [] => Ok updateFields
  | (key, value) :: rest =>
      if negb (existsb (String.eqb key) responseAllowedUpdates)
      then Throw (CannotUpdateField key)
      else if String.eqb key "content" then
        match validateString value "Content" 1 1500 with
        | Ok s => responseUpdateLoop rest
                    (mkResponseFields (Some s) (set_isHelpful updateFields))
        | Throw e => Throw e
        end
      else if String.eqb key "isHelpful" then
        match value with
        | JBool b => responseUpdateLoop rest
                       (mkResponseFields (set_r_content updateFields) (Some b))
        | _ => Throw (MustBeBoolean "isHelpful")
        end
      else responseUpdateLoop rest updateFields
  end.

(** [{ $set: updateFields }] with [updatedAt] on a response. *)
Definition setResponse (f : ResponseUpdateFields) (updatedAt : Z)
           (r : Response.t) : Response.t :=
  Response.mk (Response._id r) (Response.questionId r) (Response.posterId r)
    (match set_r_content f with Some c => c | None => Response.content r end)
    (Response.isAnonymous r)
    (match set_isHelpful f with Some b => b | None => Response.isHelpful r end)
    (Response.createdAt r) updatedAt.

(** [updates] is [None] for a missing ([null] or [undefined]) argument. *)
Definition updateResponse (responseId : JsValue) (updates : option JsObject)
  : M Response.t :=
  match asObjectId responseId with
  | None => throw (InvalidId "response")
  | Some id =>
      match updates with
      | None => throw NoUpdates
      | Some updates =>
          if Nat.eqb (length updates) 0 then throw NoUpdates
          else
            updateFields <- lift (responseUpdateLoop updates (mkResponseFields None None)) ;;
            let set := setResponse updateFields (now env) in
            result <- onCollection RESPONSES (fun db =>
                        (option_map set (findOne Response._id id (responses db)),
                         withResponses (updateOne Response._id id set (responses db)) db)) ;;
            match result with
            | None => throw (NotFound "Response")
            | Some r => ret r
            end
      end
  end.

Definition deleteResponse (responseId : JsValue) : M nat :=
  match asObjectId responseId with
  | None => throw (InvalidId "response")
  | Some id =>
      count <- onCollection RESPONSES (fun db =>
                 let after := deleteOne Response._id id (responses db) in
                 (deletedCount (responses db) after, withResponses after db)) ;;
      if Nat.eqb count 0 then throw (NotFound "Response") else ret count
  end.

Definition deleteResponsesByQuestionId (questionId : JsValue) : M nat :=
  match asObjectId questionId with
  | None => throw (InvalidId "question")
  | Some id =>
      onCollection RESPONSES (fun db =>
        let after := deleteMany (fun r => String.eqb (Response.questionId r) id)
                                (responses db) in
        (deletedCount (responses db) after, withResponses after db))
  end.

(* ------------------------------------------------------------------- *)
(** *** backend/data/notifications.js *)
(* ------------------------------------------------------------------- *)

Definition createNotification (notificationData : JsObject) : M Notification.t :=
  match asObjectId (prop "recipientId" notificationData) with
  | None => throw (InvalidId "recipient")
  | Some recipientId =>
  match asObjectId (prop "questionId" notificationData) with
  | None => throw (InvalidId "question")
  | Some questionId =>
  match asObjectId (prop "senderId" notificationData) with
  | None => throw (InvalidId "sender")
  | Some senderId =>
      type <- lift (validateString (prop "type" notificationData) "Type" 1 1000) ;;
      message <- lift (validateString (prop "message" notificationData) "Message" 1 1000) ;;
      let newNotification (id : ObjectId) :=
        Notification.mk id recipientId questionId senderId type message false
                        (now env) in
      result <- onCollection NOTIFICATIONS (fun db =>
                  let id := insertedId env NOTIFICATIONS in
                  (mkInserted true id,
                   withNotifications (notifications db ++ [newNotification id]) db)) ;;
      if negb (acknowledged result) then throw (FailedToCreate "notification")
      else ret (newNotification (result_insertedId result))
  end
  end
  end.

(** [{ $set: { isRead: true } }]. *)
Definition setRead (n : Notification.t) : Notification.t :=
  Notification.mk (Notification._id n) (Notification.recipientId n)
    (Notification.questionId n) (Notification.senderId n)
    (Notification.type n) (Notification.message n) true
    (Notification.createdAt n).

Definition markNotificationAsRead (notificationId : JsValue) : M Notification.t :=
  match asObjectId notificationId with
  | None => throw (InvalidId "notification")
  | Some id =>
      result <- onCollection NOTIFICATIONS (fun db =>
                  (option_map setRead (findOne Notification._id id (notifications db)),
                   withNotifications
                     (updateOne Notification._id id setRead (notifications db)) db)) ;;
      match result with
      | None => throw (NotFound "Notification")
      | Some n => ret n
      end
  end.

Definition deleteNotificationsByQuestionId (questionId : JsValue) : M nat :=
  match asObjectId questionId with
  | None => throw (InvalidId "question")
  | Some id =>
      onCollection NOTIFICATIONS (fun db =>
        let after := deleteMany (fun n => String.eqb (Notification.questionId n) id)
                                (notifications db) in
        (deletedCount (notifications db) after, withNotifications after db))
  end.

(* ------------------------------------------------------------------- *)
(** *** backend/data/questions.js *)
(* ------------------------------------------------------------------- *)

(** A question as the read paths return it: the document and the
    derived [posterName] ([None] is [null]). *)
Record QuestionView : Type := mkView
  { doc : Question.t; posterName : option string }.

(** The [$lookup] / [$addFields] / [$project] stages. *)
Definition addPosterName (studs : list Student.t) (q : Question.t) : QuestionView :=
  mkView q
    (if Question.isAnonymous q then Some "Anonymous"
     else match findOne Student._id (Question.posterId q) studs with
          | Some s => Some (Student.firstName s ++ " " ++ Student.lastName s)%string
          | None => None
          end).

Definition getQuestionById (questionId : JsValue) : M (option QuestionView) :=
  match asObjectId questionId with
  | None => throw (InvalidId "question")
  | Some id =>
      questions_ <- onCollection QUESTIONS (fun db =>
        (map (addPosterName (students db))
             (filter (fun q => String.eqb (Question._id q) id) (questions db)), db)) ;;
      ret (match questions_ with
           | q :: _ => Some q
           | [] => None
           end)
  end.

(** The [$match] stage of the listing. *)
Record MatchStage : Type := mkMatch
  { match_courseId : ObjectId; match_isResolved : option bool }.

Definition matchesStage (m : MatchStage) (q : Question.t) : bool :=
  String.eqb (Question.courseId q) (match_courseId m)
  && match match_isResolved m with
     | Some b => Bool.eqb (Question.isResolved q) b
     | None => true
     end.

(** [{ createdAt: 1 }] or [{ createdAt: -1 }]. *)
Inductive SortStage : Type := Ascending | Descending.

Definition createdBefore (s : SortStage) (a b : QuestionView) : bool :=
  match s with
  | Ascending => Z.leb (Question.createdAt (doc a)) (Question.createdAt (doc b))
  | Descending => Z.leb (Question.createdAt (doc b)) (Question.createdAt (doc a))
  end.

(** The [switch (sortOption)]. *)
Definition questionStages (courseId : ObjectId) (sortOption : string)
  : MatchStage * SortStage :=
  if String.eqb sortOption "newest" then (mkMatch courseId None, Descending)
  else if String.eqb sortOption "oldest" then (mkMatch courseId None, Ascending)
  else if String.eqb sortOption "answered" then (mkMatch courseId (Some true), Descending)
  else if String.eqb sortOption "unanswered" then (mkMatch courseId (Some false), Descending)
  else (mkMatch courseId None, Descending).

(** [sortOption] is [None] when the argument is left out. *)
Definition getQuestionsByCourseId (courseId : JsValue) (sortOption : option string)
  : M (list QuestionView) :=
  let sortOption := match sortOption with Some s => s | None => "newest" end in
  match asObjectId courseId with
  | None => throw (InvalidId "course")
  | Some id =>
      let (matchStage, sortStage) := questionStages id sortOption in
      onCollection QUESTIONS (fun db =>
        (sortDocs (createdBefore sortStage)
           (map (addPosterName (students db))
                (filter (matchesStage matchStage) (questions db))), db))
  end.

Record QuestionUpdateFields : Type := mkQuestionFields
  { set_title : option string;
    set_q_content : option string;
    set_isResolved : option bool }.

Definition questionAllowedUpdates : list string := ["title"; "content"; "isResolved"].

Fixpoint questionUpdateLoop (entries : JsObject) (updateFields : QuestionUpdateFields)
  : Result QuestionUpdateFields :=
  match entries with
  | [] => Ok updateFields
  | (key, value) :: rest =>
      if negb (existsb (String.eqb key) questionAllowedUpdates)
      then Throw (CannotUpdateField key)
      else if String.eqb key "title" then
        match validateString value "Title" 1 200 with
        | Ok s => questionUpdateLoop rest
                    (mkQuestionFields (Some s) (set_q_content updateFields)
                                      (set_isResolved updateFields))
        | Throw e => Throw e
        end
      else if String.eqb key "content" then
        match validateString value "Content" 1 2000 with
        | Ok s => questionUpdateLoop rest
                    (mkQuestionFields (set_title updateFields) (Some s)
                                      (set_isResolved updateFields))
        | Throw e => Throw e
        end
      else if String.eqb key "isResolved" then
        match value with
        | JBool b => questionUpdateLoop rest
                       (mkQuestionFields (set_title updateFields)
                                         (set_q_content updateFields) (Some b))
        | _ => Throw (MustBeBoolean "isResolved")
        end
      else questionUpdateLoop rest updateFields
  end.

Definition setQuestion (f : QuestionUpdateFields) (updatedAt : Z)
           (q : Question.t) : Question.t :=
  Question.mk (Question._id q) (Question.courseId q) (Question.posterId q)
    (match set_title f with Some t => t | None => Question.title q end)
    (match set_q_content f with Some c => c | None => Question.content q end)
    (Question.isAnonymous q)
    (match set_isResolved f with Some b => b | None => Question.isResolved q end)
    (Question.createdAt q) updatedAt.

Definition updateQuestion (questionId : JsValue) (updates : option JsObject)
  : M Question.t :=
  match asObjectId questionId with
  | None => throw (InvalidId "question")
  | Some id =>
      match updates with
      | None => throw NoUpdates
      | Some updates =>
          if Nat.eqb (length updates) 0 then throw NoUpdates
          else
            updateFields <- lift (questionUpdateLoop updates
                                    (mkQuestionFields None None None)) ;;
            let set := setQuestion updateFields (now env) in
            result <- onCollection QUESTIONS (fun db =>
                        (option_map set (findOne Question._id id (questions db)),
                         withQuestions (updateOne Question._id id set (questions db)) db)) ;;
            match result with
            | None => throw (NotFound "Question")
            | Some q => ret q
            end
      end
  end.

Definition deleteQuestion (questionId : JsValue) : M nat :=
  match asObjectId questionId with
  | None => throw (InvalidId "question")
  | Some id =>
      count <- onCollection QUESTIONS (fun db =>
                 let after := deleteOne Question._id id (questions db) in
                 (deletedCount (questions db) after, withQuestions after db)) ;;
      if Nat.eqb count 0 then throw (NotFound "Question") else ret count
  end.
(* ------------------------------------------------------------------- *)
(** *** backend/data/questions.js, the other operations *)
(* ------------------------------------------------------------------- *)

Definition createQuestion (questionData : JsObject) : M Question.t :=
  match asObjectId (prop "courseId" questionData) with
  | None => throw (InvalidId "course")
  | Some courseId =>
  match asObjectId (prop "posterId" questionData) with
  | None => throw (InvalidId "poster")
  | Some posterId =>
      title <- lift (validateString (prop "title" questionData) "Title" 1 200) ;;
      content <- lift (validateString (prop "content" questionData) "Content" 1 2000) ;;
      let isAnonymous :=
        match prop "isAnonymous" questionData with
        | JUndef => JBool false
        | v => v
        end in
      match isAnonymous with
      | JBool isAnonymous =>
          let newQuestion (id : ObjectId) :=
            Question.mk id courseId posterId title content isAnonymous false
                        (now env) (now env) in
          result <- onCollection QUESTIONS (fun db =>
                      let id := insertedId env QUESTIONS in
                      (mkInserted true id,
                       withQuestions (questions db ++ [newQuestion id]) db)) ;;
          if negb (acknowledged result) then throw (FailedToCreate "question")
          else ret (newQuestion (result_insertedId result))
      | _ => throw (MustBeBoolean "isAnonymous")
      end
  end
  end.

(** The [$group] stage [{ _id: '$courseId', count: { $sum: 1 } }]: one
    group per course met, in the order the courses are met. *)
Fixpoint countInGroup (courseId : ObjectId) (groups : list (ObjectId * nat))
  : list (ObjectId * nat) :=
  match groups with
  | [] => [(courseId, 1)]
  | (c, n) :: rest =>
      if String.eqb c courseId then (c, S n) :: rest
      else (c, n) :: countInGroup courseId rest
  end.

Definition groupByCourse (docs : list Question.t) : list (ObjectId * nat) :=
  fold_left (fun groups q => countInGroup (Question.courseId q) groups) docs [].

(** The loop [countsMap[result._id.toString()] = result.count]. *)
Fixpoint countsMapOf (results : list (ObjectId * nat)) (countsMap : JsObject)
  : JsObject :=
  match results with
  | [] => countsMap
  | (c, n) :: rest => countsMapOf rest (setProp c (JNum (Z.of_nat n)) countsMap)
  end.

(** [courseIds] is [None] when the argument is not an array. *)
Definition getNewQuestionCountsByCourseIds (courseIds : option (list JsValue))
  : M JsObject :=
  match courseIds with
  | None => ret []
  | Some courseIds =>
      if Nat.eqb (length courseIds) 0 then ret []
      else if negb (forallb isValidObjectId courseIds) then throw (InvalidId "course")
      else
        let twentyFourHoursAgo := (now env - 24 * 60 * 60 * 1000)%Z in
        results <- onCollection QUESTIONS (fun db =>
          (groupByCourse
             (filter (fun q =>
                        existsb (fun id => match asObjectId id with
                                           | Some c => String.eqb (Question.courseId q) c
                                           | None => false
                                           end) courseIds
                        && Z.leb twentyFourHoursAgo (Question.createdAt q))
                     (questions db)), db)) ;;
        ret (countsMapOf results [])
  end.

(* ------------------------------------------------------------------- *)
(** *** backend/data/responses.js, the listing *)
(* ------------------------------------------------------------------- *)

Record ResponseView : Type := mkResponseView
  { response_doc : Response.t; response_posterName : option string }.

Definition addResponsePosterName (studs : list Student.t) (r : Response.t)
  : ResponseView :=
  mkResponseView r
    (if Response.isAnonymous r then Some "Anonymous"
     else match findOne Student._id (Response.posterId r) studs with
          | Some s => Some (Student.firstName s ++ " " ++ Student.lastName s)%string
          | None => None
          end).

Definition responseCreatedBefore (s : SortStage) (a b : ResponseView) : bool :=
  match s with
  | Ascending =>
      Z.leb (Response.createdAt (response_doc a)) (Response.createdAt (response_doc b))
  | Descending =>
      Z.leb (Response.createdAt (response_doc b)) (Response.createdAt (response_doc a))
  end.

Definition responseSortStage (sortOption : string) : SortStage :=
  if String.eqb sortOption "newest" then Descending
  else if String.eqb sortOption "oldest" then Ascending
  else Descending.

Definition getResponsesByQuestionId (questionId : JsValue) (sortOption : option string)
  : M (list ResponseView) :=
  let sortOption := match sortOption with Some s => s | None => "newest" end in
  match asObjectId questionId with
  | None => throw (InvalidId "question")
  | Some id =>
      let sortStage := responseSortStage sortOption in
      onCollection RESPONSES (fun db =>
        (sortDocs (responseCreatedBefore sortStage)
           (map (addResponsePosterName (students db))
                (filter (fun r => String.eqb (Response.questionId r) id)
                        (responses db))), db))
  end.

(* ------------------------------------------------------------------- *)
(** *** backend/data/notifications.js, the other operations *)
(* ------------------------------------------------------------------- *)

Definition getNotificationById (notificationId : JsValue) : M (option Notification.t) :=
  match asObjectId notificationId with
  | None => throw (InvalidId "notification")
  | Some id =>
      onCollection NOTIFICATIONS (fun db =>
        (findOne Notification._id id (notifications db), db))
  end.

(** The query [{ recipientId, isRead: false }], or [{ recipientId }]. *)
Definition forStudent (id : ObjectId) (unreadOnly : bool) (n : Notification.t) : bool :=
  String.eqb (Notification.recipientId n) id
  && (if unreadOnly then Bool.eqb (Notification.isRead n) false else true).

Definition notificationNewerFirst (a b : Notification.t) : bool :=
  Z.leb (Notification.createdAt b) (Notification.createdAt a).

(** [unreadOnly] is [None] when the argument is left out. *)
Definition getNotificationsByStudentId (studentId : JsValue) (unreadOnly : option bool)
  : M (list Notification.t) :=
  let unreadOnly := match unreadOnly with Some b => b | None => true end in
  match asObjectId studentId with
  | None => throw (InvalidId "student")
  | Some id =>
      onCollection NOTIFICATIONS (fun db =>
        (sortDocs notificationNewerFirst
                  (filter (forStudent id unreadOnly) (notifications db)), db))
  end.

(** [updateMany({ recipientId, isRead: false }, { $set: { isRead: true } })];
    the result is [modifiedCount]. *)
Definition markAllNotificationsAsRead (studentId : JsValue) : M nat :=
  match asObjectId studentId with
  | None => throw (InvalidId "student")
  | Some id =>
      onCollection NOTIFICATIONS (fun db =>
        (length (filter (forStudent id true) (notifications db)),
         withNotifications
           (map (fun n => if forStudent id true n then setRead n else n)
                (notifications db)) db))
  end.

Definition getUnreadNotificationCount (studentId : JsValue) : M nat :=
  match asObjectId studentId with
  | None => throw (InvalidId "student")
  | Some id =>
      onCollection NOTIFICATIONS (fun db =>
        (length (filter (forStudent id true) (notifications db)), db))
  end.

Definition deleteNotification (notificationId : JsValue) : M nat :=
  match asObjectId notificationId with
  | None => throw (InvalidId "notification")
  | Some id =>
      count <- onCollection NOTIFICATIONS (fun db =>
                 let after := deleteOne Notification._id id (notifications db) in
                 (deletedCount (notifications db) after, withNotifications after db)) ;;
      if Nat.eqb count 0 then throw (NotFound "Notification") else ret count
  end.
End DataLayer.

(* ===================================================================== *)
(** ** The request, its validation chains and the handler's answer *)
(* ===================================================================== *)

(** [req.session.student], as the login route stores it. *)
Record SessionStudent : Type := mkSession
  { id : string; firstName : string }.

(** A request: the session (absent when not logged in), the route
    parameter ([:responseId], [:questionId] or [:notificationId]) and
    the parsed JSON body. *)
Record Request : Type := mkRequest
  { session : option SessionStudent;
    param : string;
    body : JsObject }.

Inductive Payload : Type :=
| ValidationErrors (errors : list string)   (* { success: false, errors } *)
| Failure (error : string)                  (* { success: false, error } *)
| ResponseBody (response : Response.t)      (* { success: true, response } *)
| QuestionBody (question : Question.t)      (* { success: true, question } *)
| NotificationBody (notification : Notification.t)
| Message (message : string)                (* { success: true, message } *)
| MessageCount (message : string) (count : nat).
                                            (* { success: true, message, count } *)

(** What a handler does with a request: [res.status(s).json(p)], or
    [next(error)]. *)
Inductive Outcome : Type :=
| Respond (status : nat) (payload : Payload)
| Next (error : Error).

(** The decimal digits of a natural integer. *)
Definition decimal (z : Z) : string := NilZero.string_of_int (Z.to_int z).

(** The double nearest to the positive integer [m] (ties to even), when
    it is finite. *)
Definition nearestDouble (m : Z) : option Z :=
  let e := (Z.log2 m - 52)%Z in
  if (e <=? 0)%Z then Some m
  else
    let q := Z.shiftr m e in
    let r := (m - Z.shiftl q e)%Z in
    let half := Z.shiftl 1 (e - 1) in
    let q' := if (half <? r)%Z || ((r =? half)%Z && Z.odd q) then (q + 1)%Z else q in
    let x := Z.shiftl q' e in
    if (1024 <=? Z.log2 x)%Z then None else Some x.

(** The candidates with [k] significant digits around [x], which has
    [d] digits: [x] cut after [k] digits, and the next one up. *)
Definition candidates (x : Z) (d k : nat) : Z * Z :=
  let scale := (10 ^ Z.of_nat (d - k))%Z in
  let lo := (x / scale)%Z in
  ((lo * scale)%Z, ((lo + 1) * scale)%Z).

Definition roundsTo (x v : Z) : bool :=
  match nearestDouble v with
  | Some y => (y =? x)%Z
  | None => false
  end.

(** The decimal with the fewest significant digits that reads back as
    the double [x]; of two with as many digits, the one closer to [x],
    and the even one when they are as close. *)
Fixpoint shortest (x : Z) (d k fuel : nat) : Z :=
  match fuel with
  | O => x
  | S fuel' =>
      let (lo, hi) := candidates x d k in
      let scale := (10 ^ Z.of_nat (d - k))%Z in
      match roundsTo x lo, roundsTo x hi with
      | true, true =>
          if (x - lo <? hi - x)%Z then lo
          else if (hi - x <? x - lo)%Z then hi
          else if Z.even (lo / scale) then lo else hi
      | true, false => lo
      | false, true => hi
      | false, false => shortest x d (S k) fuel'
      end
  end.

Fixpoint dropZeros (s : string) : string :=
  match s with
  | EmptyString => EmptyString
  | String c rest =>
      match dropZeros rest with
      | EmptyString => if Ascii.eqb c "0" then EmptyString else String c EmptyString
      | kept => String c kept
      end
  end.

(** [Number::toString] on a positive integral double. *)
Definition positiveToString (x : Z) : string :=
  let d := String.length (decimal x) in
  let v := decimal (shortest x d 1 (Nat.min d 17)) in
  let n := String.length v in
  if Nat.leb n 21 then v
  else
    match dropZeros v with
    | EmptyString => v
    | String c EmptyString => String c ("e+" ++ decimal (Z.of_nat (n - 1)))
    | String c rest => String c ("." ++ rest ++ "e+" ++ decimal (Z.of_nat (n - 1)))
    end.

(** [String(value)] for the number of the integer literal [z]: the
    digits up to 21 of them, the exponent form beyond, [Infinity] past
    the largest double. *)
Definition numberToString (z : Z) : string :=
  if (z =? 0)%Z then "0"
  else
    let sign := if (z <? 0)%Z then "-" else EmptyString in
    match nearestDouble (Z.abs z) with
    | Some x => sign ++ positiveToString x
    | None => sign ++ "Infinity"
    end.

(** The string a validator of express-validator looks at. *)
Definition toStr (v : JsValue) : string :=
  match v with
  | JUndef | JNull => EmptyString
  | JBool true => "true"
  | JBool false => "false"
  | JNum z => numberToString z
  | JStr s => s
  end.

(** [isBoolean()]. *)
Definition isBoolean (v : JsValue) : bool :=
  existsb (String.eqb (toStr v)) ["true"; "false"; "1"; "0"].

(** A chain reads a field of the body, may rewrite it (a sanitizer) and
    reports its messages. *)
Definition Chain := JsObject -> JsObject * list string.

(** [param(name).custom(v => { if (!isValidObjectId(v)) throw new Error(msg) })],
    and the same on a body field. *)
Definition checkObjectId (value : JsValue) (msg : string) : list string :=
  if isValidObjectId value then [] else [msg].

Definition bodyObjectId (field msg : string) : Chain :=
  fun b => (b, checkObjectId (prop field b) msg).

(** [body(field).optional().trim().isLength({ min, max }).withMessage(msg)]. *)
Definition bodyOptionalTrimLength (field : string) (min max : nat) (msg : string) : Chain :=
  fun b =>
    match prop field b with
    | JUndef => (b, [])
    | v =>
        let s := trim (toStr v) in
        (setProp field (JStr s) b,
         if Nat.leb min (String.length s) && Nat.leb (String.length s) max
         then [] else [msg])
    end.

(** [body(field).trim().notEmpty().withMessage(m1).isLength({ max }).withMessage(m2)]. *)
Definition bodyTrimNotEmptyMax (field : string) (m1 : string) (max : nat) (m2 : string)
  : Chain :=
  fun b =>
    let s := trim (toStr (prop field b)) in
    (setProp field (JStr s) b,
     (if Nat.eqb (String.length s) 0 then [m1] else [])
       ++ (if Nat.leb (String.length s) max then [] else [m2])).

(** [body(field).isBoolean().withMessage(msg)], and with [.optional()]. *)
Definition bodyBoolean (field msg : string) : Chain :=
  fun b => (b, if isBoolean (prop field b) then [] else [msg]).

Definition bodyOptionalBoolean (field msg : string) : Chain :=
  fun b =>
    match prop field b with
    | JUndef => (b, [])
    | v => (b, if isBoolean v then [] else [msg])
    end.

(** The chains of a route run in order on the body. *)
Fixpoint runChains (chains : list Chain) (b : JsObject) : JsObject * list string :=
  match chains with
  | [] => (b, [])
  | c :: rest =>
      let (b1, e1) := c b in
      let (b2, e2) := runChains rest b1 in
      (b2, e1 ++ e2)
  end.

Definition dquote : string := String "034"%char EmptyString.

(** [s.replace(/c/g, by)] for a one-character pattern. *)
Fixpoint replaceAll (c : ascii) (by_ : string) (s : string) : string :=
  match s with
  | EmptyString => EmptyString
  | String d rest =>
      if Ascii.eqb d c then (by_ ++ replaceAll c by_ rest)%string
      else String d (replaceAll c by_ rest)
  end.

(** [sanitizeString(input)] of backend/validation.js: six replacements
    in a row on a string, any other value as it is. *)
Definition sanitizeString (input : JsValue) : JsValue :=
  match input with
  | JStr s =>
      JStr (replaceAll "/" "&#x2F;"
             (replaceAll "'" "&#x27;"
               (replaceAll "034" "&quot;"
                 (replaceAll ">" "&gt;"
                   (replaceAll "<" "&lt;"
                     (replaceAll "&" "&amp;" s))))))
  | v => v
  end.

(** [validateBoolean(value, fieldName)] of backend/validation.js. *)
Definition validateBoolean (value : JsValue) (fieldName : string) : Result bool :=
  match value with
  | JUndef | JNull => Throw (IsRequired fieldName)
  | JBool b => Ok b
  | _ => Throw (MustBeBoolean fieldName)
  end.

(* ===================================================================== *)
(** ** The route handlers *)
(* ===================================================================== *)

Section Routes.
Variable env : Env.

(** The body of a handler inside its [try { ... } catch (error) { next(error) }]. *)
Definition handle (m : M Outcome) : Db -> Outcome * Db :=
  fun db =>
    match m db with
    | (Ok o, db') => (o, db')
    | (Throw e, db') => (Next e, db')
    end.

(** [requireAuth], then the validation chains, then the handler on
    the sanitized body. *)
Definition route (paramMsg : option string) (chains : list Chain)
           (handler : SessionStudent -> string -> JsObject -> M Outcome)
           (req : Request) : Db -> Outcome * Db :=
  fun db =>
    match session req with
    | None => (Respond 401 (Failure "Authentication required. Please log in."), db)
    | Some student =>
        let paramErrors :=
          match paramMsg with
          | Some msg => checkObjectId (JStr (param req)) msg
          | None => []
          end in
        let (body', bodyErrors) := runChains chains (body req) in
        match paramErrors ++ bodyErrors with
        | [] => handle (handler student (param req) body') db
        | errors => (Respond 400 (ValidationErrors errors), db)
        end
    end.

(* ------------------------------------------------------------------- *)
(** *** backend/routes/responses.js *)
(* ------------------------------------------------------------------- *)

(** [`${responderName} replied to your question: "${question.title}"`]. *)
Definition newResponseMessage (responderName title : string) : string :=
  (responderName ++ " replied to your question: " ++ dquote ++ title ++ dquote)%string.

(** [`Your response to "${question.title}" was marked as helpful!`]. *)
Definition helpfulMessage (title : string) : string :=
  ("Your response to " ++ dquote ++ title ++ dquote ++ " was marked as helpful!")%string.

(** The [try] block of POST /api/responses (lines 112-124): notify
    the question's poster, unless the responder is that poster. *)
Definition notifyQuestionPoster (student : SessionStudent)
           (questionId isAnonymous : JsValue) : M unit :=
  let posterId := id student in
  question <- getQuestionById env questionId ;;
  match question with
  | Some question =>
      if negb (String.eqb (Question.posterId (doc question)) posterId) then
        let responderName :=
          if truthy isAnonymous then "Someone" else firstName student in
        createNotification env
          [ ("recipientId", JStr (Question.posterId (doc question)));
            ("questionId", questionId);
            ("senderId", JStr posterId);
            ("type", JStr "new_response");
            ("message", JStr (newResponseMessage responderName
                                (Question.title (doc question)))) ] ;;;
        ret tt
      else ret tt
  | None => ret tt
  end.

(** [const { questionId, content, isAnonymous = false } = req.body]. *)
Definition isAnonymousOf (body : JsObject) : JsValue :=
  match prop "isAnonymous" body with JUndef => JBool false | v => v end.

Definition responseDataOf (student : SessionStudent) (body : JsObject) : JsObject :=
  [ ("questionId", prop "questionId" body); ("posterId", JStr (id student));
    ("content", prop "content" body); ("isAnonymous", isAnonymousOf body) ].

Definition postResponseChains : list Chain :=
  [ bodyObjectId "questionId" "Invalid question ID";
    bodyTrimNotEmptyMax "content" "Content is required" 1500
                        "Content must not exceed 1500 characters";
    bodyOptionalBoolean "isAnonymous" "isAnonymous must be a boolean" ].

(** POST /api/responses *)
Definition postResponse : Request -> Db -> Outcome * Db :=
  route None postResponseChains
    (fun student _ body =>
       newResponse <- createResponse env (responseDataOf student body) ;;
       tryCatch
         (notifyQuestionPoster student (prop "questionId" body) (isAnonymousOf body))
         (fun notifError => ret tt) ;;;
       ret (Respond 201 (ResponseBody newResponse))).

Definition patchResponseChains : list Chain :=
  [ bodyOptionalTrimLength "content" 1 1500 "Content must be 1-1500 characters" ].

(** PATCH /api/responses/:responseId *)
Definition patchResponse : Request -> Db -> Outcome * Db :=
  route (Some "Invalid response ID") patchResponseChains
    (fun student responseId updates =>
       let currentUserId := id student in
       response <- getResponseById env (JStr responseId) ;;
       match response with
       | None => ret (Respond 404 (Failure "Response not found"))
       | Some response =>
           if negb (String.eqb (Response.posterId response) currentUserId) then
             ret (Respond 403 (Failure "You can only edit your own responses"))
           else
             updatedResponse <- updateResponse env (JStr responseId) (Some updates) ;;
             ret (Respond 200 (ResponseBody updatedResponse))
       end).

(** DELETE /api/responses/:responseId *)
Definition deleteResponseRoute : Request -> Db -> Outcome * Db :=
  route (Some "Invalid response ID") []
    (fun student responseId _ =>
       let currentUserId := id student in
       response <- getResponseById env (JStr responseId) ;;
       match response with
       | None => ret (Respond 404 (Failure "Response not found"))
       | Some response =>
           if negb (String.eqb (Response.posterId response) currentUserId) then
             ret (Respond 403 (Failure "You can only delete your own responses"))
           else
             deleteResponse env (JStr responseId) ;;;
             ret (Respond 200 (Message "Response deleted successfully"))
       end).

(** The [try] block of PATCH /api/responses/:responseId/helpful
    (lines 301-313): notify the response's poster. *)
Definition notifyResponsePoster (response : Response.t) (currentUserId : string)
  : M unit :=
  question <- getQuestionById env (JStr (Response.questionId response)) ;;
  match question with
  | Some question =>
      createNotification env
        [ ("recipientId", JStr (Response.posterId response));
          ("questionId", JStr (Response.questionId response));
          ("senderId", JStr currentUserId);
          ("type", JStr "helpful_mark");
          ("message", JStr (helpfulMessage (Question.title (doc question)))) ] ;;;
      ret tt
  | None => ret tt
  end.

Definition patchHelpfulChains : list Chain :=
  [ bodyBoolean "isHelpful" "isHelpful must be a boolean" ].

(** PATCH /api/responses/:responseId/helpful *)
Definition patchHelpful : Request -> Db -> Outcome * Db :=
  route (Some "Invalid response ID") patchHelpfulChains
    (fun student responseId body =>
       let isHelpful := prop "isHelpful" body in
       let currentUserId := id student in
       response <- getResponseById env (JStr responseId) ;;
       match response with
       | None => ret (Respond 404 (Failure "Response not found"))
       | Some response =>
           updatedResponse <- updateResponse env (JStr responseId)
                                (Some [("isHelpful", isHelpful)]) ;;
           (if truthy isHelpful
               && negb (String.eqb (Response.posterId response) currentUserId)
            then
              tryCatch (notifyResponsePoster response currentUserId)
                       (fun notifError => ret tt)
            else ret tt) ;;;
           ret (Respond 200 (ResponseBody updatedResponse))
       end).

(* ------------------------------------------------------------------- *)
(** *** backend/routes/questions.js *)
(* ------------------------------------------------------------------- *)

Definition patchQuestionChains : list Chain :=
  [ bodyOptionalTrimLength "title" 1 200 "Title must be 1-200 characters";
    bodyOptionalTrimLength "content" 1 2000 "Content must be 1-2000 characters";
    bodyOptionalBoolean "isResolved" "isResolved must be a boolean" ].

(** PATCH /api/questions/:questionId *)
Definition patchQuestion : Request -> Db -> Outcome * Db :=
  route (Some "Invalid question ID") patchQuestionChains
    (fun student questionId updates =>
       let currentUserId := id student in
       question <- getQuestionById env (JStr questionId) ;;
       match question with
       | None => ret (Respond 404 (Failure "Question not found"))
       | Some question =>
           if negb (String.eqb (Question.posterId (doc question)) currentUserId) then
             ret (Respond 403 (Failure "You can only edit your own questions"))
           else
             updatedQuestion <- updateQuestion env (JStr questionId) (Some updates) ;;
             ret (Respond 200 (QuestionBody updatedQuestion))
       end).

(** DELETE /api/questions/:questionId *)
Definition deleteQuestionRoute : Request -> Db -> Outcome * Db :=
  route (Some "Invalid question ID") []
    (fun student questionId _ =>
       let currentUserId := id student in
       question <- getQuestionById env (JStr questionId) ;;
       match question with
       | None => ret (Respond 404 (Failure "Question not found"))
       | Some question =>
           if negb (String.eqb (Question.posterId (doc question)) currentUserId) then
             ret (Respond 403 (Failure "You can only delete your own questions"))
           else
             deleteResponsesByQuestionId env (JStr questionId) ;;;
             deleteNotificationsByQuestionId env (JStr questionId) ;;;
             deleteQuestion env (JStr questionId) ;;;
             ret (Respond 200 (Message "Question deleted successfully"))
       end).

(* ------------------------------------------------------------------- *)
(** *** backend/routes/notifications.js *)
(* ------------------------------------------------------------------- *)

(** PATCH /api/notifications/:notificationId/read *)
Definition patchNotificationRead : Request -> Db -> Outcome * Db :=
  route (Some "Invalid notification ID") []
    (fun _ notificationId _ =>
       updatedNotification <- markNotificationAsRead env (JStr notificationId) ;;
       ret (Respond 200 (NotificationBody updatedNotification))).

(** PATCH /api/notifications/read-all: no validation chain; the student
    is the one of the session. *)
Definition patchNotificationsReadAll : Request -> Db -> Outcome * Db :=
  route None []
    (fun student _ _ =>
       let studentId := id student in
       modifiedCount <- markAllNotificationsAsRead env (JStr studentId) ;;
       ret (Respond 200 (MessageCount "All notifications marked as read"
                                      modifiedCount))).

Definition postQuestionChains : list Chain :=
  [ bodyObjectId "courseId" "Invalid course ID";
    bodyTrimNotEmptyMax "title" "Title is required" 200
                        "Title must not exceed 200 characters";
    bodyTrimNotEmptyMax "content" "Content is required" 2000
                        "Content must not exceed 2000 characters";
    bodyOptionalBoolean "isAnonymous" "isAnonymous must be a boolean" ].

(** [const { courseId, title, content, isAnonymous = false } = req.body]
    and the session's student as [posterId]. *)
Definition newQuestionPayload (student : SessionStudent) (body : JsObject) : JsObject :=
  [ ("courseId", prop "courseId" body); ("posterId", JStr (id student));
    ("title", prop "title" body); ("content", prop "content" body);
    ("isAnonymous", isAnonymousOf body) ].

(** POST /api/questions *)
Definition postQuestion : Request -> Db -> Outcome * Db :=
  route None postQuestionChains
    (fun student _ body =>
       newQuestion <- createQuestion env (newQuestionPayload student body) ;;
       ret (Respond 201 (QuestionBody newQuestion))).
End Routes.

(* ===================================================================== *)
(** * Vocabulary of the statements *)
(* ===================================================================== *)

(** A string that is empty or starts with a visible character. *)
Definition startsVisible (s : string) : bool :=
  match s with
  | EmptyString => true
  | String c _ => negb (isWhite c)
  end.

(** The [isAnonymous] field of a body: left out, or a boolean. *)
Definition anonymousField (a : option bool) : JsValue :=
  match a with Some x => JBool x | None => JUndef end.

Definition anonymousFlag (a : option bool) : bool :=
  match a with Some x => x | None => false end.

(** [`Someone`] or the responder's first name. *)
Definition responderNameOf (student : SessionStudent) (anonymous : bool) : string :=
  if anonymous then "Someone" else firstName student.

(** A key outside the allow-list, somewhere among the entries. *)
Definition hasUnlisted (allowed : list string) (entries : JsObject) : Prop :=
  exists key, In key (map fst entries) /\ ~ In key allowed.

(** What [optional().trim().isLength({ min, max })] accepts for a field:
    no value, or a value whose string, trimmed, has [lo] to [hi] code
    units. *)
Definition optionalTextOk (field : string) (lo hi : nat) (body : JsObject) : Prop :=
  prop field body = JUndef
  \/ lo <= String.length (trim (toStr (prop field body))) <= hi.

(** What [optional().isBoolean()] accepts for a field. *)
Definition optionalBooleanOk (field : string) (body : JsObject) : Prop :=
  prop field body = JUndef \/ isBoolean (prop field body) = true.

(** Questions listed from the oldest to the newest, and the reverse. *)
Definition oldestFirst (l : list QuestionView) : Prop :=
  StronglySorted
    (fun a b => (Question.createdAt (doc a) <= Question.createdAt (doc b))%Z) l.

Definition newestFirst (l : list QuestionView) : Prop :=
  StronglySorted
    (fun a b => (Question.createdAt (doc b) <= Question.createdAt (doc a))%Z) l.

(** The state a computation leaves satisfies [P] whenever the state it
    starts from does. *)
Definition preserves {A} (P : Db -> Prop) (m : M A) : Prop :=
  forall db, P db -> P (snd (m db)).

(** An id in the form the driver stores and [isValidObjectId] accepts. *)
Definition validId (i : ObjectId) : Prop := isValidObjectId (JStr i) = true.

(** A stored text: trimmed, and within its length bounds. *)
Definition textOk (lo hi : nat) (s : string) : Prop :=
  trim s = s /\ lo <= String.length s <= hi.

Definition questionOk (q : Question.t) : Prop :=
  validId (Question._id q) /\ validId (Question.courseId q)
  /\ validId (Question.posterId q)
  /\ textOk 1 200 (Question.title q) /\ textOk 1 2000 (Question.content q).

Definition responseOk (r : Response.t) : Prop :=
  validId (Response._id r) /\ validId (Response.questionId r)
  /\ validId (Response.posterId r) /\ textOk 1 1500 (Response.content r).

Definition notificationOk (n : Notification.t) : Prop :=
  validId (Notification._id n) /\ validId (Notification.recipientId n)
  /\ validId (Notification.questionId n) /\ validId (Notification.senderId n)
  /\ textOk 1 1000 (Notification.type n) /\ textOk 1 1000 (Notification.message n).

(** Every stored document has well-formed ids and texts within the caps
    the data layer validates. *)
Definition wellFormed (db : Db) : Prop :=
  Forall questionOk (questions db)
  /\ Forall responseOk (responses db)
  /\ Forall notificationOk (notifications db).

(** The driver hands out well-formed ids. *)
Definition freshIdsValid (env : Env) : Prop :=
  forall c, validId (insertedId env c).

(** The routes that write to the database: every POST, PATCH and DELETE
    route of the responses, questions and notifications routers.  (The
    other routes of the backend, the GET routes and the login and logout
    of the auth router, write no collection.) *)
Inductive Endpoint : Type :=
| PostResponse | PatchResponse | DeleteResponse | PatchHelpful
| PostQuestion | PatchQuestion | DeleteQuestion
| PatchNotificationRead | PatchNotificationsReadAll.

Definition serve (env : Env) (e : Endpoint) : Request -> Db -> Outcome * Db :=
  match e with
  | PostResponse => postResponse env
  | PatchResponse => patchResponse env
  | DeleteResponse => deleteResponseRoute env
  | PatchHelpful => patchHelpful env
  | PostQuestion => postQuestion env
  | PatchQuestion => patchQuestion env
  | DeleteQuestion => deleteQuestionRoute env
  | PatchNotificationRead => patchNotificationRead env
  | PatchNotificationsReadAll => patchNotificationsReadAll env
  end.

(** A history of requests, each with the environment it ran in. *)
Fixpoint serveAll (history : list (Env * Endpoint * Request)) (db : Db) : Db :=
  match history with
  | [] => db
  | (env, e, req) :: rest => serveAll rest (snd (serve env e req db))
  end.

(** What identifies a question or a response and who owns it: the
    fields no update may change. *)
Definition questionIdentity (q : Question.t)
  : ObjectId * ObjectId * ObjectId * bool * Z :=
  (Question._id q, Question.courseId q, Question.posterId q,
   Question.isAnonymous q, Question.createdAt q).

Definition responseIdentity (r : Response.t)
  : ObjectId * ObjectId * ObjectId * bool * Z :=
  (Response._id r, Response.questionId r, Response.posterId r,
   Response.isAnonymous r, Response.createdAt r).

(** The same students, and the same questions and responses with the
    same owners, in the same order. *)
Definition sameEntities (db db' : Db) : Prop :=
  students db' = students db
  /\ map questionIdentity (questions db') = map questionIdentity (questions db)
  /\ map responseIdentity (responses db') = map responseIdentity (responses db).

(** The escape of one character by [sanitizeString]. *)
Definition escapeChar (c : ascii) : string :=
  if Ascii.eqb c "&" then "&amp;"
  else if Ascii.eqb c "<" then "&lt;"
  else if Ascii.eqb c ">" then "&gt;"
  else if Ascii.eqb c "034" then "&quot;"
  else if Ascii.eqb c "'" then "&#x27;"
  else if Ascii.eqb c "/" then "&#x2F;"
  else String c EmptyString.

Fixpoint escape (s : string) : string :=
  match s with
  | EmptyString => EmptyString
  | String c rest => (escapeChar c ++ escape rest)%string
  end.

(** The characters [sanitizeString] rewrites. *)
Definition isMarkup (c : ascii) : bool :=
  Ascii.eqb c "<" || Ascii.eqb c ">" || Ascii.eqb c "034"
  || Ascii.eqb c "'" || Ascii.eqb c "/".

(** The count a [$group] result holds for a course, 0 when it has no
    group. *)
Definition groupCountOf (c : ObjectId) (groups : list (ObjectId * nat)) : nat :=
  match findOne fst c groups with
  | Some (_, n) => n
  | None => 0
  end.

(** The number of stored questions of a course asked at [since] or later. *)
Definition recentCount (courseId : ObjectId) (since : Z) (qs : list Question.t) : nat :=
  length (filter (fun q => String.eqb (Question.courseId q) courseId
                           && Z.leb since (Question.createdAt q)) qs).

(* ===================================================================== *)
(** * A sample forum *)
(* ===================================================================== *)

(** Alice asks a question in a course, Bob answers it and Alice is
    notified; Carol is a third student.  The clock and the ids the
    driver hands out are fixed. *)
Module Sample.
Definition aliceId : ObjectId := "65a000000000000000000001".
Definition bobId : ObjectId := "65a000000000000000000002".
Definition carolId : ObjectId := "65a000000000000000000003".
Definition courseId : ObjectId := "65c000000000000000000001".
Definition questionId : ObjectId := "65d000000000000000000001".
Definition responseId : ObjectId := "65e000000000000000000001".
Definition notificationId : ObjectId := "65f000000000000000000001".

Definition alice : SessionStudent := mkSession aliceId "Alice".
Definition bob : SessionStudent := mkSession bobId "Bob".
Definition carol : SessionStudent := mkSession carolId "Carol".

Definition question : Question.t :=
  Question.mk questionId courseId aliceId "How do I prove this" "I am stuck."
              false false 100 100.

Definition response : Response.t :=
  Response.mk responseId questionId bobId "By induction." false false 200 200.

Definition notification : Notification.t :=
  Notification.mk notificationId aliceId questionId bobId "new_response"
                  "Bob replied to your question" false 200.

Definition db : Db :=
  mkDb [ Student.mk aliceId "Alice" "Ames"; Student.mk bobId "Bob" "Berg";
         Student.mk carolId "Carol" "Cole" ]
       [ question ] [ response ] [ notification ].

Definition freshId (c : Coll) : ObjectId :=
  match c with
  | RESPONSES => "65e0000000000000000000ff"
  | NOTIFICATIONS => "65f0000000000000000000ff"
  | _ => "6500000000000000000000ff"
  end.

(** Every collection answers. *)
Definition env : Env := mkEnv 1000 freshId (fun _ => false).

(** The notifications collection cannot be reached. *)
Definition envNoNotifications : Env :=
  mkEnv 1000 freshId
        (fun c => match c with NOTIFICATIONS => true | _ => false end).
End Sample.

(** Three questions of one course asked at times 10 < 20 < 30, the
    middle one resolved, and a question of another course. *)
Definition threeQuestions : Db :=
  mkDb []
    [ Question.mk "65d000000000000000000002" Sample.courseId Sample.bobId
                  "Second" "B" false true 20 20;
      Question.mk "65d000000000000000000003" Sample.courseId Sample.carolId
                  "Third" "C" false false 30 30;
      Question.mk "65d000000000000000000009" "65c000000000000000000009"
                  Sample.bobId "Elsewhere" "E" false true 25 25;
      Question.mk "65d000000000000000000001" Sample.courseId Sample.aliceId
                  "First" "A" false false 10 10 ]
    [] [].

(* ===================================================================== *)
(** * Facts about the embedding *)
(* ===================================================================== *)

(** ** Strings and [trim] *)

Lemma allChars_append (p : ascii -> bool) (a b : string) :
  allChars p (a ++ b)%string = allChars p a && allChars p b.
Proof.
  induction a as [|c a IH]; simpl; [reflexivity|].
  rewrite IH. apply andb_assoc.
Qed.

Lemma string_length_append (a b : string) :
  String.length (a ++ b)%string = String.length a + String.length b.
Proof. induction a as [|c a IH]; simpl; [reflexivity | now rewrite IH]. Qed.

Lemma trimStart_length (s : string) : String.length (trimStart s) <= String.length s.
Proof.
  induction s as [|c s IH]; simpl; [lia|].
  destruct (isWhite c); simpl; lia.
Qed.

Lemma trimEnd_length (s : string) : String.length (trimEnd s) <= String.length s.
Proof.
  induction s as [|c s IH]; simpl; [lia|].
  destruct (trimEnd s) as [|d t]; [destruct (isWhite c)|]; simpl in *; lia.
Qed.

Lemma trim_length (s : string) : String.length (trim s) <= String.length s.
Proof.
  unfold trim. pose proof (trimEnd_length (trimStart s)).
  pose proof (trimStart_length s). lia.
Qed.

Lemma trimEnd_empty (s : string) :
  trimEnd s = EmptyString <-> allChars isWhite s = true.
Proof.
  induction s as [|c s IH]; simpl; [tauto|].
  destruct (trimEnd s) as [|d t].
  - destruct (isWhite c); simpl.
    + split; intros _; [now apply IH | reflexivity].
    + split; discriminate.
  - split; [discriminate|].
    intros H. apply andb_true_iff in H. destruct H as [_ H].
    apply IH in H. discriminate.
Qed.

Lemma trimStart_white (s : string) :
  allChars isWhite (trimStart s) = allChars isWhite s.
Proof.
  induction s as [|c s IH]; simpl; [reflexivity|].
  destruct (isWhite c) eqn:E; simpl; [exact IH | now rewrite E].
Qed.

Lemma trim_empty (s : string) :
  trim s = EmptyString <-> allChars isWhite s = true.
Proof. unfold trim. rewrite trimEnd_empty. now rewrite trimStart_white. Qed.

Lemma trimStart_startsVisible (s : string) : startsVisible (trimStart s) = true.
Proof.
  induction s as [|c s IH]; simpl; [reflexivity|].
  destruct (isWhite c) eqn:E; simpl; [exact IH | now rewrite E].
Qed.

Lemma trimEnd_startsVisible (s : string) :
  startsVisible s = true -> startsVisible (trimEnd s) = true.
Proof.
  destruct s as [|c s]; simpl; [reflexivity|].
  intros H. destruct (trimEnd s); [destruct (isWhite c) eqn:W|]; simpl;
    try rewrite W; auto.
Qed.

Lemma trimStart_fixed (s : string) : startsVisible s = true -> trimStart s = s.
Proof.
  destruct s as [|c s]; simpl; [reflexivity|].
  intros H. apply negb_true_iff in H. now rewrite H.
Qed.

Lemma trimEnd_idempotent (s : string) : trimEnd (trimEnd s) = trimEnd s.
Proof.
  induction s as [|c s IH]; simpl; [reflexivity|].
  destruct (trimEnd s) as [|d t] eqn:E.
  - destruct (isWhite c) eqn:W; simpl; [reflexivity | now rewrite W].
  - simpl in *. now rewrite IH.
Qed.

Lemma trim_idempotent (s : string) : trim (trim s) = trim s.
Proof.
  unfold trim at 1.
  rewrite trimStart_fixed.
  - unfold trim. apply trimEnd_idempotent.
  - unfold trim. apply trimEnd_startsVisible, trimStart_startsVisible.
Qed.

(** [validateString] on a string whose trimmed length is in range. *)
Lemma validateString_ok (s field : string) (lo hi : nat) :
  lo <= String.length (trim s) <= hi ->
  validateString (JStr s) field lo hi = Ok (trim s).
Proof.
  intros [Hlo Hhi]. unfold validateString.
  destruct (Nat.ltb_spec (String.length (trim s)) lo); [lia|].
  destruct (Nat.ltb_spec hi (String.length (trim s))); [lia|].
  reflexivity.
Qed.

Lemma trim_visible_length (s : string) :
  allChars isWhite s = false -> 1 <= String.length (trim s).
Proof.
  intros H. destruct (trim s) eqn:E; simpl; [|lia].
  apply trim_empty in E. congruence.
Qed.

(** The white space of [trim], by code unit: TAB, LF, VT, FF, CR, SP
    and NBSP. *)
Lemma isWhite_code_units (c : ascii) :
  isWhite c = existsb (Nat.eqb (nat_of_ascii c)) [9; 10; 11; 12; 13; 32; 160].
Proof. destruct c as [[] [] [] [] [] [] [] []]; reflexivity. Qed.

(** A no-break space (U+00A0) is trimmed like a space: text padded with
    it is stored without it, and text made of it alone is empty. *)
Example no_break_space_is_trimmed :
  trim (String "160" (" Hi " ++ String "160" EmptyString)) = "Hi"
  /\ validateString (JStr (String "160" EmptyString)) "Content" 1 1500
     = Throw (TooShort "Content" 1)
  /\ validateString (JStr (String "160" "Hi")) "Title" 1 200 = Ok "Hi".
Proof. repeat split. Qed.

(** ** Numbers as strings *)

(** Integers print with all their digits up to the largest safe one;
    beyond, the digits are those of the nearest double, and from 1e21
    on the exponent form is used. *)
Example numbers_as_strings :
  map numberToString
      [0; 1; -42; 1500; 9007199254740991; 9007199254740993;
       18446744073709551616; 10 ^ 20; 10 ^ 21; 10 ^ 23;
       123456789012345678901234567890; 2 ^ 1024]%Z
  = [ "0"; "1"; "-42"; "1500"; "9007199254740991"; "9007199254740992";
      "18446744073709552000"; "100000000000000000000"; "1e+21"; "1e+23";
      "1.2345678901234568e+29"; "Infinity" ].
Proof. vm_compute. reflexivity. Qed.

(** ** Object ids *)

Lemma asObjectId_valid (s : string) :
  isValidObjectId (JStr s) = true -> asObjectId (JStr s) = Some s.
Proof.
  unfold isValidObjectId. simpl.
  destruct (Nat.eqb (String.length s) 24 && allChars isLowerHex s);
    [reflexivity | discriminate].
Qed.

Lemma asObjectId_some (v : JsValue) (o : ObjectId) :
  asObjectId v = Some o -> v = JStr o.
Proof.
  destruct v; simpl; try discriminate.
  destruct (Nat.eqb (String.length s) 24 && allChars isLowerHex s);
    [intros [= ->]; reflexivity | discriminate].
Qed.

(** ** Documents of a collection *)

Section DocumentFacts.
Context {D : Type}.
Variable idOf : D -> ObjectId.

Lemma findOne_found (i : ObjectId) (docs : list D) (d : D) :
  findOne idOf i docs = Some d -> In d docs /\ idOf d = i.
Proof.
  induction docs as [|e rest IH]; simpl; [discriminate|].
  destruct (String.eqb_spec (idOf e) i) as [E|E].
  - intros [= ->]. auto.
  - intros H. destruct (IH H). auto.
Qed.

Lemma findOne_absent (i : ObjectId) (docs : list D) :
  findOne idOf i docs = None <-> (forall d, In d docs -> idOf d <> i).
Proof.
  induction docs as [|e rest IH]; simpl.
  - split; [intros _ d [] | reflexivity].
  - destruct (String.eqb_spec (idOf e) i) as [E|E].
    + split; [discriminate|]. intros H. exfalso. apply (H e); auto.
    + rewrite IH. split.
      * intros H d [<-|Hd]; auto.
      * intros H d Hd. apply H. auto.
Qed.

(** The first document of a [$match] on [_id] is the one [findOne] gives. *)
Lemma filter_first (i : ObjectId) (docs : list D) :
  match filter (fun d => String.eqb (idOf d) i) docs with
  | d :: _ => Some d
  | [] => None
  end = findOne idOf i docs.
Proof.
  induction docs as [|e rest IH]; simpl; [reflexivity|].
  destruct (String.eqb (idOf e) i); [reflexivity | exact IH].
Qed.

Section Update.
Variable set : D -> D.
Hypothesis set_keeps_id : forall d, idOf (set d) = idOf d.

Lemma findOne_updateOne (i : ObjectId) (docs : list D) :
  findOne idOf i (updateOne idOf i set docs)
  = option_map set (findOne idOf i docs).
Proof.
  induction docs as [|e rest IH]; simpl; [reflexivity|].
  destruct (String.eqb (idOf e) i) eqn:E; simpl.
  - now rewrite set_keeps_id, E.
  - now rewrite E.
Qed.

Lemma findOne_updateOne_other (i j : ObjectId) (docs : list D) :
  j <> i ->
  findOne idOf j (updateOne idOf i set docs) = findOne idOf j docs.
Proof.
  intros Hij. induction docs as [|e rest IH]; simpl; [reflexivity|].
  destruct (String.eqb_spec (idOf e) i) as [E|E]; simpl.
  - rewrite set_keeps_id.
    destruct (String.eqb_spec (idOf e) j); [congruence | reflexivity].
  - now rewrite IH.
Qed.

Lemma updateOne_length (i : ObjectId) (docs : list D) :
  length (updateOne idOf i set docs) = length docs.
Proof.
  induction docs as [|e rest IH]; simpl; [reflexivity|].
  destruct (String.eqb (idOf e) i); simpl; congruence.
Qed.
End Update.

Lemma deleteOne_length (i : ObjectId) (docs : list D) (d : D) :
  findOne idOf i docs = Some d ->
  length docs = S (length (deleteOne idOf i docs)).
Proof.
  induction docs as [|e rest IH]; simpl; [discriminate|].
  destruct (String.eqb (idOf e) i); intros H; [reflexivity|].
  simpl. f_equal. auto.
Qed.

Lemma deleteOne_count (i : ObjectId) (docs : list D) (d : D) :
  findOne idOf i docs = Some d ->
  deletedCount docs (deleteOne idOf i docs) = 1.
Proof.
  intros H. unfold deletedCount. rewrite (deleteOne_length i docs d H). lia.
Qed.

(** With the unique index on [_id], the deleted document is gone. *)
Lemma findOne_deleteOne (i : ObjectId) (docs : list D) :
  NoDup (map idOf docs) -> findOne idOf i (deleteOne idOf i docs) = None.
Proof.
  induction docs as [|e rest IH]; simpl; [reflexivity|].
  intros Hnd. inversion Hnd as [|? ? Hnotin Hrest]; subst.
  destruct (String.eqb_spec (idOf e) i) as [E|E].
  - apply findOne_absent. intros d Hd Hid. apply Hnotin.
    rewrite E, <- Hid. now apply in_map.
  - simpl. destruct (String.eqb_spec (idOf e) i); [contradiction|]. auto.
Qed.

Lemma deleteMany_spec (matches : D -> bool) (docs : list D) (d : D) :
  In d (deleteMany matches docs) <-> In d docs /\ matches d = false.
Proof.
  unfold deleteMany. rewrite filter_In. now rewrite negb_true_iff.
Qed.
End DocumentFacts.

(** ** The data layer, operation by operation *)

Lemma bind_eq {A B} (m : M A) (k : A -> M B) (db : Db) :
  bind m k db
  = match m db with
    | (Ok a, db') => k a db'
    | (Throw e, db') => (Throw e, db')
    end.
Proof. reflexivity. Qed.

Lemma withResponses_same (db : Db) : withResponses (responses db) db = db.
Proof. now destruct db. Qed.

Lemma withNotifications_same (db : Db) : withNotifications (notifications db) db = db.
Proof. now destruct db. Qed.

Lemma withQuestions_same (db : Db) : withQuestions (questions db) db = db.
Proof. now destruct db. Qed.

Lemma updateOne_absent {D} (idOf : D -> ObjectId) (i : ObjectId) (set : D -> D)
      (docs : list D) :
  findOne idOf i docs = None -> updateOne idOf i set docs = docs.
Proof.
  induction docs as [|e rest IH]; simpl; [reflexivity|].
  destruct (String.eqb (idOf e) i); [discriminate|].
  intros H. now rewrite IH.
Qed.

Section DataFacts.
Variable env : Env.

Lemma onCollection_eq {A} (c : Coll) (op : Db -> A * Db) (db : Db) :
  onCollection env c op db
  = if unreachable env c then (Throw StorageFailure, db)
    else (Ok (fst (op db)), snd (op db)).
Proof.
  unfold onCollection. destruct (unreachable env c); [reflexivity|].
  now destruct (op db).
Qed.

Lemma getResponseById_eq (i : string) (db : Db) :
  isValidObjectId (JStr i) = true ->
  getResponseById env (JStr i) db
  = if unreachable env RESPONSES then (Throw StorageFailure, db)
    else (Ok (findOne Response._id i (responses db)), db).
Proof.
  intros Hv. unfold getResponseById. rewrite (asObjectId_valid _ Hv).
  apply onCollection_eq.
Qed.

Lemma getQuestionById_eq (i : string) (db : Db) :
  isValidObjectId (JStr i) = true ->
  getQuestionById env (JStr i) db
  = if unreachable env QUESTIONS then (Throw StorageFailure, db)
    else (Ok (option_map (addPosterName (students db))
                         (findOne Question._id i (questions db))), db).
Proof.
  intros Hv. unfold getQuestionById. rewrite (asObjectId_valid _ Hv).
  unfold bind. rewrite onCollection_eq.
  destruct (unreachable env QUESTIONS); [reflexivity|].
  cbn [fst snd ret]. f_equal. f_equal.
  rewrite <- (filter_first Question._id i (questions db)).
  now destruct (filter _ (questions db)).
Qed.

(** [updateResponse(id, { isHelpful })] with a boolean. *)
Lemma updateResponse_isHelpful (i : string) (b : bool) (db : Db) :
  isValidObjectId (JStr i) = true ->
  updateResponse env (JStr i) (Some [("isHelpful", JBool b)]) db
  = if unreachable env RESPONSES then (Throw StorageFailure, db)
    else
      let set := setResponse (mkResponseFields None (Some b)) (now env) in
      match findOne Response._id i (responses db) with
      | Some r => (Ok (set r),
                   withResponses (updateOne Response._id i set (responses db)) db)
      | None => (Throw (NotFound "Response"), db)
      end.
Proof.
  intros Hv. unfold updateResponse. rewrite (asObjectId_valid _ Hv).
  cbn [length Nat.eqb responseUpdateLoop responseAllowedUpdates existsb
       String.eqb Ascii.eqb Bool.eqb negb orb lift bind set_r_content].
  unfold bind. rewrite onCollection_eq.
  destruct (unreachable env RESPONSES); [reflexivity|].
  cbn [fst snd].
  destruct (findOne Response._id i (responses db)) eqn:F; cbn [option_map].
  - reflexivity.
  - rewrite (updateOne_absent _ _ _ _ F). now rewrite withResponses_same.
Qed.

Lemma createNotification_eq (recipient question sender type message : string)
      (db : Db) :
  isValidObjectId (JStr recipient) = true ->
  isValidObjectId (JStr question) = true ->
  isValidObjectId (JStr sender) = true ->
  1 <= String.length (trim type) <= 1000 ->
  1 <= String.length (trim message) <= 1000 ->
  createNotification env
    [ ("recipientId", JStr recipient); ("questionId", JStr question);
      ("senderId", JStr sender); ("type", JStr type); ("message", JStr message) ] db
  = if unreachable env NOTIFICATIONS then (Throw StorageFailure, db)
    else
      let n := Notification.mk (insertedId env NOTIFICATIONS) recipient question
                 sender (trim type) (trim message) false (now env) in
      (Ok n, withNotifications (notifications db ++ [n]) db).
Proof.
  intros Hr Hq Hs Ht Hm. unfold createNotification.
  cbn [prop String.eqb Ascii.eqb Bool.eqb].
  rewrite (asObjectId_valid _ Hr), (asObjectId_valid _ Hq), (asObjectId_valid _ Hs).
  unfold bind, lift.
  rewrite (validateString_ok _ _ _ _ Ht), (validateString_ok _ _ _ _ Hm).
  rewrite onCollection_eq.
  destruct (unreachable env NOTIFICATIONS); reflexivity.
Qed.

(** [createNotification] writes nothing when it throws, and never
    touches another collection. *)
Lemma createNotification_throw (data : JsObject) (db db' : Db) (e : Error) :
  createNotification env data db = (Throw e, db') -> db' = db.
Proof.
  unfold createNotification.
  destruct (asObjectId (prop "recipientId" data)); [|intros [= _ <-]; reflexivity].
  destruct (asObjectId (prop "questionId" data)); [|intros [= _ <-]; reflexivity].
  destruct (asObjectId (prop "senderId" data)); [|intros [= _ <-]; reflexivity].
  unfold bind, lift, throw, ret.
  destruct (validateString (prop "type" data) "Type" 1 1000);
    [|intros [= _ <-]; reflexivity].
  destruct (validateString (prop "message" data) "Message" 1 1000);
    [|intros [= _ <-]; reflexivity].
  rewrite onCollection_eq.
  destruct (unreachable env NOTIFICATIONS); [intros [= _ <-]; reflexivity|].
  cbn. discriminate.
Qed.

Lemma createNotification_others (data : JsObject) (db : Db) :
  let db' := snd (createNotification env data db) in
  students db' = students db /\ questions db' = questions db
  /\ responses db' = responses db.
Proof.
  unfold createNotification.
  destruct (asObjectId (prop "recipientId" data)); [|cbn; auto].
  destruct (asObjectId (prop "questionId" data)); [|cbn; auto].
  destruct (asObjectId (prop "senderId" data)); [|cbn; auto].
  unfold bind, lift, throw, ret.
  destruct (validateString (prop "type" data) "Type" 1 1000); [|cbn; auto].
  destruct (validateString (prop "message" data) "Message" 1 1000); [|cbn; auto].
  rewrite onCollection_eq.
  destruct (unreachable env NOTIFICATIONS); cbn; auto.
Qed.
End DataFacts.

(** ** Routing *)

Section RouteFacts.
(** A logged-in request with a well-formed route parameter reaches the
    handler exactly when its chains report nothing. *)
Lemma route_eq (msg : string) (chains : list Chain)
      (handler : SessionStudent -> string -> JsObject -> M Outcome)
      (req : Request) (student : SessionStudent) (db : Db) :
  session req = Some student ->
  isValidObjectId (JStr (param req)) = true ->
  route (Some msg) chains handler req db
  = match snd (runChains chains (body req)) with
    | [] => handle (handler student (param req) (fst (runChains chains (body req)))) db
    | errors => (Respond 400 (ValidationErrors errors), db)
    end.
Proof.
  intros Hs Hv. unfold route, checkObjectId. rewrite Hs, Hv.
  destruct (runChains chains (body req)) as [b errs]. reflexivity.
Qed.

Lemma route_none_eq (chains : list Chain)
      (handler : SessionStudent -> string -> JsObject -> M Outcome)
      (req : Request) (student : SessionStudent) (db : Db) :
  session req = Some student ->
  route None chains handler req db
  = match snd (runChains chains (body req)) with
    | [] => handle (handler student (param req) (fst (runChains chains (body req)))) db
    | errors => (Respond 400 (ValidationErrors errors), db)
    end.
Proof.
  intros Hs. unfold route. rewrite Hs.
  destruct (runChains chains (body req)) as [b errs]. reflexivity.
Qed.

Lemma runChains_cons (c : Chain) (rest : list Chain) (b b1 : JsObject)
      (e1 : list string) :
  c b = (b1, e1) ->
  runChains (c :: rest) b
  = (fst (runChains rest b1), e1 ++ snd (runChains rest b1)).
Proof.
  intros H. cbn [runChains]. rewrite H.
  now destruct (runChains rest b1).
Qed.

Lemma route_no_chain (msg : string)
      (handler : SessionStudent -> string -> JsObject -> M Outcome)
      (req : Request) (student : SessionStudent) (db : Db) :
  session req = Some student ->
  isValidObjectId (JStr (param req)) = true ->
  route (Some msg) [] handler req db
  = handle (handler student (param req) (body req)) db.
Proof. intros Hs Hv. now rewrite (route_eq _ _ _ _ _ _ Hs Hv). Qed.
End RouteFacts.

(* ===================================================================== *)
(** * Marking a notification read *)
(* ===================================================================== *)

Lemma setRead_keeps_id (n : Notification.t) :
  Notification._id (setRead n) = Notification._id n.
Proof. reflexivity. Qed.

(** C10.  The mark-read route never looks at the session's student: for
    every logged-in student [student] and every stored notification [n]
    (whoever its recipient is), the request succeeds with status 200,
    the stored notification has [isRead = true] and every other field as
    before, and no other document of the database changes. *)
Theorem mark_read_by_any_student
        (env : Env) (req : Request) (db : Db)
        (student : SessionStudent) (n : Notification.t) :
  session req = Some student ->
  isValidObjectId (JStr (param req)) = true ->
  unreachable env NOTIFICATIONS = false ->
  findOne Notification._id (param req) (notifications db) = Some n ->
  exists n' db',
    patchNotificationRead env req db = (Respond 200 (NotificationBody n'), db')
    /\ findOne Notification._id (param req) (notifications db') = Some n'
    /\ n' = Notification.mk (Notification._id n) (Notification.recipientId n)
              (Notification.questionId n) (Notification.senderId n)
              (Notification.type n) (Notification.message n) true
              (Notification.createdAt n)
    /\ (forall j, j <> param req ->
          findOne Notification._id j (notifications db')
          = findOne Notification._id j (notifications db))
    /\ length (notifications db') = length (notifications db)
    /\ students db' = students db
    /\ questions db' = questions db
    /\ responses db' = responses db.
Proof.
  intros Hs Hv Hr Hn.
  exists (setRead n),
    (withNotifications
       (updateOne Notification._id (param req) setRead (notifications db)) db).
  unfold patchNotificationRead.
  rewrite (route_no_chain _ _ _ student _ Hs Hv).
  unfold handle, bind, markNotificationAsRead.
  rewrite (asObjectId_valid _ Hv). unfold bind.
  rewrite onCollection_eq, Hr. cbn [fst snd]. rewrite Hn. cbn [option_map ret].
  repeat split.
  - cbn [notifications withNotifications].
    rewrite (findOne_updateOne _ _ setRead_keeps_id). now rewrite Hn.
  - intros j Hj. cbn [notifications withNotifications].
    now apply findOne_updateOne_other.
  - cbn [notifications withNotifications]. apply updateOne_length.
Qed.

(** Carol, who is neither the recipient nor the sender, marks Alice's
    notification read. *)
Lemma mark_read_by_any_student_witness :
  Notification.recipientId Sample.notification <> id Sample.carol
  /\ exists n' db',
      patchNotificationRead Sample.env
        (mkRequest (Some Sample.carol) Sample.notificationId []) Sample.db
      = (Respond 200 (NotificationBody n'), db')
      /\ Notification.isRead n' = true.
Proof.
  split; [discriminate|].
  destruct (mark_read_by_any_student Sample.env
              (mkRequest (Some Sample.carol) Sample.notificationId [])
              Sample.db Sample.carol Sample.notification
              eq_refl eq_refl eq_refl eq_refl)
    as (n' & db' & Hrun & _ & Hn' & _).
  exists n', db'. split; [exact Hrun|]. now rewrite Hn'.
Defined.

(* ===================================================================== *)
(** * Editing a response *)
(* ===================================================================== *)

Lemma setResponse_keeps_id (f : ResponseUpdateFields) (t : Z) (r : Response.t) :
  Response._id (setResponse f t r) = Response._id r.
Proof. reflexivity. Qed.

(** For the response's poster the edit route hands the whole sanitized
    body to [updateResponse]. *)
Lemma patchResponse_poster_forwards
      (env : Env) (req : Request) (db : Db)
      (student : SessionStudent) (r : Response.t) :
  session req = Some student ->
  isValidObjectId (JStr (param req)) = true ->
  unreachable env RESPONSES = false ->
  findOne Response._id (param req) (responses db) = Some r ->
  Response.posterId r = id student ->
  patchResponse env req db
  = match snd (runChains patchResponseChains (body req)) with
    | [] =>
        handle (updatedResponse <-
                  updateResponse env (JStr (param req))
                    (Some (fst (runChains patchResponseChains (body req)))) ;;
                ret (Respond 200 (ResponseBody updatedResponse))) db
    | errors => (Respond 400 (ValidationErrors errors), db)
    end.
Proof.
  intros Hs Hv Hr Hf Hp. unfold patchResponse.
  rewrite (route_eq _ _ _ _ student _ Hs Hv).
  destruct (snd (runChains patchResponseChains (body req))); [|reflexivity].
  unfold handle, bind at 1.
  rewrite (getResponseById_eq _ _ _ Hv), Hr, Hf, Hp, String.eqb_refl.
  reflexivity.
Qed.

(** C9.  Through the general edit route the poster of a response sets
    its [isHelpful] flag to any boolean [b]: the request succeeds with
    status 200 and the stored response carries [isHelpful = b].  Nothing
    is asked of the questions collection, so the poster of the owning
    question plays no part. *)
Theorem response_poster_sets_helpful_by_edit
        (env : Env) (req : Request) (db : Db)
        (student : SessionStudent) (r : Response.t) (b : bool) :
  session req = Some student ->
  isValidObjectId (JStr (param req)) = true ->
  unreachable env RESPONSES = false ->
  findOne Response._id (param req) (responses db) = Some r ->
  Response.posterId r = id student ->
  body req = [("isHelpful", JBool b)] ->
  exists r' db',
    patchResponse env req db = (Respond 200 (ResponseBody r'), db')
    /\ findOne Response._id (param req) (responses db') = Some r'
    /\ Response.isHelpful r' = b
    /\ Response.content r' = Response.content r
    /\ questions db' = questions db
    /\ notifications db' = notifications db.
Proof.
  intros Hs Hv Hr Hf Hp Hb.
  set (set := setResponse (mkResponseFields None (Some b)) (now env)).
  exists (set r),
    (withResponses (updateOne Response._id (param req) set (responses db)) db).
  rewrite (patchResponse_poster_forwards _ _ _ _ _ Hs Hv Hr Hf Hp), Hb.
  cbn [runChains patchResponseChains bodyOptionalTrimLength prop String.eqb
       Ascii.eqb Bool.eqb fst snd app].
  unfold handle, bind.
  rewrite (updateResponse_isHelpful _ _ _ _ Hv), Hr. cbn zeta. rewrite Hf.
  repeat split.
  cbn [responses withResponses]. subst set.
  rewrite (findOne_updateOne _ _ (setResponse_keeps_id _ _)). now rewrite Hf.
Qed.

(** Bob marks his own answer helpful by editing it; the question is
    Alice's. *)
Lemma response_poster_sets_helpful_by_edit_witness :
  Question.posterId Sample.question <> id Sample.bob
  /\ exists r' db',
      patchResponse Sample.env
        (mkRequest (Some Sample.bob) Sample.responseId [("isHelpful", JBool true)])
        Sample.db
      = (Respond 200 (ResponseBody r'), db')
      /\ Response.isHelpful r' = true.
Proof.
  split; [discriminate|].
  destruct (response_poster_sets_helpful_by_edit Sample.env
              (mkRequest (Some Sample.bob) Sample.responseId
                         [("isHelpful", JBool true)])
              Sample.db Sample.bob Sample.response true
              eq_refl eq_refl eq_refl eq_refl eq_refl eq_refl)
    as (r' & db' & Hrun & _ & Hh & _).
  exists r', db'. split; assumption.
Defined.

(* ===================================================================== *)
(** * Marking a response helpful *)
(* ===================================================================== *)

(** C1.  The helpful route does not restrict the flag to the question's
    poster.  In the sample forum the question is Alice's and the answer
    is Bob's; Carol, who posted neither, marks the answer helpful: the
    request is answered 200 (not 403) and the stored response has
    [isHelpful = true]. *)
Theorem helpful_mark_by_stranger_accepted :
  let req := mkRequest (Some Sample.carol) Sample.responseId
                       [("isHelpful", JBool true)] in
  Question.posterId Sample.question <> id Sample.carol
  /\ findOne Question._id (Response.questionId Sample.response)
             (questions Sample.db) = Some Sample.question
  /\ exists r',
      fst (patchHelpful Sample.env req Sample.db) = Respond 200 (ResponseBody r')
      /\ findOne Response._id Sample.responseId
                 (responses (snd (patchHelpful Sample.env req Sample.db)))
         = Some r'
      /\ Response.isHelpful Sample.response = false
      /\ Response.isHelpful r' = true.
Proof.
  cbv zeta. split; [discriminate|]. split; [reflexivity|].
  eexists. repeat split; vm_compute; reflexivity.
Qed.

(** A [try] block whose handler only logs always completes, in the state
    its body left. *)
Lemma tryCatch_swallow (m : M unit) (db : Db) :
  tryCatch m (fun _ => ret tt) db = (Ok tt, snd (m db)).
Proof.
  unfold tryCatch, ret. destruct (m db) as [[[]|e] db']; reflexivity.
Qed.

Lemma isBoolean_bool (b : bool) : isBoolean (JBool b) = true.
Proof. now destruct b. Qed.

(** The helpful route on a stored response and a boolean flag: the flag
    is written first, then the notification is attempted. *)
Lemma patchHelpful_eq
      (env : Env) (req : Request) (db : Db)
      (student : SessionStudent) (r : Response.t) (b : bool) :
  session req = Some student ->
  isValidObjectId (JStr (param req)) = true ->
  unreachable env RESPONSES = false ->
  findOne Response._id (param req) (responses db) = Some r ->
  prop "isHelpful" (body req) = JBool b ->
  patchHelpful env req db
  = let set := setResponse (mkResponseFields None (Some b)) (now env) in
    let db1 := withResponses
                 (updateOne Response._id (param req) set (responses db)) db in
    (Respond 200 (ResponseBody (set r)),
     if b && negb (String.eqb (Response.posterId r) (id student))
     then snd (notifyResponsePoster env r (id student) db1)
     else db1).
Proof.
  intros Hs Hv Hr Hf Hb. unfold patchHelpful.
  rewrite (route_eq _ _ _ _ student _ Hs Hv).
  cbn [runChains patchHelpfulChains bodyBoolean fst snd app].
  rewrite Hb, isBoolean_bool. cbn [app].
  unfold handle, bind at 1.
  rewrite (getResponseById_eq _ _ _ Hv), Hr, Hf.
  unfold bind at 1.
  rewrite (updateResponse_isHelpful _ _ _ _ Hv), Hr. cbn zeta. rewrite Hf.
  cbn [truthy]. unfold bind.
  destruct (b && negb (String.eqb (Response.posterId r) (id student))).
  - now rewrite tryCatch_swallow.
  - reflexivity.
Qed.

(** The helpful route on a stored response and a flag that is not a
    boolean: the field check answers 400 unless the flag is one of the
    values [isBoolean()] also accepts (the strings [true], [false], [1]
    and [0], the numbers 1 and 0), and for these the store refuses the
    update, so the handler passes the error on before the notification
    step.  Nothing is written. *)
Lemma patchHelpful_not_boolean
      (env : Env) (req : Request) (db : Db)
      (student : SessionStudent) (r : Response.t) :
  session req = Some student ->
  isValidObjectId (JStr (param req)) = true ->
  unreachable env RESPONSES = false ->
  findOne Response._id (param req) (responses db) = Some r ->
  (forall b, prop "isHelpful" (body req) <> JBool b) ->
  patchHelpful env req db
  = (if isBoolean (prop "isHelpful" (body req))
     then Next (MustBeBoolean "isHelpful")
     else Respond 400 (ValidationErrors ["isHelpful must be a boolean"]), db).
Proof.
  intros Hs Hv Hr Hf Hnb. unfold patchHelpful.
  rewrite (route_eq _ _ _ _ student _ Hs Hv).
  cbn [runChains patchHelpfulChains bodyBoolean fst snd app].
  destruct (isBoolean (prop "isHelpful" (body req))); cbn [app]; [|reflexivity].
  unfold handle, bind at 1.
  rewrite (getResponseById_eq _ _ _ Hv), Hr, Hf.
  unfold bind at 1. unfold updateResponse.
  rewrite (asObjectId_valid _ Hv).
  cbn [length Nat.eqb responseUpdateLoop responseAllowedUpdates existsb
       String.eqb Ascii.eqb Bool.eqb negb orb].
  destruct (prop "isHelpful" (body req)) as [| |b| |] eqn:E;
    try reflexivity.
  now destruct (Hnb b).
Qed.

Lemma helpfulMessage_valid (title : string) :
  String.length title <= 200 ->
  1 <= String.length (trim (helpfulMessage title)) <= 1000.
Proof.
  intros Ht. split.
  - apply trim_visible_length. reflexivity.
  - pose proof (trim_length (helpfulMessage title)) as Hl.
    assert (String.length (helpfulMessage title) = String.length title + 42) as E.
    { unfold helpfulMessage. repeat rewrite string_length_append.
      simpl String.length. lia. }
    lia.
Qed.

(** The [try] block of the helpful route, when the stored ids are
    well-formed and the collections answer. *)
Lemma notifyResponsePoster_eq
      (env : Env) (r : Response.t) (currentUserId : string) (db : Db) :
  unreachable env QUESTIONS = false ->
  unreachable env NOTIFICATIONS = false ->
  isValidObjectId (JStr (Response.questionId r)) = true ->
  isValidObjectId (JStr (Response.posterId r)) = true ->
  isValidObjectId (JStr currentUserId) = true ->
  (forall q, In q (questions db) -> String.length (Question.title q) <= 200) ->
  notifyResponsePoster env r currentUserId db
  = match findOne Question._id (Response.questionId r) (questions db) with
    | Some q =>
        (Ok tt,
         withNotifications
           (notifications db
              ++ [Notification.mk (insertedId env NOTIFICATIONS)
                    (Response.posterId r) (Response.questionId r) currentUserId
                    "helpful_mark" (trim (helpfulMessage (Question.title q)))
                    false (now env)]) db)
    | None => (Ok tt, db)
    end.
Proof.
  intros Hq Hn Hvq Hvp Hvu Ht. unfold notifyResponsePoster, bind at 1.
  rewrite (getQuestionById_eq _ _ _ Hvq), Hq.
  destruct (findOne Question._id (Response.questionId r) (questions db)) as [q|] eqn:F;
    cbn [option_map]; [|reflexivity].
  cbn [doc addPosterName]. unfold bind.
  rewrite (createNotification_eq _ _ _ _ _ _ _ Hvp Hvq Hvu).
  - rewrite Hn. reflexivity.
  - vm_compute. lia.
  - apply helpfulMessage_valid. apply Ht. now apply (findOne_found _ _ _ _ F).
Qed.

(** C4 (as the code has it).  On a helpful request for a stored response
    [r], with well-formed stored ids, titles within the 200-character
    cap and every collection answering, whatever the [isHelpful] of the
    body is: a [helpful_mark] notification is created exactly when
    [isHelpful] is the boolean [true], the acting student is not the
    poster of [r], and the owning question still exists; then exactly
    one is appended, addressed to the poster of [r] and sent by the
    acting student.  The flag [r] had before the request plays no part.
    When the acting student is the poster of [r], or when [isHelpful]
    is [false], the notifications are left as they were.  When
    [isHelpful] is not a boolean, nothing is written at all: the
    request is answered 400, or, for the strings and numbers that
    [isBoolean()] lets through (a truthy ['false'] among them), the
    store refuses the update and the error goes to [next] before the
    notification step. *)
Theorem helpful_mark_notification
        (env : Env) (req : Request) (db : Db)
        (student : SessionStudent) (r : Response.t) :
  session req = Some student ->
  isValidObjectId (JStr (param req)) = true ->
  isValidObjectId (JStr (id student)) = true ->
  (forall c, unreachable env c = false) ->
  findOne Response._id (param req) (responses db) = Some r ->
  isValidObjectId (JStr (Response.questionId r)) = true ->
  isValidObjectId (JStr (Response.posterId r)) = true ->
  (forall q, In q (questions db) -> String.length (Question.title q) <= 200) ->
  let isHelpful := prop "isHelpful" (body req) in
  notifications (snd (patchHelpful env req db))
  = match isHelpful with
    | JBool b =>
        match findOne Question._id (Response.questionId r) (questions db) with
        | Some q =>
            if b && negb (String.eqb (Response.posterId r) (id student))
            then notifications db
                   ++ [Notification.mk (insertedId env NOTIFICATIONS)
                         (Response.posterId r) (Response.questionId r) (id student)
                         "helpful_mark" (trim (helpfulMessage (Question.title q)))
                         false (now env)]
            else notifications db
        | None => notifications db
        end
    | _ => notifications db
    end
  /\ ((forall b, isHelpful <> JBool b) ->
      patchHelpful env req db
      = (if isBoolean isHelpful
         then Next (MustBeBoolean "isHelpful")
         else Respond 400 (ValidationErrors ["isHelpful must be a boolean"]), db)).
Proof.
  intros Hs Hv Hvu Hreach Hf Hvq Hvp Ht isHelpful.
  assert ((forall b, isHelpful <> JBool b) ->
          patchHelpful env req db
          = (if isBoolean isHelpful
             then Next (MustBeBoolean "isHelpful")
             else Respond 400 (ValidationErrors ["isHelpful must be a boolean"]), db))
    as Hother.
  { exact (patchHelpful_not_boolean _ _ _ _ _ Hs Hv (Hreach RESPONSES) Hf). }
  split; [|exact Hother].
  destruct isHelpful as [| |b|z|t] eqn:Hb;
    try (rewrite Hother by discriminate; reflexivity).
  rewrite (patchHelpful_eq _ _ _ _ _ _ Hs Hv (Hreach RESPONSES) Hf Hb).
  cbn zeta. cbn [snd].
  destruct (b && negb (String.eqb (Response.posterId r) (id student))).
  - rewrite notifyResponsePoster_eq by auto.
    cbn [questions withResponses].
    destruct (findOne Question._id (Response.questionId r) (questions db));
      reflexivity.
  - cbn [notifications withResponses].
    destruct (findOne Question._id (Response.questionId r) (questions db));
      reflexivity.
Qed.

(** Alice marks Bob's answer helpful: one notification for Bob.  Alice
    sends the string ['false'], which is truthy: no notification, the
    error of the store goes to [next] and nothing is written. *)
Lemma helpful_mark_notification_witness :
  notifications
    (snd (patchHelpful Sample.env
            (mkRequest (Some Sample.alice) Sample.responseId
                       [("isHelpful", JBool true)]) Sample.db))
  = [ Sample.notification;
      Notification.mk (insertedId Sample.env NOTIFICATIONS) Sample.bobId
        Sample.questionId Sample.aliceId "helpful_mark"
        (trim (helpfulMessage "How do I prove this")) false 1000 ]
  /\ patchHelpful Sample.env
       (mkRequest (Some Sample.alice) Sample.responseId
                  [("isHelpful", JStr "false")]) Sample.db
     = (Next (MustBeBoolean "isHelpful"), Sample.db).
Proof.
  assert (forall q, In q (questions Sample.db) ->
                    String.length (Question.title q) <= 200) as Ht.
  { intros q [<-|[]]. simpl. lia. }
  split.
  - exact (proj1 (helpful_mark_notification Sample.env
                    (mkRequest (Some Sample.alice) Sample.responseId
                               [("isHelpful", JBool true)])
                    Sample.db Sample.alice Sample.response
                    eq_refl eq_refl eq_refl (fun _ => eq_refl) eq_refl eq_refl
                    eq_refl Ht)).
  - apply (proj2 (helpful_mark_notification Sample.env
                    (mkRequest (Some Sample.alice) Sample.responseId
                               [("isHelpful", JStr "false")])
                    Sample.db Sample.alice Sample.response
                    eq_refl eq_refl eq_refl (fun _ => eq_refl) eq_refl eq_refl
                    eq_refl Ht)).
    intros b. discriminate.
Defined.

(** A response that is already helpful is marked helpful again by Alice:
    a second [helpful_mark] notification is created although the flag
    does not go from [false] to [true]. *)
Lemma helpful_remark_notifies_again :
  let helpfulAlready :=
    Response.mk Sample.responseId Sample.questionId Sample.bobId
                "By induction." false true 200 300 in
  let db := withResponses [helpfulAlready] Sample.db in
  let req := mkRequest (Some Sample.alice) Sample.responseId
                       [("isHelpful", JBool true)] in
  findOne Response._id (param req) (responses db) = Some helpfulAlready
  /\ Response.isHelpful helpfulAlready = true
  /\ notifications (snd (patchHelpful Sample.env req db))
     = notifications db
         ++ [Notification.mk (insertedId Sample.env NOTIFICATIONS) Sample.bobId
               Sample.questionId Sample.aliceId "helpful_mark"
               (helpfulMessage "How do I prove this") false 1000].
Proof. cbv zeta. repeat split; vm_compute; reflexivity. Qed.

(* ===================================================================== *)
(** * Posting a response *)
(* ===================================================================== *)

Lemma prop_setProp_same (k : string) (v : JsValue) (o : JsObject) :
  prop k (setProp k v o) = v.
Proof.
  induction o as [|[k0 w] rest IH]; simpl.
  - now rewrite String.eqb_refl.
  - destruct (String.eqb k0 k) eqn:E; simpl; now rewrite E.
Qed.

Lemma prop_setProp_other (k j : string) (v : JsValue) (o : JsObject) :
  String.eqb k j = false -> prop j (setProp k v o) = prop j o.
Proof.
  intros Hkj. induction o as [|[k0 w] rest IH]; simpl.
  - now rewrite Hkj.
  - destruct (String.eqb_spec k0 k) as [->|E]; simpl.
    + now rewrite Hkj.
    + now rewrite IH.
Qed.

(** The post route on a well-formed body: the response is written first,
    then the notification is attempted. *)
Lemma postResponse_eq
      (env : Env) (req : Request) (db : Db) (student : SessionStudent)
      (qid content : string) (a : option bool) :
  session req = Some student ->
  isValidObjectId (JStr (id student)) = true ->
  unreachable env RESPONSES = false ->
  prop "questionId" (body req) = JStr qid ->
  isValidObjectId (JStr qid) = true ->
  prop "content" (body req) = JStr content ->
  1 <= String.length (trim content) <= 1500 ->
  prop "isAnonymous" (body req) = anonymousField a ->
  postResponse env req db
  = let r := Response.mk (insertedId env RESPONSES) qid (id student)
               (trim content) (anonymousFlag a) false (now env) (now env) in
    let db1 := withResponses (responses db ++ [r]) db in
    (Respond 201 (ResponseBody r),
     snd (notifyQuestionPoster env student (JStr qid)
            (JBool (anonymousFlag a)) db1)).
Proof.
  intros Hs Hvu Hr Hq Hvq Hc Hlen Ha.
  set (body1 := setProp "content" (JStr (trim content)) (body req)).
  assert (prop "isAnonymous" body1 = anonymousField a) as Ha1.
  { subst body1. now rewrite prop_setProp_other by reflexivity. }
  assert (isAnonymousOf body1 = JBool (anonymousFlag a)) as Hanon.
  { unfold isAnonymousOf. rewrite Ha1. now destruct a. }
  assert (runChains postResponseChains (body req) = (body1, [])) as Hchains.
  { unfold postResponseChains.
    rewrite (runChains_cons _ _ _ (body req) []).
    2:{ unfold bodyObjectId, checkObjectId. now rewrite Hq, Hvq. }
    rewrite (runChains_cons _ _ _ body1 []).
    2:{ unfold bodyTrimNotEmptyMax. rewrite Hc. cbn [toStr]. fold body1.
        destruct (Nat.eqb_spec (String.length (trim content)) 0) as [E|_]; [lia|].
        destruct (Nat.leb_spec (String.length (trim content)) 1500) as [_|E]; [|lia].
        reflexivity. }
    rewrite (runChains_cons _ _ _ body1 []).
    2:{ unfold bodyOptionalBoolean. rewrite Ha1. now destruct a as [[|]|]. }
    reflexivity. }
  unfold postResponse.
  rewrite (route_none_eq _ _ _ student _ Hs), Hchains. cbn [fst snd].
  unfold handle, bind at 1.
  unfold createResponse, responseDataOf.
  cbn [prop String.eqb Ascii.eqb Bool.eqb].
  assert (prop "questionId" body1 = JStr qid) as Hq1.
  { subst body1. now rewrite prop_setProp_other by reflexivity. }
  assert (prop "content" body1 = JStr (trim content)) as Hc1.
  { subst body1. apply prop_setProp_same. }
  rewrite Hq1, Hc1, Hanon.
  rewrite (asObjectId_valid _ Hvq), (asObjectId_valid _ Hvu).
  unfold bind at 1, lift.
  rewrite validateString_ok by (rewrite trim_idempotent; exact Hlen).
  rewrite trim_idempotent.
  unfold bind at 1. rewrite onCollection_eq, Hr. cbn [fst snd acknowledged negb].
  cbn [ret result_insertedId]. unfold bind.
  now rewrite tryCatch_swallow.
Qed.

Lemma newResponseMessage_valid (name title : string) :
  String.length name <= 50 ->
  String.length title <= 200 ->
  1 <= String.length (trim (newResponseMessage name title)) <= 1000.
Proof.
  intros Hn Ht. split.
  - apply trim_visible_length. unfold newResponseMessage.
    rewrite allChars_append. apply andb_false_iff. right. reflexivity.
  - pose proof (trim_length (newResponseMessage name title)) as Hl.
    assert (String.length (newResponseMessage name title)
            = String.length name + String.length title + 29) as E.
    { unfold newResponseMessage. repeat rewrite string_length_append.
      simpl String.length. lia. }
    lia.
Qed.

(** The [try] block of the post route, when the stored ids are
    well-formed and the collections answer. *)
Lemma notifyQuestionPoster_eq
      (env : Env) (student : SessionStudent) (qid : string) (anonymous : bool)
      (db : Db) :
  unreachable env QUESTIONS = false ->
  unreachable env NOTIFICATIONS = false ->
  isValidObjectId (JStr qid) = true ->
  isValidObjectId (JStr (id student)) = true ->
  String.length (firstName student) <= 50 ->
  (forall q, In q (questions db) ->
             isValidObjectId (JStr (Question.posterId q)) = true
             /\ String.length (Question.title q) <= 200) ->
  notifyQuestionPoster env student (JStr qid) (JBool anonymous) db
  = match findOne Question._id qid (questions db) with
    | Some q =>
        if String.eqb (Question.posterId q) (id student) then (Ok tt, db)
        else
          (Ok tt,
           withNotifications
             (notifications db
                ++ [Notification.mk (insertedId env NOTIFICATIONS)
                      (Question.posterId q) qid (id student) "new_response"
                      (trim (newResponseMessage
                               (responderNameOf student anonymous)
                               (Question.title q)))
                      false (now env)]) db)
    | None => (Ok tt, db)
    end.
Proof.
  intros Hq Hn Hvq Hvu Hname Hdocs. unfold notifyQuestionPoster, bind at 1.
  rewrite (getQuestionById_eq _ _ _ Hvq), Hq.
  destruct (findOne Question._id qid (questions db)) as [q|] eqn:F;
    cbn [option_map]; [|reflexivity].
  cbn [doc addPosterName].
  destruct (String.eqb (Question.posterId q) (id student)); cbn [negb];
    [reflexivity|].
  destruct (Hdocs q (proj1 (findOne_found _ _ _ _ F))) as [Hvp Ht].
  unfold bind. cbn [truthy].
  rewrite (createNotification_eq _ _ _ _ _ _ _ Hvp Hvq Hvu).
  - rewrite Hn. reflexivity.
  - vm_compute. lia.
  - apply newResponseMessage_valid; [|exact Ht].
    destruct anonymous; [vm_compute; lia | exact Hname].
Qed.

(** C5.  A well-formed response posted to a stored question [q] is
    created (status 201), and: when the poster of [q] is the responder,
    the notifications are left as they were; when the two differ,
    exactly one notification is appended, of type [new_response], whose
    recipient is the poster of [q] and whose sender is the responder.
    The stored ids are well-formed, first names and titles are within
    their caps (50 and 200 characters) and every collection answers. *)
Theorem new_response_notification
        (env : Env) (req : Request) (db : Db) (student : SessionStudent)
        (qid content : string) (a : option bool) (q : Question.t) :
  session req = Some student ->
  isValidObjectId (JStr (id student)) = true ->
  String.length (firstName student) <= 50 ->
  (forall c, unreachable env c = false) ->
  prop "questionId" (body req) = JStr qid ->
  isValidObjectId (JStr qid) = true ->
  prop "content" (body req) = JStr content ->
  1 <= String.length (trim content) <= 1500 ->
  prop "isAnonymous" (body req) = anonymousField a ->
  findOne Question._id qid (questions db) = Some q ->
  (forall q', In q' (questions db) ->
              isValidObjectId (JStr (Question.posterId q')) = true
              /\ String.length (Question.title q') <= 200) ->
  exists r,
    fst (postResponse env req db) = Respond 201 (ResponseBody r)
    /\ Response.questionId r = qid
    /\ Response.posterId r = id student
    /\ responses (snd (postResponse env req db)) = responses db ++ [r]
    /\ notifications (snd (postResponse env req db))
       = if String.eqb (Question.posterId q) (id student)
         then notifications db
         else notifications db
                ++ [Notification.mk (insertedId env NOTIFICATIONS)
                      (Question.posterId q) qid (id student) "new_response"
                      (trim (newResponseMessage
                               (responderNameOf student (anonymousFlag a))
                               (Question.title q)))
                      false (now env)].
Proof.
  intros Hs Hvu Hname Hreach Hq Hvq Hc Hlen Ha Hf Hdocs.
  eexists.
  rewrite (postResponse_eq _ _ _ _ _ _ _ Hs Hvu (Hreach RESPONSES) Hq Hvq Hc Hlen Ha).
  cbn zeta. cbn [fst snd].
  rewrite notifyQuestionPoster_eq by auto.
  cbn [questions withResponses]. rewrite Hf.
  repeat split;
    destruct (String.eqb (Question.posterId q) (id student)); reflexivity.
Qed.

(** Bob answers Alice's question: one notification for Alice. *)
Lemma new_response_notification_witness :
  exists r,
    fst (postResponse Sample.env
           (mkRequest (Some Sample.bob) EmptyString
              [("questionId", JStr Sample.questionId); ("content", JStr "Try lia.")])
           Sample.db)
    = Respond 201 (ResponseBody r)
    /\ notifications
         (snd (postResponse Sample.env
                 (mkRequest (Some Sample.bob) EmptyString
                    [("questionId", JStr Sample.questionId);
                     ("content", JStr "Try lia.")])
                 Sample.db))
       = [ Sample.notification;
           Notification.mk (insertedId Sample.env NOTIFICATIONS) Sample.aliceId
             Sample.questionId Sample.bobId "new_response"
             (trim (newResponseMessage "Bob" "How do I prove this")) false 1000 ].
Proof.
  assert (forall q', In q' (questions Sample.db) ->
                     isValidObjectId (JStr (Question.posterId q')) = true
                     /\ String.length (Question.title q') <= 200) as Hdocs.
  { intros q' [<-|[]]. split; [reflexivity | simpl; lia]. }
  assert (1 <= String.length (trim "Try lia.") <= 1500) as Hlen.
  { simpl. lia. }
  assert (String.length (firstName Sample.bob) <= 50) as Hname.
  { simpl. lia. }
  destruct (new_response_notification Sample.env
              (mkRequest (Some Sample.bob) EmptyString
                 [("questionId", JStr Sample.questionId);
                  ("content", JStr "Try lia.")])
              Sample.db Sample.bob Sample.questionId "Try lia." None
              Sample.question
              eq_refl eq_refl Hname (fun _ => eq_refl) eq_refl eq_refl eq_refl
              Hlen eq_refl eq_refl Hdocs)
    as (r & Hout & _ & _ & _ & Hnotes).
  exists r. split; [exact Hout | exact Hnotes].
Defined.

(** Alice answers her own question: no notification. *)
Example own_question_no_notification :
  notifications
    (snd (postResponse Sample.env
            (mkRequest (Some Sample.alice) EmptyString
               [("questionId", JStr Sample.questionId); ("content", JStr "Solved.")])
            Sample.db))
  = notifications Sample.db.
Proof. vm_compute. reflexivity. Qed.

(* ===================================================================== *)
(** * Failure of the notification side effect *)
(* ===================================================================== *)

Lemma getQuestionById_state (env : Env) (questionId : JsValue) (db : Db) :
  snd (getQuestionById env questionId db) = db.
Proof.
  unfold getQuestionById. destruct (asObjectId questionId); [|reflexivity].
  unfold bind. rewrite onCollection_eq.
  destruct (unreachable env QUESTIONS); reflexivity.
Qed.

Lemma notifyQuestionPoster_responses
      (env : Env) (student : SessionStudent) (questionId isAnonymous : JsValue)
      (db : Db) :
  responses (snd (notifyQuestionPoster env student questionId isAnonymous db))
  = responses db.
Proof.
  unfold notifyQuestionPoster, bind at 1.
  pose proof (getQuestionById_state env questionId db) as Hst.
  destruct (getQuestionById env questionId db) as [[[question|]|e] db1];
    cbn [snd] in Hst; subst db1; try reflexivity.
  destruct (negb (String.eqb (Question.posterId (doc question)) (id student)));
    [|reflexivity].
  unfold bind.
  match goal with
  | |- context [createNotification env ?d db] =>
      pose proof (createNotification_others env d db) as Ho;
      destruct (createNotification env d db) as [[n|e] db2]
  end; cbn [snd] in *; tauto.
Qed.

Lemma notifyResponsePoster_responses
      (env : Env) (r : Response.t) (currentUserId : string) (db : Db) :
  responses (snd (notifyResponsePoster env r currentUserId db)) = responses db.
Proof.
  unfold notifyResponsePoster, bind at 1.
  pose proof (getQuestionById_state env (JStr (Response.questionId r)) db) as Hst.
  destruct (getQuestionById env (JStr (Response.questionId r)) db)
    as [[[question|]|e] db1];
    cbn [snd] in Hst; subst db1; try reflexivity.
  unfold bind.
  match goal with
  | |- context [createNotification env ?d db] =>
      pose proof (createNotification_others env d db) as Ho;
      destruct (createNotification env d db) as [[n|e] db2]
  end; cbn [snd] in *; tauto.
Qed.

(** C6.  When the notification side effect throws an error [e], the
    triggering request is still answered with success and keeps its own
    write.
    - Posting: the response [r] has been inserted; if the [try] block
      that notifies the question's poster throws, the route answers 201
      with [r], and [r] is still the last stored response.
    - Marking helpful: the flag has been written; if the [try] block
      that notifies the response's poster throws, the route answers 200
      with the updated response, which is still the stored one. *)
Theorem notification_failure_is_swallowed (env : Env) (e : Error) :
  (forall (req : Request) (db db2 : Db) (student : SessionStudent)
          (qid content : string) (a : option bool),
      session req = Some student ->
      isValidObjectId (JStr (id student)) = true ->
      unreachable env RESPONSES = false ->
      prop "questionId" (body req) = JStr qid ->
      isValidObjectId (JStr qid) = true ->
      prop "content" (body req) = JStr content ->
      1 <= String.length (trim content) <= 1500 ->
      prop "isAnonymous" (body req) = anonymousField a ->
      let r := Response.mk (insertedId env RESPONSES) qid (id student)
                 (trim content) (anonymousFlag a) false (now env) (now env) in
      notifyQuestionPoster env student (JStr qid) (JBool (anonymousFlag a))
        (withResponses (responses db ++ [r]) db) = (Throw e, db2) ->
      postResponse env req db = (Respond 201 (ResponseBody r), db2)
      /\ responses db2 = responses db ++ [r])
  /\
  (forall (req : Request) (db db2 : Db) (student : SessionStudent)
          (r : Response.t),
      session req = Some student ->
      isValidObjectId (JStr (param req)) = true ->
      unreachable env RESPONSES = false ->
      findOne Response._id (param req) (responses db) = Some r ->
      prop "isHelpful" (body req) = JBool true ->
      Response.posterId r <> id student ->
      let set := setResponse (mkResponseFields None (Some true)) (now env) in
      notifyResponsePoster env r (id student)
        (withResponses (updateOne Response._id (param req) set (responses db)) db)
      = (Throw e, db2) ->
      patchHelpful env req db = (Respond 200 (ResponseBody (set r)), db2)
      /\ findOne Response._id (param req) (responses db2) = Some (set r)
      /\ Response.isHelpful (set r) = true).
Proof.
  split.
  - intros req db db2 student qid content a Hs Hvu Hr Hq Hvq Hc Hlen Ha r Hthrow.
    rewrite (postResponse_eq _ _ _ _ _ _ _ Hs Hvu Hr Hq Hvq Hc Hlen Ha).
    cbn zeta. fold r.
    pose proof (notifyQuestionPoster_responses env student (JStr qid)
                  (JBool (anonymousFlag a))
                  (withResponses (responses db ++ [r]) db)) as Hkeep.
    rewrite Hthrow in *. cbn [snd] in *. split; [reflexivity | exact Hkeep].
  - intros req db db2 student r Hs Hv Hr Hf Hb Hne set Hthrow.
    rewrite (patchHelpful_eq _ _ _ _ _ _ Hs Hv Hr Hf Hb).
    cbn zeta. fold set.
    apply String.eqb_neq in Hne. rewrite Hne. cbn [andb negb].
    pose proof (notifyResponsePoster_responses env r (id student)
                  (withResponses
                     (updateOne Response._id (param req) set (responses db)) db))
      as Hkeep.
    rewrite Hthrow in *. cbn [snd] in *. split; [reflexivity|].
    split; [|reflexivity].
    rewrite Hkeep. cbn [responses withResponses]. subst set.
    rewrite (findOne_updateOne _ _ (setResponse_keeps_id _ _)). now rewrite Hf.
Qed.

(** With the notifications collection out of reach, Bob's answer is
    still created and Alice's helpful mark is still recorded. *)
Lemma notification_failure_is_swallowed_witness :
  (exists r db',
      postResponse Sample.envNoNotifications
        (mkRequest (Some Sample.bob) EmptyString
           [("questionId", JStr Sample.questionId); ("content", JStr "Try lia.")])
        Sample.db
      = (Respond 201 (ResponseBody r), db')
      /\ responses db' = responses Sample.db ++ [r]
      /\ notifications db' = notifications Sample.db)
  /\
  (exists r db',
      patchHelpful Sample.envNoNotifications
        (mkRequest (Some Sample.alice) Sample.responseId [("isHelpful", JBool true)])
        Sample.db
      = (Respond 200 (ResponseBody r), db')
      /\ findOne Response._id Sample.responseId (responses db') = Some r
      /\ Response.isHelpful r = true
      /\ notifications db' = notifications Sample.db).
Proof.
  destruct (notification_failure_is_swallowed Sample.envNoNotifications
              StorageFailure) as [Hpost Hhelpful].
  split.
  - assert (1 <= String.length (trim "Try lia.") <= 1500) as Hlen.
    { simpl. lia. }
    destruct (Hpost
                (mkRequest (Some Sample.bob) EmptyString
                   [("questionId", JStr Sample.questionId);
                    ("content", JStr "Try lia.")])
                Sample.db _ Sample.bob Sample.questionId "Try lia." None
                eq_refl eq_refl eq_refl eq_refl eq_refl eq_refl Hlen eq_refl
                eq_refl) as [Hrun Hkeep].
    eexists. eexists. split; [exact Hrun|]. split; [exact Hkeep | reflexivity].
  - assert (Response.posterId Sample.response <> id Sample.alice) as Hne.
    { discriminate. }
    destruct (Hhelpful
                (mkRequest (Some Sample.alice) Sample.responseId
                           [("isHelpful", JBool true)])
                Sample.db _ Sample.alice Sample.response
                eq_refl eq_refl eq_refl eq_refl eq_refl Hne eq_refl)
      as (Hrun & Hfind & Hflag).
    eexists. eexists. split; [exact Hrun|].
    split; [exact Hfind|]. split; [exact Hflag | reflexivity].
Defined.

(* ===================================================================== *)
(** * Deleting a question *)
(* ===================================================================== *)

(** C2.  The poster of a stored question [Q] deletes it.  The route
    removes the responses of [Q], then the notifications of [Q], then
    [Q] itself, in that order:
    - if the responses cannot be reached, nothing at all is removed;
    - if the responses can and the notifications cannot, the responses
      of [Q] are removed and nothing else;
    - if both can, the request succeeds; afterwards no stored response
      and no stored notification references [Q], every other response
      and notification is kept, and [Q] is no longer found. *)
Theorem delete_question_cascade
        (env : Env) (req : Request) (db : Db)
        (student : SessionStudent) (q : Question.t) :
  session req = Some student ->
  isValidObjectId (JStr (param req)) = true ->
  unreachable env QUESTIONS = false ->
  findOne Question._id (param req) (questions db) = Some q ->
  Question.posterId q = id student ->
  NoDup (map Question._id (questions db)) ->
  let Q := param req in
  let rs := deleteMany (fun r => String.eqb (Response.questionId r) Q) (responses db) in
  let ns := deleteMany (fun n => String.eqb (Notification.questionId n) Q)
                       (notifications db) in
  let qs := deleteOne Question._id Q (questions db) in
  (unreachable env RESPONSES = true ->
     deleteQuestionRoute env req db = (Next StorageFailure, db))
  /\ (unreachable env RESPONSES = false ->
      unreachable env NOTIFICATIONS = true ->
      deleteQuestionRoute env req db = (Next StorageFailure, withResponses rs db))
  /\ (unreachable env RESPONSES = false ->
      unreachable env NOTIFICATIONS = false ->
      deleteQuestionRoute env req db
      = (Respond 200 (Message "Question deleted successfully"),
         mkDb (students db) qs rs ns)
      /\ (forall r, In r rs <-> In r (responses db) /\ Response.questionId r <> Q)
      /\ (forall n, In n ns <-> In n (notifications db) /\ Notification.questionId n <> Q)
      /\ findOne Question._id Q qs = None
      /\ length (questions db) = S (length qs)).
Proof.
  intros Hs Hv Hq Hf Hp Hnd Q rs ns qs. subst Q.
  assert (deleteQuestionRoute env req db
          = handle (deleteResponsesByQuestionId env (JStr (param req)) ;;;
                    deleteNotificationsByQuestionId env (JStr (param req)) ;;;
                    deleteQuestion env (JStr (param req)) ;;;
                    ret (Respond 200 (Message "Question deleted successfully"))) db)
    as ->.
  { unfold deleteQuestionRoute. rewrite (route_no_chain _ _ _ student _ Hs Hv).
    unfold handle. rewrite bind_eq.
    rewrite (getQuestionById_eq _ _ _ Hv), Hq, Hf. cbn [option_map doc addPosterName].
    rewrite Hp, String.eqb_refl. reflexivity. }
  unfold handle. rewrite bind_eq. unfold deleteResponsesByQuestionId.
  rewrite (asObjectId_valid _ Hv), onCollection_eq.
  split; [|split].
  - intros Hr. now rewrite Hr.
  - intros Hr Hn. rewrite Hr. cbn [fst snd]. fold rs.
    rewrite bind_eq. unfold deleteNotificationsByQuestionId.
    rewrite (asObjectId_valid _ Hv), onCollection_eq, Hn. reflexivity.
  - intros Hr Hn. rewrite Hr. cbn [fst snd]. fold rs.
    rewrite bind_eq. unfold deleteNotificationsByQuestionId.
    rewrite (asObjectId_valid _ Hv), onCollection_eq, Hn.
    cbn [fst snd notifications withResponses]. fold ns.
    rewrite bind_eq. unfold deleteQuestion.
    rewrite (asObjectId_valid _ Hv). rewrite bind_eq.
    rewrite onCollection_eq, Hq.
    cbn [fst snd questions withResponses withNotifications]. fold qs.
    unfold qs at 1. rewrite (deleteOne_count _ _ _ _ Hf). cbn [Nat.eqb ret].
    split; [reflexivity|]. split; [|split; [|split]].
    + intros r. unfold rs. rewrite deleteMany_spec.
      now rewrite String.eqb_neq.
    + intros n. unfold ns. rewrite deleteMany_spec.
      now rewrite String.eqb_neq.
    + now apply findOne_deleteOne.
    + exact (deleteOne_length _ _ _ _ Hf).
Qed.

(** Alice deletes her question: the answer and the notification that
    reference it go with it. *)
Lemma delete_question_cascade_witness :
  deleteQuestionRoute Sample.env
    (mkRequest (Some Sample.alice) Sample.questionId []) Sample.db
  = (Respond 200 (Message "Question deleted successfully"),
     mkDb (students Sample.db) [] [] []).
Proof.
  assert (NoDup (map Question._id (questions Sample.db))) as Hnd.
  { repeat constructor. intros []. }
  destruct (delete_question_cascade Sample.env
              (mkRequest (Some Sample.alice) Sample.questionId [])
              Sample.db Sample.alice Sample.question
              eq_refl eq_refl eq_refl eq_refl eq_refl Hnd)
    as (_ & _ & Hok).
  destruct (Hok eq_refl eq_refl) as [Hrun _]. exact Hrun.
Defined.

(* ===================================================================== *)
(** * Ownership of questions and responses *)
(* ===================================================================== *)

Lemma bodyOptionalTrimLength_verdict (field : string) (lo hi : nat) (msg : string)
      (body : JsObject) :
  snd (bodyOptionalTrimLength field lo hi msg body) = []
  <-> optionalTextOk field lo hi body.
Proof.
  unfold bodyOptionalTrimLength, optionalTextOk.
  set (s := trim (toStr (prop field body))).
  assert (Nat.leb lo (String.length s) && Nat.leb (String.length s) hi = true
          <-> lo <= String.length s <= hi) as Hlen.
  { rewrite andb_true_iff, !Nat.leb_le. tauto. }
  destruct (prop field body) eqn:E; cbn [snd];
    [ split; [now left | reflexivity] | .. ];
    fold s;
    destruct (Nat.leb lo (String.length s) && Nat.leb (String.length s) hi);
    (split; [ intros H; try discriminate; right; now apply Hlen
            | intros [H|H]; [discriminate | apply Hlen in H; congruence] ]).
Qed.

Lemma bodyOptionalBoolean_verdict (field msg : string) (body : JsObject) :
  snd (bodyOptionalBoolean field msg body) = [] <-> optionalBooleanOk field body.
Proof.
  unfold bodyOptionalBoolean, optionalBooleanOk.
  destruct (prop field body) as [| |b|z|t] eqn:E; cbn [snd];
    [ split; [now left | reflexivity] | .. ];
    match goal with |- context [isBoolean ?v] => destruct (isBoolean v) end;
    (split; [ intros H; try discriminate; now right
            | intros [H|H]; [discriminate | congruence] ]).
Qed.

(** The field checks of the two edit routes, read off their chains: the
    body passes when each text it holds has, once trimmed, a length
    within the bounds of its field, and [isResolved], when present, is
    one of the values [isBoolean()] accepts. *)
Lemma patchResponseChains_verdict (body : JsObject) :
  snd (runChains patchResponseChains body) = []
  <-> optionalTextOk "content" 1 1500 body.
Proof.
  unfold patchResponseChains. cbn [runChains].
  rewrite <- (bodyOptionalTrimLength_verdict "content" 1 1500
                "Content must be 1-1500 characters" body).
  destruct (bodyOptionalTrimLength _ _ _ _ body) as [b e]. cbn [snd].
  now rewrite app_nil_r.
Qed.

Lemma bodyOptionalTrimLength_other (field other : string) (lo hi : nat)
      (msg : string) (body : JsObject) :
  String.eqb field other = false ->
  prop other (fst (bodyOptionalTrimLength field lo hi msg body)) = prop other body.
Proof.
  intros Hne. unfold bodyOptionalTrimLength.
  destruct (prop field body); cbn [fst];
    try reflexivity; now apply prop_setProp_other.
Qed.

Lemma patchQuestionChains_verdict (body : JsObject) :
  snd (runChains patchQuestionChains body) = []
  <-> optionalTextOk "title" 1 200 body
      /\ optionalTextOk "content" 1 2000 body
      /\ optionalBooleanOk "isResolved" body.
Proof.
  unfold patchQuestionChains. cbn [runChains].
  pose proof (bodyOptionalTrimLength_verdict "title" 1 200
                "Title must be 1-200 characters" body) as Ht.
  pose proof (bodyOptionalTrimLength_other "title" "content" 1 200
                "Title must be 1-200 characters" body eq_refl) as Hc1.
  pose proof (bodyOptionalTrimLength_other "title" "isResolved" 1 200
                "Title must be 1-200 characters" body eq_refl) as Hr1.
  destruct (bodyOptionalTrimLength "title" _ _ _ body) as [b1 e1].
  cbn [fst snd] in Ht, Hc1, Hr1.
  pose proof (bodyOptionalTrimLength_verdict "content" 1 2000
                "Content must be 1-2000 characters" b1) as Hc.
  pose proof (bodyOptionalTrimLength_other "content" "isResolved" 1 2000
                "Content must be 1-2000 characters" b1 eq_refl) as Hr2.
  destruct (bodyOptionalTrimLength "content" _ _ _ b1) as [b2 e2].
  cbn [fst snd] in Hc, Hr2.
  pose proof (bodyOptionalBoolean_verdict "isResolved"
                "isResolved must be a boolean" b2) as Hr.
  destruct (bodyOptionalBoolean "isResolved" _ b2) as [b3 e3].
  cbn [fst snd] in Hr. cbn [snd]. rewrite app_nil_r.
  unfold optionalTextOk, optionalBooleanOk in *.
  rewrite Hc1 in Hc. rewrite Hr2, Hr1 in Hr.
  rewrite <- Ht, <- Hc, <- Hr.
  split.
  - intros H. apply app_eq_nil in H as [-> H]. apply app_eq_nil in H as [-> ->].
    now repeat split.
  - intros (-> & -> & ->). reflexivity.
Qed.

(** C3 (as the code has it).  A logged-in student who is not the poster
    of a stored response or question cannot edit or delete it, whatever
    the body of the request holds: the database is left as it was, a
    delete is answered 403, and an edit is answered 403 when the body
    passes the route's field checks and 400 with their messages when it
    does not.  The field checks run before the ownership check; which
    bodies pass them is stated by [patchResponseChains_verdict] and
    [patchQuestionChains_verdict]. *)
Theorem non_poster_is_rejected
        (env : Env) (req : Request) (db : Db) (student : SessionStudent) :
  session req = Some student ->
  isValidObjectId (JStr (param req)) = true ->
  (forall r,
      unreachable env RESPONSES = false ->
      findOne Response._id (param req) (responses db) = Some r ->
      Response.posterId r <> id student ->
      deleteResponseRoute env req db
      = (Respond 403 (Failure "You can only delete your own responses"), db)
      /\ patchResponse env req db
         = (match snd (runChains patchResponseChains (body req)) with
            | [] => Respond 403 (Failure "You can only edit your own responses")
            | errors => Respond 400 (ValidationErrors errors)
            end, db))
  /\
  (forall q,
      unreachable env QUESTIONS = false ->
      findOne Question._id (param req) (questions db) = Some q ->
      Question.posterId q <> id student ->
      deleteQuestionRoute env req db
      = (Respond 403 (Failure "You can only delete your own questions"), db)
      /\ patchQuestion env req db
         = (match snd (runChains patchQuestionChains (body req)) with
            | [] => Respond 403 (Failure "You can only edit your own questions")
            | errors => Respond 400 (ValidationErrors errors)
            end, db)).
Proof.
  intros Hs Hv. split.
  - intros r Hr Hf Hne. apply String.eqb_neq in Hne. split.
    + unfold deleteResponseRoute. rewrite (route_no_chain _ _ _ student _ Hs Hv).
      unfold handle. rewrite bind_eq.
      rewrite (getResponseById_eq _ _ _ Hv), Hr, Hf, Hne. reflexivity.
    + unfold patchResponse. rewrite (route_eq _ _ _ _ student _ Hs Hv).
      destruct (snd (runChains patchResponseChains (body req))); [|reflexivity].
      unfold handle. rewrite bind_eq.
      rewrite (getResponseById_eq _ _ _ Hv), Hr, Hf, Hne. reflexivity.
  - intros q Hq Hf Hne. apply String.eqb_neq in Hne. split.
    + unfold deleteQuestionRoute. rewrite (route_no_chain _ _ _ student _ Hs Hv).
      unfold handle. rewrite bind_eq.
      rewrite (getQuestionById_eq _ _ _ Hv), Hq, Hf.
      cbn [option_map doc addPosterName]. rewrite Hne. reflexivity.
    + unfold patchQuestion. rewrite (route_eq _ _ _ _ student _ Hs Hv).
      destruct (snd (runChains patchQuestionChains (body req))); [|reflexivity].
      unfold handle. rewrite bind_eq.
      rewrite (getQuestionById_eq _ _ _ Hv), Hq, Hf.
      cbn [option_map doc addPosterName]. rewrite Hne. reflexivity.
Qed.

(** Carol tries to take over Bob's answer and to delete it, then to
    resolve and to delete Alice's question: 403 each time, nothing
    changes.  The bodies name fields the store would refuse. *)
Lemma non_poster_is_rejected_witness :
  (deleteResponseRoute Sample.env
     (mkRequest (Some Sample.carol) Sample.responseId
                [("posterId", JStr Sample.carolId)]) Sample.db
   = (Respond 403 (Failure "You can only delete your own responses"), Sample.db)
   /\ patchResponse Sample.env
        (mkRequest (Some Sample.carol) Sample.responseId
                   [("posterId", JStr Sample.carolId)]) Sample.db
      = (Respond 403 (Failure "You can only edit your own responses"), Sample.db))
  /\
  (deleteQuestionRoute Sample.env
     (mkRequest (Some Sample.carol) Sample.questionId
                [("courseId", JNum 7)]) Sample.db
   = (Respond 403 (Failure "You can only delete your own questions"), Sample.db)
   /\ patchQuestion Sample.env
        (mkRequest (Some Sample.carol) Sample.questionId
                   [("courseId", JNum 7)]) Sample.db
      = (Respond 403 (Failure "You can only edit your own questions"), Sample.db)).
Proof.
  assert (Response.posterId Sample.response <> id Sample.carol) as Hr.
  { discriminate. }
  assert (Question.posterId Sample.question <> id Sample.carol) as Hq.
  { discriminate. }
  split.
  - exact (proj1 (non_poster_is_rejected Sample.env
                    (mkRequest (Some Sample.carol) Sample.responseId
                               [("posterId", JStr Sample.carolId)])
                    Sample.db Sample.carol eq_refl eq_refl)
                 Sample.response eq_refl eq_refl Hr).
  - exact (proj2 (non_poster_is_rejected Sample.env
                    (mkRequest (Some Sample.carol) Sample.questionId
                               [("courseId", JNum 7)])
                    Sample.db Sample.carol eq_refl eq_refl)
                 Sample.question eq_refl eq_refl Hq).
Defined.

(** Carol sends Bob's answer an empty [content]: the field check answers
    400 before the ownership check is reached, so the rejection is not
    a 403. *)
Lemma non_poster_invalid_body_is_400 :
  let req := mkRequest (Some Sample.carol) Sample.responseId
                       [("content", JStr EmptyString)] in
  findOne Response._id (param req) (responses Sample.db) = Some Sample.response
  /\ Response.posterId Sample.response <> id Sample.carol
  /\ patchResponse Sample.env req Sample.db
     = (Respond 400 (ValidationErrors ["Content must be 1-1500 characters"]),
        Sample.db)
  /\ forall p, fst (patchResponse Sample.env req Sample.db) <> Respond 403 p.
Proof.
  cbv zeta. split; [reflexivity|]. split; [discriminate|].
  split; [vm_compute; reflexivity|].
  intros p. vm_compute. discriminate.
Qed.

(* ===================================================================== *)
(** * The allow-lists of the updates *)
(* ===================================================================== *)

Lemma validateString_kind (v : JsValue) (field : string) (lo hi : nat) (e : Error) :
  validateString v field lo hi = Throw e -> kindOf e = InvalidInput.
Proof.
  unfold validateString. destruct v; try (intros [= <-]; reflexivity).
  destruct (Nat.ltb (String.length (trim s)) lo); [intros [= <-]; reflexivity|].
  destruct (Nat.ltb hi (String.length (trim s))); [intros [= <-]; reflexivity|].
  discriminate.
Qed.

Lemma includes_spec (key : string) (allowed : list string) :
  existsb (String.eqb key) allowed = true <-> In key allowed.
Proof.
  rewrite existsb_exists. split.
  - intros (k & Hin & Heq). apply String.eqb_eq in Heq. now subst.
  - intros Hin. exists key. split; [exact Hin | apply String.eqb_refl].
Qed.

Lemma hasUnlisted_tail (allowed : list string) (k : string) (v : JsValue)
      (rest : JsObject) :
  hasUnlisted allowed ((k, v) :: rest) -> In k allowed -> hasUnlisted allowed rest.
Proof.
  intros (key & [Hk|Hin] & Hnot) Hallowed.
  - simpl in Hk. subst key. contradiction.
  - exists key. auto.
Qed.

(** The loop of [updateResponse] stops with a validation error before
    it reaches the end of a body that holds an unlisted key. *)
Lemma responseUpdateLoop_unlisted (entries : JsObject) :
  forall fields,
    hasUnlisted responseAllowedUpdates entries ->
    exists e, responseUpdateLoop entries fields = Throw e
              /\ kindOf e = InvalidInput.
Proof.
  induction entries as [|[k v] rest IH]; intros fields Hbad.
  - destruct Hbad as (key & [] & _).
  - cbn [responseUpdateLoop].
    destruct (existsb (String.eqb k) responseAllowedUpdates) eqn:E; cbn [negb].
    + apply includes_spec in E.
      pose proof (hasUnlisted_tail _ _ _ _ Hbad E) as Hrest.
      destruct (String.eqb k "content").
      * destruct (validateString v "Content" 1 1500) eqn:V; [now apply IH|].
        exists e. split; [reflexivity | exact (validateString_kind _ _ _ _ _ V)].
      * destruct (String.eqb k "isHelpful"); [|now apply IH].
        destruct v; try (eexists; split; reflexivity). now apply IH.
    + eexists. split; reflexivity.
Qed.

Lemma questionUpdateLoop_unlisted (entries : JsObject) :
  forall fields,
    hasUnlisted questionAllowedUpdates entries ->
    exists e, questionUpdateLoop entries fields = Throw e
              /\ kindOf e = InvalidInput.
Proof.
  induction entries as [|[k v] rest IH]; intros fields Hbad.
  - destruct Hbad as (key & [] & _).
  - cbn [questionUpdateLoop].
    destruct (existsb (String.eqb k) questionAllowedUpdates) eqn:E; cbn [negb].
    + apply includes_spec in E.
      pose proof (hasUnlisted_tail _ _ _ _ Hbad E) as Hrest.
      destruct (String.eqb k "title").
      * destruct (validateString v "Title" 1 200) eqn:V; [now apply IH|].
        exists e. split; [reflexivity | exact (validateString_kind _ _ _ _ _ V)].
      * destruct (String.eqb k "content").
        -- destruct (validateString v "Content" 1 2000) eqn:V; [now apply IH|].
           exists e. split; [reflexivity | exact (validateString_kind _ _ _ _ _ V)].
        -- destruct (String.eqb k "isResolved"); [|now apply IH].
           destruct v; try (eexists; split; reflexivity). now apply IH.
    + eexists. split; reflexivity.
Qed.

(** C8.  [updateResponse] and [updateQuestion] called with a body that
    is empty, or that holds a key outside the allow-list
    ([content]/[isHelpful] for a response, [title]/[content]/[isResolved]
    for a question), throw an invalid-input error and leave the whole
    database, hence the entity and its [updatedAt], exactly as it was.
    This holds for every id, every database and every other content of
    the body. *)
Theorem update_rejects_unlisted_fields
        (env : Env) (entityId : JsValue) (db : Db) (updates : JsObject) :
  (updates = [] \/ hasUnlisted ["content"; "isHelpful"] updates ->
   exists e, updateResponse env entityId (Some updates) db = (Throw e, db)
             /\ kindOf e = InvalidInput)
  /\
  (updates = [] \/ hasUnlisted ["title"; "content"; "isResolved"] updates ->
   exists e, updateQuestion env entityId (Some updates) db = (Throw e, db)
             /\ kindOf e = InvalidInput).
Proof.
  split; intros Hbad.
  - unfold updateResponse.
    destruct (asObjectId entityId); [|eexists; split; reflexivity].
    destruct Hbad as [->|Hbad]; [eexists; split; reflexivity|].
    destruct updates as [|entry rest]; [eexists; split; reflexivity|].
    cbn [length Nat.eqb]. rewrite bind_eq. unfold lift.
    destruct (responseUpdateLoop_unlisted (entry :: rest)
                (mkResponseFields None None) Hbad) as (e & -> & Hk).
    exists e. split; [reflexivity | exact Hk].
  - unfold updateQuestion.
    destruct (asObjectId entityId); [|eexists; split; reflexivity].
    destruct Hbad as [->|Hbad]; [eexists; split; reflexivity|].
    destruct updates as [|entry rest]; [eexists; split; reflexivity|].
    cbn [length Nat.eqb]. rewrite bind_eq. unfold lift.
    destruct (questionUpdateLoop_unlisted (entry :: rest)
                (mkQuestionFields None None None) Hbad) as (e & -> & Hk).
    exists e. split; [reflexivity | exact Hk].
Qed.

(** A valid new content together with an attempt to change [posterId]
    (and, for the question, [courseId]): nothing is written. *)
Lemma update_rejects_unlisted_fields_witness :
  (exists e,
      updateResponse Sample.env (JStr Sample.responseId)
        (Some [("content", JStr "Edited."); ("posterId", JStr Sample.carolId)])
        Sample.db = (Throw e, Sample.db)
      /\ kindOf e = InvalidInput)
  /\
  (exists e,
      updateQuestion Sample.env (JStr Sample.questionId)
        (Some [("content", JStr "Edited."); ("posterId", JStr Sample.carolId)])
        Sample.db = (Throw e, Sample.db)
      /\ kindOf e = InvalidInput).
Proof.
  split.
  - apply (proj1 (update_rejects_unlisted_fields Sample.env
                    (JStr Sample.responseId) Sample.db
                    [("content", JStr "Edited."); ("posterId", JStr Sample.carolId)])).
    right. exists "posterId". split; [simpl; auto|].
    intros [H|[H|[]]]; discriminate H.
  - apply (proj2 (update_rejects_unlisted_fields Sample.env
                    (JStr Sample.questionId) Sample.db
                    [("content", JStr "Edited."); ("posterId", JStr Sample.carolId)])).
    right. exists "posterId". split; [simpl; auto|].
    intros [H|[H|[H|[]]]]; discriminate H.
Defined.

(* ===================================================================== *)
(** * Listing the questions of a course *)
(* ===================================================================== *)

Section SortFacts.
Context {D : Type}.
Variable before : D -> D -> bool.

Lemma insertSorted_perm (d : D) (l : list D) :
  Permutation (insertSorted before d l) (d :: l).
Proof.
  induction l as [|e rest IH]; simpl; [apply Permutation_refl|].
  destruct (before d e); [apply Permutation_refl|].
  eapply perm_trans; [apply perm_skip, IH | apply perm_swap].
Qed.

Lemma sortDocs_perm (l : list D) : Permutation (sortDocs before l) l.
Proof.
  induction l as [|d rest IH]; simpl; [constructor|].
  eapply perm_trans; [apply insertSorted_perm | now apply perm_skip].
Qed.

Lemma sortDocs_length (l : list D) : length (sortDocs before l) = length l.
Proof. apply Permutation_length, sortDocs_perm. Qed.

Hypothesis before_total : forall a b, before a b = true \/ before b a = true.

Let inOrder (a b : D) : Prop := before a b = true.

Lemma insertSorted_head (e d : D) (l : list D) :
  inOrder e d -> HdRel inOrder e l -> HdRel inOrder e (insertSorted before d l).
Proof.
  intros Hed Hl. destruct l as [|x rest]; simpl; [now constructor|].
  destruct (before d x); constructor; [exact Hed|].
  now inversion Hl.
Qed.

Lemma insertSorted_sorted (d : D) (l : list D) :
  Sorted inOrder l -> Sorted inOrder (insertSorted before d l).
Proof.
  induction 1 as [|e rest Hrest IH Hhd]; simpl.
  - repeat constructor.
  - destruct (before d e) eqn:E.
    + constructor; [now constructor | now constructor].
    + constructor; [exact IH|].
      apply insertSorted_head; [|exact Hhd].
      destruct (before_total d e) as [H|H]; [congruence | exact H].
Qed.

Lemma sortDocs_sorted (l : list D) : Sorted inOrder (sortDocs before l).
Proof.
  induction l as [|d rest IH]; simpl; [constructor|].
  now apply insertSorted_sorted.
Qed.
End SortFacts.

Lemma filter_both {D} (p q : D -> bool) (l : list D) :
  filter (fun d => p d && q d) l = filter q (filter p l).
Proof.
  induction l as [|d rest IH]; simpl; [reflexivity|].
  destruct (p d); simpl; [|exact IH].
  destruct (q d); now rewrite IH.
Qed.

Lemma filter_split_length {D} (p : D -> bool) (l : list D) :
  length (filter p l) + length (filter (fun d => negb (p d)) l) = length l.
Proof.
  induction l as [|d rest IH]; simpl; [reflexivity|].
  destruct (p d); simpl; lia.
Qed.

Lemma sorted_by_stage (s : SortStage) (l : list QuestionView) :
  match s with Ascending => oldestFirst | Descending => newestFirst end
    (sortDocs (createdBefore s) l).
Proof.
  assert (forall a b, createdBefore s a b = true \/ createdBefore s b a = true)
    as Htotal.
  { intros a b. destruct s; simpl; rewrite !Z.leb_le; lia. }
  pose proof (sortDocs_sorted (createdBefore s) Htotal l) as Hs.
  destruct s; unfold oldestFirst, newestFirst;
    apply Sorted_StronglySorted.
  - intros a b c. lia.
  - eapply Sorted_ind with (P := fun l => Sorted _ l); [constructor| |exact Hs].
    intros a l0 _ IH Hhd. constructor; [exact IH|].
    destruct Hhd; constructor. simpl in H. now apply Z.leb_le.
  - intros a b c. lia.
  - eapply Sorted_ind with (P := fun l => Sorted _ l); [constructor| |exact Hs].
    intros a l0 _ IH Hhd. constructor; [exact IH|].
    destruct Hhd; constructor. simpl in H. now apply Z.leb_le.
Qed.

(** The listing for a match stage and a sort stage. *)
Lemma listing_eq (env : Env) (cid : string) (sortOption : option string) (db : Db) :
  isValidObjectId (JStr cid) = true ->
  unreachable env QUESTIONS = false ->
  getQuestionsByCourseId env (JStr cid) sortOption db
  = let stages := questionStages cid
                    (match sortOption with Some s => s | None => "newest" end) in
    (Ok (sortDocs (createdBefore (snd stages))
           (map (addPosterName (students db))
                (filter (matchesStage (fst stages)) (questions db)))), db).
Proof.
  intros Hv Hq. unfold getQuestionsByCourseId.
  rewrite (asObjectId_valid _ Hv).
  destruct (questionStages cid _) as [m s].
  rewrite onCollection_eq, Hq. reflexivity.
Qed.

Lemma listed_docs (studs : list Student.t) (s : SortStage) (l : list Question.t) :
  Permutation (map doc (sortDocs (createdBefore s) (map (addPosterName studs) l))) l.
Proof.
  eapply perm_trans; [apply Permutation_map, sortDocs_perm|].
  rewrite map_map. cbn [doc addPosterName]. rewrite map_id. apply Permutation_refl.
Qed.

(** C7.  For a course [cid] and whatever questions the database holds,
    with [inCourse] the stored questions of the course:
    - ['oldest'] lists exactly [inCourse], oldest first; ['newest']
      lists exactly [inCourse], newest first;
    - ['answered'] lists exactly the questions of [inCourse] with
      [isResolved = true] and ['unanswered'] exactly those with
      [isResolved = false], both newest first, so that the two lengths
      add up to the length of the full listing;
    - any other sort value, and a sort value left out, give the
      ['newest'] listing.
    Listing changes nothing in the database. *)
Theorem questions_listing (env : Env) (cid : string) (db : Db) :
  isValidObjectId (JStr cid) = true ->
  unreachable env QUESTIONS = false ->
  let inCourse :=
    filter (fun q => String.eqb (Question.courseId q) cid) (questions db) in
  let listed sortOption := getQuestionsByCourseId env (JStr cid) sortOption db in
  exists oldest newest answered unanswered,
    listed (Some "oldest") = (Ok oldest, db)
    /\ listed (Some "newest") = (Ok newest, db)
    /\ listed (Some "answered") = (Ok answered, db)
    /\ listed (Some "unanswered") = (Ok unanswered, db)
    /\ Permutation (map doc oldest) inCourse /\ oldestFirst oldest
    /\ Permutation (map doc newest) inCourse /\ newestFirst newest
    /\ Permutation (map doc answered) (filter Question.isResolved inCourse)
    /\ newestFirst answered
    /\ Permutation (map doc unanswered)
                   (filter (fun q => negb (Question.isResolved q)) inCourse)
    /\ newestFirst unanswered
    /\ length answered + length unanswered = length newest
    /\ length newest = length oldest
    /\ (forall s, s <> "oldest" -> s <> "answered" -> s <> "unanswered" ->
                  listed (Some s) = (Ok newest, db))
    /\ listed None = (Ok newest, db).
Proof.
  intros Hv Hq inCourse listed. subst listed. cbv beta.
  assert (forall b,
             filter (matchesStage (mkMatch cid (Some b))) (questions db)
             = filter (fun q => Bool.eqb (Question.isResolved q) b) inCourse)
    as Hresolved.
  { intros b. unfold matchesStage. cbn [match_courseId match_isResolved].
    apply filter_both. }
  assert (filter (matchesStage (mkMatch cid None)) (questions db) = inCourse)
    as Hall.
  { unfold matchesStage. cbn [match_courseId match_isResolved].
    apply filter_ext. intros q. apply andb_true_r. }
  assert (filter (fun q => Bool.eqb (Question.isResolved q) true) inCourse
          = filter Question.isResolved inCourse) as Htrue.
  { apply filter_ext. intros q. now destruct (Question.isResolved q). }
  assert (filter (fun q => Bool.eqb (Question.isResolved q) false) inCourse
          = filter (fun q => negb (Question.isResolved q)) inCourse) as Hfalse.
  { apply filter_ext. intros q. now destruct (Question.isResolved q). }
  do 4 eexists.
  rewrite !(listing_eq _ _ _ _ Hv Hq).
  cbn [questionStages String.eqb Ascii.eqb Bool.eqb fst snd].
  rewrite !Hresolved, Hall, Htrue, Hfalse.
  split; [reflexivity|]. split; [reflexivity|].
  split; [reflexivity|]. split; [reflexivity|].
  split; [apply listed_docs|]. split; [apply (sorted_by_stage Ascending)|].
  split; [apply listed_docs|]. split; [apply (sorted_by_stage Descending)|].
  split; [apply listed_docs|]. split; [apply (sorted_by_stage Descending)|].
  split; [apply listed_docs|]. split; [apply (sorted_by_stage Descending)|].
  split.
  { rewrite !sortDocs_length, !length_map. apply filter_split_length. }
  split.
  { now rewrite !sortDocs_length. }
  split; [|reflexivity].
  intros s Ho Ha Hu. rewrite (listing_eq _ _ _ _ Hv Hq).
  cbv zeta. unfold questionStages.
  apply String.eqb_neq in Ho, Ha, Hu. rewrite Ho, Ha, Hu.
  destruct (String.eqb s "newest"); cbn [fst snd]; now rewrite Hall.
Qed.

Lemma questions_listing_witness :
  exists oldest newest answered unanswered,
    getQuestionsByCourseId Sample.env (JStr Sample.courseId) (Some "oldest")
                           threeQuestions = (Ok oldest, threeQuestions)
    /\ getQuestionsByCourseId Sample.env (JStr Sample.courseId) (Some "sideways")
                              threeQuestions = (Ok newest, threeQuestions)
    /\ getQuestionsByCourseId Sample.env (JStr Sample.courseId) (Some "answered")
                              threeQuestions = (Ok answered, threeQuestions)
    /\ getQuestionsByCourseId Sample.env (JStr Sample.courseId) (Some "unanswered")
                              threeQuestions = (Ok unanswered, threeQuestions)
    /\ oldestFirst oldest /\ newestFirst newest
    /\ length answered + length unanswered = length newest.
Proof.
  destruct (questions_listing Sample.env Sample.courseId threeQuestions
              eq_refl eq_refl)
    as (oldest & newest & answered & unanswered & Ho & _ & Ha & Hu & _ & Hso
        & _ & Hsn & _ & _ & _ & _ & Hlen & _ & Hother & _).
  exists oldest, newest, answered, unanswered.
  repeat split; try assumption.
  apply Hother; discriminate.
Defined.

(** The listing orders of the three questions, by their titles. *)
Example three_questions_listed :
  let titles sortOption :=
    match fst (getQuestionsByCourseId Sample.env (JStr Sample.courseId)
                                      sortOption threeQuestions) with
    | Ok l => map (fun v => Question.title (doc v)) l
    | Throw _ => []
    end in
  titles (Some "oldest") = ["First"; "Second"; "Third"]
  /\ titles (Some "newest") = ["Third"; "Second"; "First"]
  /\ titles (Some "answered") = ["Second"]
  /\ titles (Some "unanswered") = ["Third"; "First"]
  /\ titles None = ["Third"; "Second"; "First"].
Proof. cbv zeta. repeat split; vm_compute; reflexivity. Qed.

(* ===================================================================== *)
(** * Further properties: validation *)
(* ===================================================================== *)

Lemma textOk_validated (raw : string) (lo hi : nat) :
  lo <= String.length (trim raw) <= hi -> textOk lo hi (trim raw).
Proof. intros H. split; [apply trim_idempotent | exact H]. Qed.

Lemma validateString_inv (v : JsValue) (field : string) (lo hi : nat) (s : string) :
  validateString v field lo hi = Ok s ->
  exists raw, v = JStr raw /\ s = trim raw /\ lo <= String.length (trim raw) <= hi.
Proof.
  unfold validateString. destruct v as [| | |z|raw]; try discriminate.
  destruct (Nat.ltb_spec (String.length (trim raw)) lo); [discriminate|].
  destruct (Nat.ltb_spec hi (String.length (trim raw))); [discriminate|].
  intros [= <-]. exists raw. repeat split; lia.
Qed.

(** X1.  What [validateString] accepts is a string; what it returns is
    that string trimmed, it lies within the bounds, and validating the
    returned text again gives it back unchanged. *)
Theorem validateString_result
        (v : JsValue) (field : string) (lo hi : nat) (s : string) :
  validateString v field lo hi = Ok s ->
  exists raw,
    v = JStr raw /\ s = trim raw
    /\ trim s = s /\ lo <= String.length s <= hi
    /\ forall field', validateString (JStr s) field' lo hi = Ok s.
Proof.
  intros H. destruct (validateString_inv _ _ _ _ _ H) as (raw & -> & -> & Hlen).
  exists raw. split; [reflexivity|]. split; [reflexivity|].
  split; [apply trim_idempotent|]. split; [exact Hlen|].
  intros field'. rewrite validateString_ok by (now rewrite trim_idempotent).
  now rewrite trim_idempotent.
Qed.

Lemma validateString_result_witness :
  exists raw,
    JStr (String "160" "  Hello there ") = JStr raw /\ "Hello there" = trim raw
    /\ trim "Hello there" = "Hello there"
    /\ 1 <= String.length "Hello there" <= 200
    /\ forall field', validateString (JStr "Hello there") field' 1 200
                      = Ok "Hello there".
Proof.
  exact (validateString_result (JStr (String "160" "  Hello there ")) "Title" 1 200
                               "Hello there" eq_refl).
Defined.

Lemma escape_step (d : ascii) (rest : string) :
  replaceAll "/" "&#x2F;"
    (replaceAll "'" "&#x27;"
      (replaceAll "034" "&quot;"
        (replaceAll ">" "&gt;"
          (replaceAll "<" "&lt;"
            (replaceAll "&" "&amp;" (String d rest))))))
  = (escapeChar d
     ++ replaceAll "/" "&#x2F;"
          (replaceAll "'" "&#x27;"
            (replaceAll "034" "&quot;"
              (replaceAll ">" "&gt;"
                (replaceAll "<" "&lt;"
                  (replaceAll "&" "&amp;" rest))))))%string.
Proof.
  unfold escapeChar.
  destruct (Ascii.eqb d "&") eqn:E1;
    [apply Ascii.eqb_eq in E1; subst d; reflexivity|].
  destruct (Ascii.eqb d "<") eqn:E2;
    [apply Ascii.eqb_eq in E2; subst d; reflexivity|].
  destruct (Ascii.eqb d ">") eqn:E3;
    [apply Ascii.eqb_eq in E3; subst d; reflexivity|].
  destruct (Ascii.eqb d "034") eqn:E4;
    [apply Ascii.eqb_eq in E4; subst d; reflexivity|].
  destruct (Ascii.eqb d "'") eqn:E5;
    [apply Ascii.eqb_eq in E5; subst d; reflexivity|].
  destruct (Ascii.eqb d "/") eqn:E6;
    [apply Ascii.eqb_eq in E6; subst d; reflexivity|].
  cbn [replaceAll]. rewrite E1. cbn [replaceAll]. rewrite E2.
  cbn [replaceAll]. rewrite E3. cbn [replaceAll]. rewrite E4.
  cbn [replaceAll]. rewrite E5. cbn [replaceAll]. rewrite E6.
  reflexivity.
Qed.

Lemma sanitizeString_escape (s : string) :
  sanitizeString (JStr s) = JStr (escape s).
Proof.
  unfold sanitizeString. f_equal.
  induction s as [|d rest IH]; [reflexivity|].
  rewrite escape_step, IH. reflexivity.
Qed.

Lemma escapeChar_clean (c : ascii) :
  allChars (fun d => negb (isMarkup d)) (escapeChar c) = true.
Proof.
  unfold escapeChar.
  destruct (Ascii.eqb c "&") eqn:E1; [reflexivity|].
  destruct (Ascii.eqb c "<") eqn:E2; [reflexivity|].
  destruct (Ascii.eqb c ">") eqn:E3; [reflexivity|].
  destruct (Ascii.eqb c "034") eqn:E4; [reflexivity|].
  destruct (Ascii.eqb c "'") eqn:E5; [reflexivity|].
  destruct (Ascii.eqb c "/") eqn:E6; [reflexivity|].
  cbn [allChars]. unfold isMarkup. now rewrite E2, E3, E4, E5, E6.
Qed.

(** X2.  [sanitizeString] rewrites a string in one pass, character by
    character (the six replacements in a row never rewrite what an
    earlier one produced); its output holds none of [<], [>], the double
    quote, ['] and [/]; a string with none of these and no [&] comes
    back unchanged; a value that is not a string comes back as it is. *)
Theorem sanitizeString_output (s : string) :
  sanitizeString (JStr s) = JStr (escape s)
  /\ allChars (fun c => negb (isMarkup c)) (escape s) = true
  /\ (allChars (fun c => negb (isMarkup c || Ascii.eqb c "&")) s = true ->
      escape s = s)
  /\ String.length s <= String.length (escape s)
  /\ sanitizeString JNull = JNull /\ sanitizeString JUndef = JUndef
  /\ (forall b, sanitizeString (JBool b) = JBool b)
  /\ (forall z, sanitizeString (JNum z) = JNum z).
Proof.
  split; [apply sanitizeString_escape|]. split; [|split; [|split]].
  - induction s as [|c rest IH]; [reflexivity|].
    cbn [escape]. rewrite allChars_append, escapeChar_clean, IH. reflexivity.
  - induction s as [|c rest IH]; [reflexivity|].
    cbn [allChars escape]. intros H. apply andb_true_iff in H.
    destruct H as [Hc Hrest]. rewrite (IH Hrest).
    apply negb_true_iff, orb_false_iff in Hc. destruct Hc as [Hm Ha].
    unfold isMarkup in Hm.
    repeat (apply orb_false_iff in Hm; destruct Hm as [Hm ?]).
    unfold escapeChar.
    repeat match goal with H : Ascii.eqb c _ = false |- _ => rewrite H; clear H end.
    reflexivity.
  - induction s as [|c rest IH]; [simpl; lia|].
    cbn [escape]. rewrite string_length_append. cbn [String.length].
    assert (1 <= String.length (escapeChar c)).
    { unfold escapeChar.
      repeat match goal with
             | |- context [if ?b then _ else _] => destruct b
             end; simpl; lia. }
    lia.
  - repeat split.
Qed.

(* ===================================================================== *)
(** * Further properties: notifications *)
(* ===================================================================== *)

Lemma updateOne_twice {D} (idOf : D -> ObjectId) (set : D -> D) (i : ObjectId)
      (docs : list D) :
  (forall d, idOf (set d) = idOf d) ->
  (forall d, set (set d) = set d) ->
  updateOne idOf i set (updateOne idOf i set docs) = updateOne idOf i set docs.
Proof.
  intros Hid Hset. induction docs as [|d rest IH]; simpl; [reflexivity|].
  destruct (String.eqb (idOf d) i) eqn:E; simpl.
  - now rewrite Hid, E, Hset.
  - now rewrite E, IH.
Qed.

(** X3.  Marking a notification read is idempotent: when a first call
    succeeds, a second call on the state it left succeeds too, returns
    the same notification (read) and changes nothing. *)
Theorem mark_read_twice
        (env : Env) (notificationId : JsValue) (db db1 : Db) (n : Notification.t) :
  markNotificationAsRead env notificationId db = (Ok n, db1) ->
  markNotificationAsRead env notificationId db1 = (Ok n, db1)
  /\ Notification.isRead n = true.
Proof.
  unfold markNotificationAsRead.
  destruct (asObjectId notificationId) as [i|]; [|discriminate].
  rewrite !bind_eq, !onCollection_eq.
  destruct (unreachable env NOTIFICATIONS); [discriminate|]. cbn [fst snd].
  destruct (findOne Notification._id i (notifications db)) as [n0|] eqn:F;
    cbn [option_map]; [|discriminate].
  intros [= <- <-]. cbn [notifications withNotifications].
  rewrite (findOne_updateOne _ _ setRead_keeps_id), F. cbn [option_map].
  rewrite updateOne_twice by reflexivity.
  split; reflexivity.
Qed.

Lemma mark_read_twice_witness :
  exists n db1,
    markNotificationAsRead Sample.env (JStr Sample.notificationId) Sample.db
    = (Ok n, db1)
    /\ markNotificationAsRead Sample.env (JStr Sample.notificationId) db1
       = (Ok n, db1)
    /\ Notification.isRead n = true.
Proof.
  eexists. eexists. split; [reflexivity|].
  exact (mark_read_twice Sample.env (JStr Sample.notificationId) Sample.db _ _
                         eq_refl).
Defined.

Lemma forStudent_setRead (i : ObjectId) (n : Notification.t) :
  forStudent i true (setRead n) = false.
Proof. unfold forStudent. cbn. apply andb_false_r. Qed.

Lemma unread_after_mark_all (i : ObjectId) (ns : list Notification.t) :
  filter (forStudent i true)
         (map (fun n => if forStudent i true n then setRead n else n) ns) = [].
Proof.
  induction ns as [|n rest IH]; [reflexivity|].
  cbn [map filter].
  destruct (forStudent i true n) eqn:E.
  - now rewrite forStudent_setRead.
  - now rewrite E.
Qed.

Lemma map_unchanged {D} (f : D -> D) (l : list D) :
  (forall d, In d l -> f d = d) -> map f l = l.
Proof.
  induction l as [|d rest IH]; intros H; [reflexivity|].
  cbn [map]. rewrite H by (left; reflexivity).
  rewrite IH; [reflexivity|]. intros e He. apply H. now right.
Qed.

Lemma filter_nil_spec {D} (p : D -> bool) (l : list D) :
  filter p l = [] -> forall d, In d l -> p d = false.
Proof.
  induction l as [|e rest IH]; intros H d Hd; [destruct Hd|].
  cbn [filter] in H. destruct (p e) eqn:E; [discriminate|].
  destruct Hd as [<-|Hd]; [exact E | now apply IH].
Qed.

(** X4.  [markAllNotificationsAsRead] of a student returns as
    [modifiedCount] exactly the student's unread count; afterwards that
    count is 0 and a second call modifies nothing and returns 0.  It
    never fails for a student without notifications.  The notifications
    of other recipients are untouched, no notification is added or
    removed, and only [isRead] changes. *)
Theorem mark_all_read (env : Env) (studentId : string) (db : Db) :
  validId studentId ->
  unreachable env NOTIFICATIONS = false ->
  exists count db',
    getUnreadNotificationCount env (JStr studentId) db = (Ok count, db)
    /\ markAllNotificationsAsRead env (JStr studentId) db = (Ok count, db')
    /\ getUnreadNotificationCount env (JStr studentId) db' = (Ok 0, db')
    /\ markAllNotificationsAsRead env (JStr studentId) db' = (Ok 0, db')
    /\ notifications db'
       = map (fun n => if String.eqb (Notification.recipientId n) studentId
                       then setRead n else n) (notifications db)
    /\ students db' = students db /\ questions db' = questions db
    /\ responses db' = responses db.
Proof.
  intros Hv Hr. unfold validId in Hv.
  set (mark := fun n : Notification.t =>
                 if forStudent studentId true n then setRead n else n).
  assert (map mark (map mark (notifications db)) = map mark (notifications db))
    as Htwice.
  { rewrite map_map. apply map_ext. intros n. unfold mark.
    destruct (forStudent studentId true n) eqn:E.
    - now rewrite forStudent_setRead.
    - now rewrite E. }
  assert (filter (forStudent studentId true) (map mark (notifications db)) = [])
    as Hzero.
  { apply unread_after_mark_all. }
  unfold getUnreadNotificationCount, markAllNotificationsAsRead.
  rewrite (asObjectId_valid _ Hv), !onCollection_eq, Hr. cbn [fst snd].
  fold mark.
  do 2 eexists. split; [reflexivity|]. split; [reflexivity|].
  rewrite !onCollection_eq, Hr. cbn [fst snd notifications withNotifications].
  fold mark. rewrite Hzero, Htwice. cbn [length].
  unfold withNotifications. cbn [students questions responses notifications].
  split; [reflexivity|]. split; [reflexivity|].
  split; [|repeat split].
  apply map_ext. intros n. unfold mark, forStudent.
  destruct (String.eqb (Notification.recipientId n) studentId); cbn [andb];
    [|reflexivity].
  destruct n as [a b c d e f r g]. destruct r; reflexivity.
Qed.

Lemma mark_all_read_witness :
  exists count db',
    markAllNotificationsAsRead Sample.env (JStr Sample.aliceId) Sample.db
    = (Ok count, db')
    /\ getUnreadNotificationCount Sample.env (JStr Sample.aliceId) db' = (Ok 0, db')
    /\ markAllNotificationsAsRead Sample.env (JStr Sample.aliceId) db' = (Ok 0, db').
Proof.
  destruct (mark_all_read Sample.env Sample.aliceId Sample.db eq_refl eq_refl)
    as (count & db' & _ & H1 & H2 & H3 & _).
  exists count, db'. repeat split; assumption.
Defined.

Lemma notifications_sorted (l : list Notification.t) :
  StronglySorted
    (fun a b => (Notification.createdAt b <= Notification.createdAt a)%Z)
    (sortDocs notificationNewerFirst l).
Proof.
  assert (forall a b, notificationNewerFirst a b = true
                      \/ notificationNewerFirst b a = true) as Htotal.
  { intros a b. unfold notificationNewerFirst. rewrite !Z.leb_le. lia. }
  pose proof (sortDocs_sorted notificationNewerFirst Htotal l) as Hs.
  apply Sorted_StronglySorted; [intros a b c; lia|].
  eapply Sorted_ind with (P := fun l => Sorted _ l); [constructor| |exact Hs].
  intros a l0 _ IH Hhd. constructor; [exact IH|].
  destruct Hhd; constructor. now apply Z.leb_le.
Qed.

(** X5.  [getNotificationsByStudentId] lists exactly the notifications
    addressed to the student (only the unread ones unless [unreadOnly]
    is [false]; left out, it counts as [true]), newest first, and reads
    only; the unread listing has as many entries as
    [getUnreadNotificationCount] reports. *)
Theorem notifications_listing (env : Env) (studentId : string) (db : Db) :
  validId studentId ->
  unreachable env NOTIFICATIONS = false ->
  exists unread every,
    getNotificationsByStudentId env (JStr studentId) (Some true) db = (Ok unread, db)
    /\ getNotificationsByStudentId env (JStr studentId) None db = (Ok unread, db)
    /\ getNotificationsByStudentId env (JStr studentId) (Some false) db
       = (Ok every, db)
    /\ Permutation unread
         (filter (fun n => String.eqb (Notification.recipientId n) studentId
                           && negb (Notification.isRead n)) (notifications db))
    /\ Permutation every
         (filter (fun n => String.eqb (Notification.recipientId n) studentId)
                 (notifications db))
    /\ StronglySorted
         (fun a b => (Notification.createdAt b <= Notification.createdAt a)%Z) unread
    /\ StronglySorted
         (fun a b => (Notification.createdAt b <= Notification.createdAt a)%Z) every
    /\ getUnreadNotificationCount env (JStr studentId) db = (Ok (length unread), db).
Proof.
  intros Hv Hr. unfold validId in Hv.
  unfold getNotificationsByStudentId, getUnreadNotificationCount.
  rewrite (asObjectId_valid _ Hv), !onCollection_eq, Hr. cbn [fst snd].
  do 2 eexists. split; [reflexivity|]. split; [reflexivity|].
  split; [reflexivity|]. split; [|split; [|split; [|split]]].
  - eapply perm_trans; [apply sortDocs_perm|].
    rewrite (filter_ext (forStudent studentId true)
               (fun n => String.eqb (Notification.recipientId n) studentId
                         && negb (Notification.isRead n)));
      [apply Permutation_refl|].
    intros n. unfold forStudent.
    destruct (Notification.isRead n); reflexivity.
  - eapply perm_trans; [apply sortDocs_perm|].
    rewrite (filter_ext (forStudent studentId false)
               (fun n => String.eqb (Notification.recipientId n) studentId));
      [apply Permutation_refl|].
    intros n. unfold forStudent. apply andb_true_r.
  - apply notifications_sorted.
  - apply notifications_sorted.
  - now rewrite sortDocs_length.
Qed.

Lemma notifications_listing_witness :
  exists unread,
    getNotificationsByStudentId Sample.env (JStr Sample.aliceId) None Sample.db
    = (Ok unread, Sample.db)
    /\ getUnreadNotificationCount Sample.env (JStr Sample.aliceId) Sample.db
       = (Ok (length unread), Sample.db).
Proof.
  destruct (notifications_listing Sample.env Sample.aliceId Sample.db
                                  eq_refl eq_refl)
    as (unread & every & _ & H1 & _ & _ & _ & _ & _ & H2).
  exists unread. split; assumption.
Defined.

(** X6.  A notification that [createNotification] stores is unread and
    stamped with the current time, whatever else the payload holds; it
    is appended to the collection, and the recipient's unread count goes
    up by exactly one. *)
Theorem created_notification_is_unread
        (env : Env) (data : JsObject) (db db' : Db) (n : Notification.t) :
  createNotification env data db = (Ok n, db') ->
  Notification.isRead n = false
  /\ Notification.createdAt n = now env
  /\ prop "recipientId" data = JStr (Notification.recipientId n)
  /\ notifications db' = notifications db ++ [n]
  /\ exists k,
      getUnreadNotificationCount env (JStr (Notification.recipientId n)) db
      = (Ok k, db)
      /\ getUnreadNotificationCount env (JStr (Notification.recipientId n)) db'
         = (Ok (S k), db').
Proof.
  unfold createNotification.
  destruct (asObjectId (prop "recipientId" data)) as [rid|] eqn:Er; [|discriminate].
  destruct (asObjectId (prop "questionId" data)) as [qid|]; [|discriminate].
  destruct (asObjectId (prop "senderId" data)) as [sid|]; [|discriminate].
  rewrite bind_eq. unfold lift.
  destruct (validateString (prop "type" data) "Type" 1 1000) as [ty|]; [|discriminate].
  rewrite bind_eq.
  destruct (validateString (prop "message" data) "Message" 1 1000) as [msg|];
    [|discriminate].
  rewrite bind_eq, onCollection_eq.
  destruct (unreachable env NOTIFICATIONS) eqn:Hr; [discriminate|].
  cbn [fst snd acknowledged negb ret result_insertedId].
  intros [= <- <-]. cbn [Notification.isRead Notification.createdAt
                          Notification.recipientId notifications withNotifications].
  pose proof (asObjectId_some _ _ Er) as Hrid.
  split; [reflexivity|]. split; [reflexivity|]. split; [exact Hrid|].
  split; [reflexivity|].
  unfold getUnreadNotificationCount. rewrite <- Hrid, Er, !onCollection_eq, Hr.
  cbn [fst snd notifications withNotifications].
  eexists. split; [reflexivity|].
  rewrite filter_app, length_app. cbn [filter].
  unfold forStudent at 2. cbn [Notification.recipientId Notification.isRead].
  rewrite String.eqb_refl. cbn [andb Bool.eqb length].
  f_equal. f_equal. lia.
Qed.

Lemma created_notification_is_unread_witness :
  exists n db',
    createNotification Sample.env
      [ ("recipientId", JStr Sample.aliceId); ("questionId", JStr Sample.questionId);
        ("senderId", JStr Sample.carolId); ("type", JStr "new_response");
        ("message", JStr "Carol replied"); ("isRead", JBool true) ] Sample.db
    = (Ok n, db')
    /\ Notification.isRead n = false
    /\ getUnreadNotificationCount Sample.env (JStr Sample.aliceId) db' = (Ok 2, db').
Proof.
  eexists. eexists. split; [lazy; reflexivity|].
  destruct (created_notification_is_unread Sample.env
              [ ("recipientId", JStr Sample.aliceId);
                ("questionId", JStr Sample.questionId);
                ("senderId", JStr Sample.carolId); ("type", JStr "new_response");
                ("message", JStr "Carol replied"); ("isRead", JBool true) ]
              Sample.db _ _ eq_refl) as (Hu & _).
  split; [exact Hu | reflexivity].
Defined.

Section DeleteFacts.
Context {D : Type}.
Variable idOf : D -> ObjectId.

Lemma deleteOne_absent (i : ObjectId) (docs : list D) :
  findOne idOf i docs = None -> deleteOne idOf i docs = docs.
Proof.
  induction docs as [|d rest IH]; simpl; [reflexivity|].
  destruct (String.eqb (idOf d) i); [discriminate|].
  intros H. now rewrite IH.
Qed.

Lemma findOne_deleteOne_other (i j : ObjectId) (docs : list D) :
  j <> i -> findOne idOf j (deleteOne idOf i docs) = findOne idOf j docs.
Proof.
  intros Hji. induction docs as [|d rest IH]; simpl; [reflexivity|].
  destruct (String.eqb_spec (idOf d) i) as [E|E]; simpl.
  - destruct (String.eqb_spec (idOf d) j); [congruence | reflexivity].
  - now rewrite IH.
Qed.

Lemma deletedCount_same (docs : list D) : deletedCount docs docs = 0.
Proof. unfold deletedCount. lia. Qed.

Lemma deleteMany_twice (matches : D -> bool) (docs : list D) :
  deleteMany matches (deleteMany matches docs) = deleteMany matches docs.
Proof.
  unfold deleteMany. induction docs as [|d rest IH]; [reflexivity|].
  cbn [filter]. destruct (matches d) eqn:E; cbn [negb]; [exact IH|].
  cbn [filter]. now rewrite E, IH.
Qed.

Lemma deleteMany_count (matches : D -> bool) (docs : list D) :
  deletedCount docs (deleteMany matches docs) = length (filter matches docs).
Proof.
  unfold deletedCount, deleteMany.
  pose proof (filter_split_length matches docs). lia.
Qed.
End DeleteFacts.

(** X7.  [deleteResponse] and [deleteNotification] by id: when no
    document has the id, they throw "not found" and change nothing;
    when one has it, they return [deletedCount = 1], that document is no
    longer found (ids being unique), every other document is found as
    before, and the other collections are untouched: deleting a
    response removes no notification. *)
Theorem delete_by_id (env : Env) (i : string) (db : Db) :
  validId i ->
  (unreachable env RESPONSES = false ->
   (findOne Response._id i (responses db) = None ->
    deleteResponse env (JStr i) db = (Throw (NotFound "Response"), db))
   /\ (forall r,
          findOne Response._id i (responses db) = Some r ->
          NoDup (map Response._id (responses db)) ->
          exists db',
            deleteResponse env (JStr i) db = (Ok 1, db')
            /\ findOne Response._id i (responses db') = None
            /\ (forall j, j <> i -> findOne Response._id j (responses db')
                                    = findOne Response._id j (responses db))
            /\ questions db' = questions db
            /\ notifications db' = notifications db))
  /\
  (unreachable env NOTIFICATIONS = false ->
   (findOne Notification._id i (notifications db) = None ->
    deleteNotification env (JStr i) db = (Throw (NotFound "Notification"), db))
   /\ (forall n,
          findOne Notification._id i (notifications db) = Some n ->
          NoDup (map Notification._id (notifications db)) ->
          exists db',
            deleteNotification env (JStr i) db = (Ok 1, db')
            /\ findOne Notification._id i (notifications db') = None
            /\ (forall j, j <> i -> findOne Notification._id j (notifications db')
                                    = findOne Notification._id j (notifications db))
            /\ questions db' = questions db
            /\ responses db' = responses db)).
Proof.
  intros Hv. unfold validId in Hv. split; intros Hr; split.
  - intros Hnone. unfold deleteResponse.
    rewrite (asObjectId_valid _ Hv), bind_eq, onCollection_eq, Hr. cbn [fst snd].
    rewrite (deleteOne_absent _ _ _ Hnone), deletedCount_same, withResponses_same.
    reflexivity.
  - intros r Hf Hnd. unfold deleteResponse.
    rewrite (asObjectId_valid _ Hv), bind_eq, onCollection_eq, Hr. cbn [fst snd].
    rewrite (deleteOne_count _ _ _ _ Hf). cbn [Nat.eqb ret].
    eexists. split; [reflexivity|]. cbn [responses withResponses].
    split; [now apply findOne_deleteOne|].
    split; [intros j Hj; now apply findOne_deleteOne_other|].
    split; reflexivity.
  - intros Hnone. unfold deleteNotification.
    rewrite (asObjectId_valid _ Hv), bind_eq, onCollection_eq, Hr. cbn [fst snd].
    rewrite (deleteOne_absent _ _ _ Hnone), deletedCount_same,
      withNotifications_same.
    reflexivity.
  - intros n Hf Hnd. unfold deleteNotification.
    rewrite (asObjectId_valid _ Hv), bind_eq, onCollection_eq, Hr. cbn [fst snd].
    rewrite (deleteOne_count _ _ _ _ Hf). cbn [Nat.eqb ret].
    eexists. split; [reflexivity|]. cbn [notifications withNotifications].
    split; [now apply findOne_deleteOne|].
    split; [intros j Hj; now apply findOne_deleteOne_other|].
    split; reflexivity.
Qed.

Lemma delete_by_id_witness :
  (exists db',
      deleteResponse Sample.env (JStr Sample.responseId) Sample.db = (Ok 1, db')
      /\ notifications db' = notifications Sample.db)
  /\ deleteResponse Sample.env (JStr Sample.questionId) Sample.db
     = (Throw (NotFound "Response"), Sample.db).
Proof.
  destruct (delete_by_id Sample.env Sample.responseId Sample.db eq_refl)
    as [Hresp _].
  destruct (Hresp eq_refl) as [_ Hfound].
  assert (NoDup (map Response._id (responses Sample.db))) as Hnd.
  { repeat constructor. intros []. }
  destruct (Hfound Sample.response eq_refl Hnd) as (db' & Hrun & _ & _ & _ & Hn).
  split; [exists db'; split; assumption|].
  destruct (delete_by_id Sample.env Sample.questionId Sample.db eq_refl)
    as [Hresp' _].
  exact (proj1 (Hresp' eq_refl) eq_refl).
Defined.

(** X8.  The cascade helpers [deleteResponsesByQuestionId] and
    [deleteNotificationsByQuestionId] return the number of documents
    that referenced the question, succeed with 0 when there is none, and
    are idempotent: a second call deletes nothing and leaves the state
    of the first. *)
Theorem cascade_helpers (env : Env) (questionId : string) (db : Db) :
  validId questionId ->
  (unreachable env RESPONSES = false ->
   exists db',
     deleteResponsesByQuestionId env (JStr questionId) db
     = (Ok (length (filter (fun r => String.eqb (Response.questionId r) questionId)
                           (responses db))), db')
     /\ deleteResponsesByQuestionId env (JStr questionId) db' = (Ok 0, db')
     /\ (forall r, In r (responses db') <->
                   In r (responses db) /\ Response.questionId r <> questionId))
  /\
  (unreachable env NOTIFICATIONS = false ->
   exists db',
     deleteNotificationsByQuestionId env (JStr questionId) db
     = (Ok (length (filter (fun n => String.eqb (Notification.questionId n) questionId)
                           (notifications db))), db')
     /\ deleteNotificationsByQuestionId env (JStr questionId) db' = (Ok 0, db')
     /\ (forall n, In n (notifications db') <->
                   In n (notifications db) /\ Notification.questionId n <> questionId)).
Proof.
  intros Hv. unfold validId in Hv. split; intros Hr.
  - unfold deleteResponsesByQuestionId.
    rewrite (asObjectId_valid _ Hv), onCollection_eq, Hr. cbn [fst snd].
    eexists. split; [now rewrite deleteMany_count|].
    rewrite onCollection_eq, Hr. cbn [fst snd responses withResponses].
    rewrite deleteMany_twice, deletedCount_same.
    split; [reflexivity|].
    intros r. rewrite deleteMany_spec. now rewrite String.eqb_neq.
  - unfold deleteNotificationsByQuestionId.
    rewrite (asObjectId_valid _ Hv), onCollection_eq, Hr. cbn [fst snd].
    eexists. split; [now rewrite deleteMany_count|].
    rewrite onCollection_eq, Hr. cbn [fst snd notifications withNotifications].
    rewrite deleteMany_twice, deletedCount_same.
    split; [reflexivity|].
    intros n. rewrite deleteMany_spec. now rewrite String.eqb_neq.
Qed.

Lemma cascade_helpers_witness :
  exists db',
    deleteResponsesByQuestionId Sample.env (JStr Sample.questionId) Sample.db
    = (Ok 1, db')
    /\ deleteResponsesByQuestionId Sample.env (JStr Sample.questionId) db'
       = (Ok 0, db').
Proof.
  destruct (cascade_helpers Sample.env Sample.questionId Sample.db eq_refl)
    as [Hresp _].
  destruct (Hresp eq_refl) as (db' & H1 & H2 & _).
  exists db'. split; assumption.
Defined.

(* ===================================================================== *)
(** * Further properties: reading questions and responses *)
(* ===================================================================== *)

Lemma responses_sorted (s : SortStage) (l : list ResponseView) :
  StronglySorted
    (fun a b =>
       match s with
       | Ascending => (Response.createdAt (response_doc a)
                       <= Response.createdAt (response_doc b))%Z
       | Descending => (Response.createdAt (response_doc b)
                        <= Response.createdAt (response_doc a))%Z
       end)
    (sortDocs (responseCreatedBefore s) l).
Proof.
  assert (forall a b, responseCreatedBefore s a b = true
                      \/ responseCreatedBefore s b a = true) as Htotal.
  { intros a b. destruct s; simpl; rewrite !Z.leb_le; lia. }
  pose proof (sortDocs_sorted (responseCreatedBefore s) Htotal l) as Hs.
  apply Sorted_StronglySorted; [intros a b c; destruct s; lia|].
  eapply Sorted_ind with (P := fun l => Sorted _ l); [constructor| |exact Hs].
  intros a l0 _ IH Hhd. constructor; [exact IH|].
  destruct Hhd as [|b l1 H]; constructor.
  destruct s; simpl in H; now apply Z.leb_le.
Qed.

Lemma In_sortDocs {D} (before : D -> D -> bool) (l : list D) (d : D) :
  In d (sortDocs before l) -> In d l.
Proof. apply Permutation_in, sortDocs_perm. Qed.

(** X9.  [getResponsesByQuestionId] lists exactly the stored responses
    of the question, oldest first for ['oldest'] and newest first for
    ['newest'], for any other sort value and for none; it reads only.
    Every listed response carries the stored document, and an anonymous
    one carries the poster name "Anonymous" whatever the students
    collection holds. *)
Theorem responses_listing (env : Env) (questionId : string) (db : Db) :
  validId questionId ->
  unreachable env RESPONSES = false ->
  let ofQuestion :=
    filter (fun r => String.eqb (Response.questionId r) questionId) (responses db) in
  let listed sortOption :=
    getResponsesByQuestionId env (JStr questionId) sortOption db in
  exists oldest newest,
    listed (Some "oldest") = (Ok oldest, db)
    /\ listed (Some "newest") = (Ok newest, db)
    /\ Permutation (map response_doc oldest) ofQuestion
    /\ Permutation (map response_doc newest) ofQuestion
    /\ StronglySorted
         (fun a b => (Response.createdAt (response_doc a)
                      <= Response.createdAt (response_doc b))%Z) oldest
    /\ StronglySorted
         (fun a b => (Response.createdAt (response_doc b)
                      <= Response.createdAt (response_doc a))%Z) newest
    /\ (forall s, s <> "oldest" -> listed (Some s) = (Ok newest, db))
    /\ listed None = (Ok newest, db)
    /\ (forall v, In v newest \/ In v oldest ->
                  Response.isAnonymous (response_doc v) = true ->
                  response_posterName v = Some "Anonymous").
Proof.
  intros Hv Hr ofQuestion listed. subst listed. cbv beta. unfold validId in Hv.
  assert (forall s l,
             Permutation
               (map response_doc
                    (sortDocs (responseCreatedBefore s)
                              (map (addResponsePosterName (students db)) l))) l)
    as Hperm.
  { intros s l. eapply perm_trans; [apply Permutation_map, sortDocs_perm|].
    rewrite map_map. cbn [response_doc addResponsePosterName].
    rewrite map_id. apply Permutation_refl. }
  unfold getResponsesByQuestionId.
  rewrite (asObjectId_valid _ Hv), !onCollection_eq, Hr. cbn [fst snd].
  fold ofQuestion.
  do 2 eexists. split; [reflexivity|]. split; [reflexivity|].
  cbn [responseSortStage String.eqb Ascii.eqb Bool.eqb].
  split; [apply Hperm|]. split; [apply Hperm|].
  split; [apply (responses_sorted Ascending)|].
  split; [apply (responses_sorted Descending)|].
  split; [|split; [reflexivity|]].
  - intros s Ho. rewrite onCollection_eq, Hr. cbn [fst snd].
    unfold responseSortStage. apply String.eqb_neq in Ho. rewrite Ho.
    now destruct (String.eqb s "newest").
  - intros v Hin Hanon.
    assert (In v (map (addResponsePosterName (students db)) ofQuestion)) as Hv'.
    { destruct Hin as [Hin|Hin]; exact (In_sortDocs _ _ _ Hin). }
    apply in_map_iff in Hv'. destruct Hv' as (r & <- & _).
    cbn [response_doc response_posterName addResponsePosterName] in *.
    now rewrite Hanon.
Qed.

Lemma responses_listing_witness :
  exists newest,
    getResponsesByQuestionId Sample.env (JStr Sample.questionId) (Some "latest")
                             Sample.db
    = (Ok newest, Sample.db)
    /\ Permutation (map response_doc newest) [Sample.response].
Proof.
  destruct (responses_listing Sample.env Sample.questionId Sample.db
                              eq_refl eq_refl)
    as (oldest & newest & _ & _ & _ & Hp & _ & _ & Hother & _).
  exists newest. split; [apply Hother; discriminate | exact Hp].
Defined.

(** X10.  The derived [posterName] of the question read paths
    ([getQuestionById] and [getQuestionsByCourseId]): "Anonymous" for an
    anonymous question whatever the students collection holds; the
    stored first and last name of the poster, joined by a space, for
    the others; [null] when the poster is not stored.  The returned
    document is the stored one, so its [posterId] is returned too. *)
Theorem question_poster_name
        (env : Env) (db : Db) (v : QuestionView)
        (questionId courseId : JsValue) (sortOption : option string)
        (listed : list QuestionView) :
  getQuestionById env questionId db = (Ok (Some v), db)
  \/ (getQuestionsByCourseId env courseId sortOption db = (Ok listed, db)
      /\ In v listed) ->
  In (doc v) (questions db)
  /\ posterName v
     = if Question.isAnonymous (doc v) then Some "Anonymous"
       else match findOne Student._id (Question.posterId (doc v)) (students db) with
            | Some s => Some (Student.firstName s ++ " " ++ Student.lastName s)%string
            | None => None
            end.
Proof.
  assert (forall l, In v (map (addPosterName (students db)) l) ->
                    (forall q, In q l -> In q (questions db)) ->
                    In (doc v) (questions db)
                    /\ posterName v
                       = if Question.isAnonymous (doc v) then Some "Anonymous"
                         else match findOne Student._id (Question.posterId (doc v))
                                            (students db) with
                              | Some s => Some (Student.firstName s ++ " "
                                                ++ Student.lastName s)%string
                              | None => None
                              end) as Hview.
  { intros l Hin Hsub. apply in_map_iff in Hin. destruct Hin as (q & <- & Hq).
    split; [now apply Hsub | reflexivity]. }
  intros [Hone|[Hmany Hin]].
  - unfold getQuestionById in Hone.
    destruct (asObjectId questionId) as [i|]; [|discriminate].
    rewrite bind_eq, onCollection_eq in Hone.
    destruct (unreachable env QUESTIONS); [discriminate|]. cbn [fst snd ret] in Hone.
    destruct (map (addPosterName (students db))
                  (filter (fun q => String.eqb (Question._id q) i) (questions db)))
      as [|v0 rest] eqn:E; [discriminate|].
    injection Hone as ->.
    apply (Hview (filter (fun q => String.eqb (Question._id q) i) (questions db))).
    + rewrite E. now left.
    + intros q Hq. now apply filter_In in Hq.
  - unfold getQuestionsByCourseId in Hmany.
    destruct (asObjectId courseId) as [i|]; [|discriminate].
    destruct (questionStages i _) as [m s].
    rewrite onCollection_eq in Hmany.
    destruct (unreachable env QUESTIONS); [discriminate|]. cbn [fst snd] in Hmany.
    injection Hmany as <-.
    apply (Hview (filter (matchesStage m) (questions db))).
    + exact (In_sortDocs _ _ _ Hin).
    + intros q Hq. now apply filter_In in Hq.
Qed.

Lemma question_poster_name_witness :
  exists v,
    getQuestionById Sample.env (JStr Sample.questionId) Sample.db
    = (Ok (Some v), Sample.db)
    /\ posterName v = Some "Alice Ames"
    /\ Question.posterId (doc v) = Sample.aliceId.
Proof.
  eexists. split; [lazy; reflexivity|].
  destruct (question_poster_name Sample.env Sample.db _
              (JStr Sample.questionId) JNull None []
              (or_introl eq_refl)) as [_ Hname].
  split; [exact Hname | reflexivity].
Defined.

(* ===================================================================== *)
(** * Further properties: creating and updating *)
(* ===================================================================== *)

Lemma findOne_appended {D} (idOf : D -> ObjectId) (docs : list D) (d : D) :
  findOne idOf (idOf d) docs = None ->
  findOne idOf (idOf d) (docs ++ [d]) = Some d.
Proof.
  induction docs as [|e rest IH]; simpl.
  - now rewrite String.eqb_refl.
  - destruct (String.eqb (idOf e) (idOf d)); [discriminate | exact IH].
Qed.

(** X11.  A response that [createResponse] stores starts not helpful,
    is stamped with the current time, belongs to the question and the
    poster named in the payload, and holds the payload's content
    trimmed, 1 to 1500 characters long.  It is appended to the
    responses and nothing else changes; when the id the driver gave it
    is well-formed and was not in use, [getResponseById] on that id
    returns it. *)
Theorem created_response
        (env : Env) (data : JsObject) (db db' : Db) (r : Response.t) :
  createResponse env data db = (Ok r, db') ->
  Response.isHelpful r = false
  /\ Response._id r = insertedId env RESPONSES
  /\ Response.createdAt r = now env /\ Response.updatedAt r = now env
  /\ prop "questionId" data = JStr (Response.questionId r)
  /\ prop "posterId" data = JStr (Response.posterId r)
  /\ (exists raw, prop "content" data = JStr raw /\ Response.content r = trim raw)
  /\ textOk 1 1500 (Response.content r)
  /\ validId (Response.questionId r) /\ validId (Response.posterId r)
  /\ db' = withResponses (responses db ++ [r]) db
  /\ (validId (Response._id r) ->
      findOne Response._id (Response._id r) (responses db) = None ->
      getResponseById env (JStr (Response._id r)) db' = (Ok (Some r), db')).
Proof.
  unfold createResponse.
  destruct (asObjectId (prop "questionId" data)) as [qid|] eqn:Eq; [|discriminate].
  destruct (asObjectId (prop "posterId" data)) as [pid|] eqn:Ep; [|discriminate].
  rewrite bind_eq. unfold lift.
  destruct (validateString (prop "content" data) "Content" 1 1500) as [c|] eqn:Ec;
    [|discriminate].
  destruct (match prop "isAnonymous" data with JUndef => JBool false | v => v end)
    as [| |anon| |]; try discriminate.
  rewrite bind_eq, onCollection_eq.
  destruct (unreachable env RESPONSES) eqn:Hr; [discriminate|].
  cbn [fst snd acknowledged negb ret result_insertedId].
  intros [= <- <-].
  cbn [Response.isHelpful Response.createdAt Response.updatedAt Response.questionId
       Response.posterId Response.content Response._id].
  pose proof (asObjectId_some _ _ Eq) as Hq. pose proof (asObjectId_some _ _ Ep) as Hp.
  destruct (validateString_inv _ _ _ _ _ Ec) as (raw & Hraw & -> & Hlen).
  repeat (split; [first [reflexivity | assumption]|]).
  split; [exists raw; split; [exact Hraw | reflexivity]|].
  split; [now apply textOk_validated|].
  split; [unfold validId, isValidObjectId; now rewrite <- Hq, Eq|].
  split; [unfold validId, isValidObjectId; now rewrite <- Hp, Ep|].
  split; [reflexivity|].
  intros Hv Hfresh. rewrite (getResponseById_eq _ _ _ Hv), Hr.
  cbn [responses withResponses]. f_equal. f_equal.
  match goal with
  | |- findOne _ _ (_ ++ [?d]) = _ =>
      exact (findOne_appended Response._id (responses db) d Hfresh)
  end.
Qed.

Lemma created_response_witness :
  exists r db',
    createResponse Sample.env
      [ ("questionId", JStr Sample.questionId); ("posterId", JStr Sample.carolId);
        ("content", JStr "  Use induction.  "); ("isHelpful", JBool true) ]
      Sample.db = (Ok r, db')
    /\ Response.isHelpful r = false
    /\ Response.content r = "Use induction."
    /\ getResponseById Sample.env (JStr (Response._id r)) db' = (Ok (Some r), db').
Proof.
  eexists. eexists. split; [lazy; reflexivity|].
  destruct (created_response Sample.env
              [ ("questionId", JStr Sample.questionId);
                ("posterId", JStr Sample.carolId);
                ("content", JStr "  Use induction.  "); ("isHelpful", JBool true) ]
              Sample.db _ _ eq_refl)
    as (Hh & _ & _ & _ & _ & _ & _ & _ & _ & _ & _ & Hget).
  split; [exact Hh|]. split; [reflexivity|].
  exact (Hget eq_refl eq_refl).
Defined.

(** X12.  A question that [createQuestion] stores starts open
    ([isResolved = false]), is stamped with the current time, belongs to
    the course and the poster named in the payload, and holds the
    payload's title and content trimmed, within 1-200 and 1-2000
    characters.  It is appended to the questions and nothing else
    changes; when the id the driver gave it is well-formed and was not
    in use, [getQuestionById] on that id returns it. *)
Theorem created_question
        (env : Env) (data : JsObject) (db db' : Db) (q : Question.t) :
  createQuestion env data db = (Ok q, db') ->
  Question.isResolved q = false
  /\ Question._id q = insertedId env QUESTIONS
  /\ Question.createdAt q = now env /\ Question.updatedAt q = now env
  /\ prop "courseId" data = JStr (Question.courseId q)
  /\ prop "posterId" data = JStr (Question.posterId q)
  /\ (exists raw, prop "title" data = JStr raw /\ Question.title q = trim raw)
  /\ (exists raw, prop "content" data = JStr raw /\ Question.content q = trim raw)
  /\ textOk 1 200 (Question.title q) /\ textOk 1 2000 (Question.content q)
  /\ validId (Question.courseId q) /\ validId (Question.posterId q)
  /\ db' = withQuestions (questions db ++ [q]) db
  /\ (validId (Question._id q) ->
      findOne Question._id (Question._id q) (questions db) = None ->
      exists v, getQuestionById env (JStr (Question._id q)) db' = (Ok (Some v), db')
                /\ doc v = q).
Proof.
  unfold createQuestion.
  destruct (asObjectId (prop "courseId" data)) as [cid|] eqn:Eq; [|discriminate].
  destruct (asObjectId (prop "posterId" data)) as [pid|] eqn:Ep; [|discriminate].
  rewrite bind_eq. unfold lift.
  destruct (validateString (prop "title" data) "Title" 1 200) as [t|] eqn:Et;
    [|discriminate].
  rewrite bind_eq.
  destruct (validateString (prop "content" data) "Content" 1 2000) as [c|] eqn:Ec;
    [|discriminate].
  destruct (match prop "isAnonymous" data with JUndef => JBool false | v => v end)
    as [| |anon| |]; try discriminate.
  rewrite bind_eq, onCollection_eq.
  destruct (unreachable env QUESTIONS) eqn:Hr; [discriminate|].
  cbn [fst snd acknowledged negb ret result_insertedId].
  intros [= <- <-].
  cbn [Question.isResolved Question.createdAt Question.updatedAt Question.courseId
       Question.posterId Question.content Question.title Question._id].
  pose proof (asObjectId_some _ _ Eq) as Hq. pose proof (asObjectId_some _ _ Ep) as Hp.
  destruct (validateString_inv _ _ _ _ _ Et) as (rawt & Hrawt & -> & Hlent).
  destruct (validateString_inv _ _ _ _ _ Ec) as (rawc & Hrawc & -> & Hlenc).
  repeat (split; [first [reflexivity | assumption]|]).
  split; [exists rawt; split; [exact Hrawt | reflexivity]|].
  split; [exists rawc; split; [exact Hrawc | reflexivity]|].
  split; [now apply textOk_validated|]. split; [now apply textOk_validated|].
  split; [unfold validId, isValidObjectId; now rewrite <- Hq, Eq|].
  split; [unfold validId, isValidObjectId; now rewrite <- Hp, Ep|].
  split; [reflexivity|].
  intros Hv Hfresh. rewrite (getQuestionById_eq _ _ _ Hv), Hr.
  cbn [questions withQuestions].
  match goal with
  | |- context [findOne Question._id ?i (questions db ++ [?q])] =>
      replace (findOne Question._id i (questions db ++ [q])) with (Some q)
        by (symmetry; exact (findOne_appended Question._id (questions db) q Hfresh))
  end.
  eexists. split; reflexivity.
Qed.

Lemma created_question_witness :
  exists q db',
    createQuestion Sample.env
      [ ("courseId", JStr Sample.courseId); ("posterId", JStr Sample.bobId);
        ("title", JStr " Why does simpl loop? "); ("content", JStr "See title.");
        ("isResolved", JBool true) ]
      Sample.db = (Ok q, db')
    /\ Question.isResolved q = false
    /\ Question.title q = "Why does simpl loop?"
    /\ exists v, getQuestionById Sample.env (JStr (Question._id q)) db'
                 = (Ok (Some v), db') /\ doc v = q.
Proof.
  eexists. eexists. split; [lazy; reflexivity|].
  destruct (created_question Sample.env
              [ ("courseId", JStr Sample.courseId); ("posterId", JStr Sample.bobId);
                ("title", JStr " Why does simpl loop? ");
                ("content", JStr "See title."); ("isResolved", JBool true) ]
              Sample.db _ _ eq_refl)
    as (Hres & _ & _ & _ & _ & _ & _ & _ & _ & _ & _ & _ & _ & Hget).
  split; [exact Hres|]. split; [reflexivity|].
  exact (Hget eq_refl eq_refl).
Defined.

Lemma prop_absent (key : string) (o : JsObject) :
  ~ In key (map fst o) -> prop key o = JUndef.
Proof.
  induction o as [|[k v] rest IH]; simpl; [reflexivity|].
  intros H. destruct (String.eqb_spec k key) as [E|E].
  - exfalso. apply H. now left.
  - apply IH. intros Hin. apply H. now right.
Qed.

(** The fields the loop of [updateResponse] collects from a body with
    distinct keys: for each allowed key, the validated value. *)
Lemma responseUpdateLoop_fields (entries : JsObject) :
  forall f0 f,
    NoDup (map fst entries) ->
    responseUpdateLoop entries f0 = Ok f ->
    set_r_content f = match prop "content" entries with
                      | JStr c => Some (trim c)
                      | _ => set_r_content f0
                      end
    /\ set_isHelpful f = match prop "isHelpful" entries with
                         | JBool b => Some b
                         | _ => set_isHelpful f0
                         end.
Proof.
  induction entries as [|[k v] rest IH]; intros f0 f Hnd Hloop.
  - injection Hloop as <-. split; reflexivity.
  - cbn [map fst] in Hnd. inversion Hnd as [|? ? Hnotin Hrest]; subst.
    cbn [responseUpdateLoop] in Hloop.
    destruct (negb (existsb (String.eqb k) responseAllowedUpdates)); [discriminate|].
    cbn [prop].
    destruct (String.eqb_spec k "content") as [->|Hc].
    + destruct (validateString v "Content" 1 1500) as [s|] eqn:V; [|discriminate].
      destruct (validateString_inv _ _ _ _ _ V) as (raw & -> & -> & _).
      destruct (IH _ _ Hrest Hloop) as [H1 H2].
      rewrite (prop_absent _ _ Hnotin) in H1. cbn [String.eqb Ascii.eqb Bool.eqb].
      split; [exact H1 | exact H2].
    + destruct (String.eqb_spec k "isHelpful") as [->|Hh].
      * destruct v; try discriminate.
        destruct (IH _ _ Hrest Hloop) as [H1 H2].
        rewrite (prop_absent _ _ Hnotin) in H2.
        split; [exact H1 | exact H2].
      * apply (IH _ _ Hrest Hloop).
Qed.

(** X13.  A successful [updateResponse] with a body of distinct keys
    changes the stored response with that id and no other document: it
    sets [content] to the trimmed text when the body has one, sets
    [isHelpful] when the body has one, keeps each of the two otherwise,
    stamps [updatedAt] with the current time, and keeps the id, the
    question, the poster, the anonymity flag and [createdAt].  The
    response returned is the one stored. *)
Theorem updated_response
        (env : Env) (responseId : JsValue) (updates : JsObject)
        (db db' : Db) (r' : Response.t) :
  NoDup (map fst updates) ->
  updateResponse env responseId (Some updates) db = (Ok r', db') ->
  exists i r,
    responseId = JStr i
    /\ findOne Response._id i (responses db) = Some r
    /\ findOne Response._id i (responses db') = Some r'
    /\ Response.content r' = match prop "content" updates with
                             | JStr c => trim c
                             | _ => Response.content r
                             end
    /\ Response.isHelpful r' = match prop "isHelpful" updates with
                               | JBool b => b
                               | _ => Response.isHelpful r
                               end
    /\ Response.updatedAt r' = now env
    /\ responseIdentity r' = responseIdentity r
    /\ (forall j, j <> i -> findOne Response._id j (responses db')
                            = findOne Response._id j (responses db))
    /\ questions db' = questions db /\ notifications db' = notifications db
    /\ students db' = students db.
Proof.
  intros Hnd. unfold updateResponse.
  destruct (asObjectId responseId) as [i|] eqn:Ei; [|discriminate].
  destruct (Nat.eqb (length updates) 0); [discriminate|].
  rewrite bind_eq. unfold lift.
  destruct (responseUpdateLoop updates (mkResponseFields None None)) as [f|] eqn:L;
    [|discriminate].
  rewrite bind_eq, onCollection_eq.
  destruct (unreachable env RESPONSES); [discriminate|]. cbn [fst snd].
  destruct (findOne Response._id i (responses db)) as [r|] eqn:F;
    cbn [option_map]; [|discriminate].
  intros [= <- <-].
  destruct (responseUpdateLoop_fields _ _ _ Hnd L) as [Hc Hh].
  cbn [set_r_content set_isHelpful] in Hc, Hh.
  exists i, r. split; [exact (asObjectId_some _ _ Ei)|]. split; [exact F|].
  cbn [responses withResponses questions notifications students].
  split.
  { rewrite (findOne_updateOne _ _ (setResponse_keeps_id _ _)). now rewrite F. }
  cbn [setResponse Response.content Response.isHelpful Response.updatedAt].
  split; [rewrite Hc; now destruct (prop "content" updates)|].
  split; [rewrite Hh; now destruct (prop "isHelpful" updates)|].
  split; [reflexivity|]. split; [reflexivity|].
  split; [|repeat split].
  intros j Hj. now apply findOne_updateOne_other.
Qed.

Lemma updated_response_witness :
  exists r' db',
    updateResponse Sample.env (JStr Sample.responseId)
                   (Some [("content", JStr " By strong induction. ")]) Sample.db
    = (Ok r', db')
    /\ Response.content r' = "By strong induction."
    /\ Response.isHelpful r' = Response.isHelpful Sample.response
    /\ Response.posterId r' = Sample.bobId.
Proof.
  eexists. eexists. split; [lazy; reflexivity|].
  assert (NoDup (map fst [("content", JStr " By strong induction. ")])) as Hnd.
  { repeat constructor. intros []. }
  destruct (updated_response Sample.env (JStr Sample.responseId)
              [("content", JStr " By strong induction. ")] Sample.db _ _ Hnd eq_refl)
    as (i & r & _ & _ & _ & Hc & _).
  split; [exact Hc|]. split; reflexivity.
Defined.

Lemma questionUpdateLoop_fields (entries : JsObject) :
  forall f0 f,
    NoDup (map fst entries) ->
    questionUpdateLoop entries f0 = Ok f ->
    set_title f = match prop "title" entries with
                  | JStr t => Some (trim t)
                  | _ => set_title f0
                  end
    /\ set_q_content f = match prop "content" entries with
                         | JStr c => Some (trim c)
                         | _ => set_q_content f0
                         end
    /\ set_isResolved f = match prop "isResolved" entries with
                          | JBool b => Some b
                          | _ => set_isResolved f0
                          end.
Proof.
  induction entries as [|[k v] rest IH]; intros f0 f Hnd Hloop.
  - injection Hloop as <-. repeat split.
  - cbn [map fst] in Hnd. inversion Hnd as [|? ? Hnotin Hrest]; subst.
    cbn [questionUpdateLoop] in Hloop.
    destruct (negb (existsb (String.eqb k) questionAllowedUpdates)); [discriminate|].
    cbn [prop].
    destruct (String.eqb_spec k "title") as [->|Ht].
    + destruct (validateString v "Title" 1 200) as [s|] eqn:V; [|discriminate].
      destruct (validateString_inv _ _ _ _ _ V) as (raw & -> & -> & _).
      destruct (IH _ _ Hrest Hloop) as (H1 & H2 & H3).
      rewrite (prop_absent _ _ Hnotin) in H1. cbn [String.eqb Ascii.eqb Bool.eqb].
      repeat split; assumption.
    + destruct (String.eqb_spec k "content") as [->|Hc].
      * destruct (validateString v "Content" 1 2000) as [s|] eqn:V; [|discriminate].
        destruct (validateString_inv _ _ _ _ _ V) as (raw & -> & -> & _).
        destruct (IH _ _ Hrest Hloop) as (H1 & H2 & H3).
        rewrite (prop_absent _ _ Hnotin) in H2. cbn [String.eqb Ascii.eqb Bool.eqb].
        repeat split; assumption.
      * destruct (String.eqb_spec k "isResolved") as [->|Hr].
        -- destruct v; try discriminate.
           destruct (IH _ _ Hrest Hloop) as (H1 & H2 & H3).
           rewrite (prop_absent _ _ Hnotin) in H3.
           repeat split; assumption.
        -- apply (IH _ _ Hrest Hloop).
Qed.

Lemma setQuestion_keeps_id (f : QuestionUpdateFields) (t : Z) (q : Question.t) :
  Question._id (setQuestion f t q) = Question._id q.
Proof. reflexivity. Qed.

(** X14.  A successful [updateQuestion] with a body of distinct keys
    changes the stored question with that id and no other document: it
    sets [title] and [content] to the trimmed texts and [isResolved] to
    the boolean the body has, keeps each of the three when the body has
    none, stamps [updatedAt] with the current time, and keeps the id,
    the course, the poster, the anonymity flag and [createdAt].  Open
    and resolved can each be reached from the other. *)
Theorem updated_question
        (env : Env) (questionId : JsValue) (updates : JsObject)
        (db db' : Db) (q' : Question.t) :
  NoDup (map fst updates) ->
  updateQuestion env questionId (Some updates) db = (Ok q', db') ->
  exists i q,
    questionId = JStr i
    /\ findOne Question._id i (questions db) = Some q
    /\ findOne Question._id i (questions db') = Some q'
    /\ Question.title q' = match prop "title" updates with
                           | JStr t => trim t
                           | _ => Question.title q
                           end
    /\ Question.content q' = match prop "content" updates with
                             | JStr c => trim c
                             | _ => Question.content q
                             end
    /\ Question.isResolved q' = match prop "isResolved" updates with
                                | JBool b => b
                                | _ => Question.isResolved q
                                end
    /\ Question.updatedAt q' = now env
    /\ questionIdentity q' = questionIdentity q
    /\ (forall j, j <> i -> findOne Question._id j (questions db')
                            = findOne Question._id j (questions db))
    /\ responses db' = responses db /\ notifications db' = notifications db
    /\ students db' = students db.
Proof.
  intros Hnd. unfold updateQuestion.
  destruct (asObjectId questionId) as [i|] eqn:Ei; [|discriminate].
  destruct (Nat.eqb (length updates) 0); [discriminate|].
  rewrite bind_eq. unfold lift.
  destruct (questionUpdateLoop updates (mkQuestionFields None None None))
    as [f|] eqn:L; [|discriminate].
  rewrite bind_eq, onCollection_eq.
  destruct (unreachable env QUESTIONS); [discriminate|]. cbn [fst snd].
  destruct (findOne Question._id i (questions db)) as [q|] eqn:F;
    cbn [option_map]; [|discriminate].
  intros [= <- <-].
  destruct (questionUpdateLoop_fields _ _ _ Hnd L) as (Ht & Hc & Hr).
  cbn [set_title set_q_content set_isResolved] in Ht, Hc, Hr.
  exists i, q. split; [exact (asObjectId_some _ _ Ei)|]. split; [exact F|].
  cbn [responses withQuestions questions notifications students].
  split.
  { rewrite (findOne_updateOne _ _ (setQuestion_keeps_id _ _)). now rewrite F. }
  cbn [setQuestion Question.content Question.title Question.isResolved
       Question.updatedAt].
  split; [rewrite Ht; now destruct (prop "title" updates)|].
  split; [rewrite Hc; now destruct (prop "content" updates)|].
  split; [rewrite Hr; now destruct (prop "isResolved" updates)|].
  split; [reflexivity|]. split; [reflexivity|].
  split; [|repeat split].
  intros j Hj. now apply findOne_updateOne_other.
Qed.

Lemma updated_question_witness :
  exists q' db',
    updateQuestion Sample.env (JStr Sample.questionId)
                   (Some [("isResolved", JBool true)]) Sample.db = (Ok q', db')
    /\ Question.isResolved q' = true
    /\ Question.title q' = Question.title Sample.question
    /\ Question.posterId q' = Sample.aliceId.
Proof.
  eexists. eexists. split; [lazy; reflexivity|].
  assert (NoDup (map fst [("isResolved", JBool true)])) as Hnd.
  { repeat constructor. intros []. }
  destruct (updated_question Sample.env (JStr Sample.questionId)
              [("isResolved", JBool true)] Sample.db _ _ Hnd eq_refl)
    as (i & q & _ & _ & _ & _ & _ & Hr & _).
  split; [exact Hr|]. split; reflexivity.
Defined.

(* ===================================================================== *)
(** * Further properties: counting the recent questions *)
(* ===================================================================== *)

Lemma countInGroup_find (c c' : ObjectId) (groups : list (ObjectId * nat)) :
  findOne fst c (countInGroup c' groups)
  = if String.eqb c' c then Some (c', S (groupCountOf c groups))
    else findOne fst c groups.
Proof.
  unfold groupCountOf.
  induction groups as [|[k n] rest IH]; cbn [countInGroup findOne fst].
  - destruct (String.eqb c' c); reflexivity.
  - destruct (String.eqb_spec k c') as [->|Hk]; cbn [findOne fst].
    + destruct (String.eqb c' c); reflexivity.
    + destruct (String.eqb_spec k c) as [->|Hkc].
      * destruct (String.eqb_spec c' c); [congruence | reflexivity].
      * exact IH.
Qed.

Lemma countInGroup_keys (c' : ObjectId) (groups : list (ObjectId * nat)) :
  NoDup (map fst groups) -> NoDup (map fst (countInGroup c' groups)).
Proof.
  induction groups as [|[k n] rest IH]; cbn [countInGroup map fst]; intros Hnd.
  - repeat constructor. intros [].
  - inversion Hnd as [|? ? Hnotin Hrest]; subst.
    destruct (String.eqb_spec k c') as [->|Hk]; cbn [map fst].
    + now constructor.
    + constructor; [|now apply IH].
      intros Hin. apply Hnotin.
      apply in_map_iff in Hin. destruct Hin as ([k' n'] & Hk' & Hin).
      cbn [fst] in Hk'. subst k'.
      assert (findOne fst k (countInGroup c' rest) <> None) as Hsome.
      { intros Hnone. rewrite findOne_absent in Hnone.
        exact (Hnone _ Hin eq_refl). }
      rewrite countInGroup_find in Hsome.
      destruct (String.eqb_spec c' k); [congruence|].
      destruct (findOne fst k rest) as [[k2 n2]|] eqn:F; [|congruence].
      destruct (findOne_found _ _ _ _ F) as [Hin2 Hk2]. cbn [fst] in Hk2. subst k2.
      apply in_map_iff. exists (k, n2). split; [reflexivity | exact Hin2].
Qed.

Lemma groupByCourse_spec (c : ObjectId) (docs : list Question.t) :
  forall groups,
    NoDup (map fst groups) ->
    let result := fold_left (fun g q => countInGroup (Question.courseId q) g)
                            docs groups in
    NoDup (map fst result)
    /\ groupCountOf c result
       = groupCountOf c groups
         + length (filter (fun q => String.eqb (Question.courseId q) c) docs)
    /\ (findOne fst c result = None <-> groupCountOf c result = 0
                                        /\ findOne fst c groups = None).
Proof.
  induction docs as [|q rest IH]; intros groups Hnd; cbn [fold_left filter length].
  - split; [exact Hnd|]. split; [lia|].
    split; [|intros [_ H]; exact H].
    intros H. split; [unfold groupCountOf; now rewrite H | exact H].
  - destruct (IH (countInGroup (Question.courseId q) groups)
                 (countInGroup_keys _ _ Hnd)) as (H1 & H2 & H3).
    split; [exact H1|].
    assert (groupCountOf c (countInGroup (Question.courseId q) groups)
            = groupCountOf c groups
              + (if String.eqb (Question.courseId q) c then 1 else 0)) as Hstep.
    { unfold groupCountOf at 1. rewrite countInGroup_find.
      destruct (String.eqb (Question.courseId q) c); [lia|].
      fold (groupCountOf c groups). lia. }
    split.
    + rewrite H2, Hstep.
      destruct (String.eqb (Question.courseId q) c); cbn [length]; lia.
    + rewrite H3, countInGroup_find, H2, Hstep.
      destruct (String.eqb (Question.courseId q) c).
      * split; [intros [_ H]; discriminate | intros [H _]; lia].
      * split; intros [Ha Hb]; (split; [lia | exact Hb]).
Qed.

Lemma countsMapOf_prop (c : ObjectId) (results : list (ObjectId * nat)) :
  forall countsMap,
    NoDup (map fst results) ->
    prop c (countsMapOf results countsMap)
    = match findOne fst c results with
      | Some (_, n) => JNum (Z.of_nat n)
      | None => prop c countsMap
      end.
Proof.
  induction results as [|[k n] rest IH]; intros countsMap Hnd;
    cbn [countsMapOf findOne fst]; [reflexivity|].
  cbn [map fst] in Hnd. inversion Hnd as [|? ? Hnotin Hrest]; subst.
  rewrite (IH _ Hrest).
  destruct (String.eqb_spec k c) as [->|Hk].
  - assert (findOne fst c rest = None) as ->.
    { apply findOne_absent. intros [k' n'] Hin Hk'. cbn [fst] in Hk'. subst k'.
      apply Hnotin. apply in_map_iff. exists (c, n'). split; [reflexivity | exact Hin]. }
    apply prop_setProp_same.
  - destruct (findOne fst c rest) as [[k2 n2]|]; [reflexivity|].
    apply prop_setProp_other. now apply String.eqb_neq.
Qed.

Lemma filter_filter_length {D} (p q : D -> bool) (l : list D) :
  length (filter p (filter q l)) = length (filter (fun d => p d && q d) l).
Proof.
  induction l as [|d rest IH]; [reflexivity|].
  cbn [filter]. destruct (q d); cbn [filter]; destruct (p d); cbn [andb length];
    now rewrite ?IH.
Qed.

Lemma inIds_spec (c : ObjectId) (courseIds : list JsValue) :
  forallb isValidObjectId courseIds = true ->
  existsb (fun id => match asObjectId id with
                     | Some c' => String.eqb c c'
                     | None => false
                     end) courseIds = true
  <-> In (JStr c) courseIds.
Proof.
  intros Hall. rewrite existsb_exists. split.
  - intros (id & Hin & Hid).
    destruct (asObjectId id) as [c'|] eqn:E; [|discriminate].
    apply String.eqb_eq in Hid. subst c'.
    now rewrite <- (asObjectId_some _ _ E).
  - intros Hin. exists (JStr c). split; [exact Hin|].
    rewrite forallb_forall in Hall.
    rewrite (asObjectId_valid _ (Hall _ Hin)). apply String.eqb_refl.
Qed.

Lemma matched_of_course (c : ObjectId) (courseIds : list JsValue) (since : Z)
      (qs : list Question.t) :
  length (filter (fun q => String.eqb (Question.courseId q) c)
            (filter (fun q =>
                       existsb (fun id => match asObjectId id with
                                          | Some c' => String.eqb (Question.courseId q) c'
                                          | None => false
                                          end) courseIds
                       && Z.leb since (Question.createdAt q)) qs))
  = if existsb (fun id => match asObjectId id with
                          | Some c' => String.eqb c c'
                          | None => false
                          end) courseIds
    then recentCount c since qs else 0.
Proof.
  unfold recentCount.
  set (listed := existsb (fun id => match asObjectId id with
                                    | Some c' => String.eqb c c'
                                    | None => false
                                    end) courseIds).
  induction qs as [|q rest IH]; cbn [filter length].
  - now destruct listed.
  - destruct (String.eqb (Question.courseId q) c) eqn:E.
    + pose proof E as Hq. apply String.eqb_eq in Hq. rewrite Hq. fold listed.
      cbn [andb].
      destruct listed eqn:Ein; cbn [andb].
      * destruct (Z.leb since (Question.createdAt q)); cbn [filter length].
        -- rewrite E. cbn [length]. now rewrite IH.
        -- exact IH.
      * exact IH.
    + cbn [andb].
      destruct (existsb _ courseIds && Z.leb since (Question.createdAt q));
        cbn [filter]; [|exact IH].
      rewrite E. exact IH.
Qed.

(** X15.  For a non-empty array of well-formed course ids,
    [getNewQuestionCountsByCourseIds] returns an object in which each
    listed course that has questions asked within the last 24 hours
    maps to their number; a listed course without any, and a course not
    listed, have no key.  It reads only. *)
Theorem new_question_counts (env : Env) (courseIds : list JsValue) (db : Db) :
  courseIds <> [] ->
  forallb isValidObjectId courseIds = true ->
  unreachable env QUESTIONS = false ->
  exists countsMap,
    getNewQuestionCountsByCourseIds env (Some courseIds) db = (Ok countsMap, db)
    /\ forall c,
        let n := recentCount c (now env - 86400000) (questions db) in
        prop c countsMap
        = if existsb (fun id => match asObjectId id with
                                | Some c' => String.eqb c c'
                                | None => false
                                end) courseIds
             && negb (Nat.eqb n 0)
          then JNum (Z.of_nat n) else JUndef.
Proof.
  intros Hne Hall Hr. unfold getNewQuestionCountsByCourseIds.
  destruct courseIds as [|id0 ids]; [contradiction|].
  cbn [length Nat.eqb]. rewrite Hall. cbn [negb].
  rewrite bind_eq, onCollection_eq, Hr. cbn [fst snd ret].
  eexists. split; [reflexivity|].
  intros c.
  change (24 * 60 * 60 * 1000)%Z with 86400000%Z.
  set (n := recentCount c (now env - 86400000) (questions db)).
  set (listed := existsb (fun id => match asObjectId id with
                                    | Some c' => String.eqb c c'
                                    | None => false
                                    end) (id0 :: ids)).
  set (docs := filter _ (questions db)).
  destruct (groupByCourse_spec c docs [] (NoDup_nil _)) as (Hnd & Hcount & Hnone).
  cbv zeta in Hnd, Hcount, Hnone. fold (groupByCourse docs) in Hnd, Hcount, Hnone.
  rewrite (countsMapOf_prop _ _ _ Hnd). cbn [prop].
  assert (groupCountOf c (groupByCourse docs) = if listed then n else 0) as Hn.
  { rewrite Hcount. unfold groupCountOf at 1. cbn [findOne plus].
    apply matched_of_course. }
  assert (findOne fst c (groupByCourse docs) = None
          \/ exists k, findOne fst c (groupByCourse docs) = Some (k, if listed then n else 0)
                       /\ (if listed then n else 0) <> 0) as Hcases.
  { destruct (findOne fst c (groupByCourse docs)) as [[k m]|] eqn:F; [|now left].
    right. exists k. unfold groupCountOf in Hn. rewrite F in Hn. subst m.
    split; [reflexivity|]. intros Hz.
    assert (Some (k, if listed then n else 0) = None) as Habs; [|discriminate].
    apply Hnone. split; [|reflexivity].
    unfold groupCountOf. now rewrite F. }
  destruct Hcases as [F|(k & F & Hpos)]; rewrite F.
  - unfold groupCountOf in Hn. rewrite F in Hn.
    destruct listed; cbn [andb]; [|reflexivity].
    rewrite <- Hn. reflexivity.
  - destruct listed; cbn [andb]; [|contradiction].
    destruct (Nat.eqb_spec n 0); [contradiction | reflexivity].
Qed.

(** Of the three questions of the course asked at 10, 20 and 30, two
    are within 24 hours of the time 86400020; the other course has one. *)
Lemma new_question_counts_witness :
  let env := mkEnv 86400020 Sample.freshId (fun _ => false) in
  exists countsMap,
    getNewQuestionCountsByCourseIds env
      (Some [JStr Sample.courseId; JStr Sample.aliceId]) threeQuestions
    = (Ok countsMap, threeQuestions)
    /\ prop Sample.courseId countsMap = JNum 2
    /\ prop Sample.aliceId countsMap = JUndef
    /\ prop "65c000000000000000000009" countsMap = JUndef.
Proof.
  cbv zeta.
  assert ([JStr Sample.courseId; JStr Sample.aliceId] <> []) as Hne.
  { discriminate. }
  destruct (new_question_counts (mkEnv 86400020 Sample.freshId (fun _ => false))
              [JStr Sample.courseId; JStr Sample.aliceId] threeQuestions
              Hne eq_refl eq_refl) as (countsMap & Hrun & Hprop).
  exists countsMap. split; [exact Hrun|].
  split; [exact (Hprop Sample.courseId)|].
  split; [exact (Hprop Sample.aliceId) | exact (Hprop "65c000000000000000000009")].
Defined.

(* ===================================================================== *)
(** * Further properties: malformed ids *)
(* ===================================================================== *)

(** X16.  Every data function that takes an id fails fast on a
    malformed one: it throws its "Invalid ... ID" error without reaching
    the storage (so even when no collection can be reached) and leaves
    the database as it was.  [getNewQuestionCountsByCourseIds] does so
    when any id of its array is malformed, and answers the empty object,
    again without reaching the storage, for an empty array or for an
    argument that is not an array. *)
Theorem malformed_id_fails_fast
        (env : Env) (db : Db) (bad : JsValue) (payload : JsObject)
        (updates : option JsObject) (sortOption : option string)
        (unreadOnly : option bool) (before after : list JsValue) :
  isValidObjectId bad = false ->
  getResponseById env bad db = (Throw (InvalidId "response"), db)
  /\ getResponsesByQuestionId env bad sortOption db = (Throw (InvalidId "question"), db)
  /\ updateResponse env bad updates db = (Throw (InvalidId "response"), db)
  /\ deleteResponse env bad db = (Throw (InvalidId "response"), db)
  /\ deleteResponsesByQuestionId env bad db = (Throw (InvalidId "question"), db)
  /\ getQuestionById env bad db = (Throw (InvalidId "question"), db)
  /\ getQuestionsByCourseId env bad sortOption db = (Throw (InvalidId "course"), db)
  /\ updateQuestion env bad updates db = (Throw (InvalidId "question"), db)
  /\ deleteQuestion env bad db = (Throw (InvalidId "question"), db)
  /\ getNotificationById env bad db = (Throw (InvalidId "notification"), db)
  /\ getNotificationsByStudentId env bad unreadOnly db
     = (Throw (InvalidId "student"), db)
  /\ markNotificationAsRead env bad db = (Throw (InvalidId "notification"), db)
  /\ markAllNotificationsAsRead env bad db = (Throw (InvalidId "student"), db)
  /\ getUnreadNotificationCount env bad db = (Throw (InvalidId "student"), db)
  /\ deleteNotification env bad db = (Throw (InvalidId "notification"), db)
  /\ deleteNotificationsByQuestionId env bad db = (Throw (InvalidId "question"), db)
  /\ createResponse env (setProp "questionId" bad payload) db
     = (Throw (InvalidId "question"), db)
  /\ createQuestion env (setProp "courseId" bad payload) db
     = (Throw (InvalidId "course"), db)
  /\ createNotification env (setProp "recipientId" bad payload) db
     = (Throw (InvalidId "recipient"), db)
  /\ getNewQuestionCountsByCourseIds env (Some (before ++ bad :: after)) db
     = (Throw (InvalidId "course"), db)
  /\ getNewQuestionCountsByCourseIds env (Some []) db = (Ok [], db)
  /\ getNewQuestionCountsByCourseIds env None db = (Ok [], db).
Proof.
  intros Hbad.
  assert (asObjectId bad = None) as Hnone.
  { unfold isValidObjectId in Hbad. now destruct (asObjectId bad). }
  unfold getResponseById, getResponsesByQuestionId, updateResponse, deleteResponse,
    deleteResponsesByQuestionId, getQuestionById, getQuestionsByCourseId,
    updateQuestion, deleteQuestion, getNotificationById,
    getNotificationsByStudentId, markNotificationAsRead,
    markAllNotificationsAsRead, getUnreadNotificationCount, deleteNotification,
    deleteNotificationsByQuestionId, createResponse, createQuestion,
    createNotification, getNewQuestionCountsByCourseIds.
  rewrite !prop_setProp_same, !Hnone.
  repeat (split; [reflexivity|]).
  split; [|split; reflexivity].
  assert (forallb isValidObjectId (before ++ bad :: after) = false) as ->.
  { rewrite forallb_app. cbn [forallb]. rewrite Hbad.
    now rewrite andb_false_r. }
  destruct (before ++ bad :: after) eqn:E; [|reflexivity].
  now destruct before.
Qed.

Lemma malformed_id_fails_fast_witness :
  let down := mkEnv 0 Sample.freshId (fun _ => true) in
  deleteQuestion down (JStr "65D000000000000000000001") Sample.db
  = (Throw (InvalidId "question"), Sample.db)
  /\ markNotificationAsRead down (JNum 7) Sample.db
     = (Throw (InvalidId "notification"), Sample.db).
Proof.
  cbv zeta. split.
  - exact (proj1 (proj2 (proj2 (proj2 (proj2 (proj2 (proj2 (proj2 (proj2
             (malformed_id_fails_fast (mkEnv 0 Sample.freshId (fun _ => true))
                Sample.db (JStr "65D000000000000000000001") [] None None None
                [] [] eq_refl)))))))))).
  - exact (proj1 (proj2 (proj2 (proj2 (proj2 (proj2 (proj2 (proj2 (proj2
             (proj2 (proj2 (proj2
             (malformed_id_fails_fast (mkEnv 0 Sample.freshId (fun _ => true))
                Sample.db (JNum 7) [] None None None
                [] [] eq_refl))))))))))))).
Defined.

(* ===================================================================== *)
(** * Further properties: what the routes keep *)
(* ===================================================================== *)

Section Preservation.
Variable P : Db -> Prop.

Lemma preserves_ret {A} (a : A) : preserves P (ret a).
Proof. intros db H. exact H. Qed.

Lemma preserves_throw {A} (e : Error) : preserves P (@throw A e).
Proof. intros db H. exact H. Qed.

Lemma preserves_lift {A} (r : Result A) : preserves P (lift r).
Proof. intros db H. exact H. Qed.

Lemma preserves_bind {A B} (m : M A) (k : A -> M B) :
  preserves P m -> (forall a, preserves P (k a)) -> preserves P (bind m k).
Proof.
  intros Hm Hk db H. rewrite bind_eq. specialize (Hm db H).
  destruct (m db) as [[a|e] db1]; cbn [snd] in *; [now apply Hk | exact Hm].
Qed.

Lemma preserves_tryCatch {A} (m : M A) (h : Error -> M A) :
  preserves P m -> (forall e, preserves P (h e)) -> preserves P (tryCatch m h).
Proof.
  intros Hm Hh db H. unfold tryCatch. specialize (Hm db H).
  destruct (m db) as [[a|e] db1]; cbn [snd] in *; [exact Hm | now apply Hh].
Qed.

Lemma preserves_reading {A} (m : M A) :
  (forall db, snd (m db) = db) -> preserves P m.
Proof. intros Hm db H. now rewrite Hm. Qed.

Lemma preserves_route (paramMsg : option string) (chains : list Chain)
      (handler : SessionStudent -> string -> JsObject -> M Outcome) :
  (forall student p b, preserves P (handler student p b)) ->
  forall req db, P db -> P (snd (route paramMsg chains handler req db)).
Proof.
  intros Hh req db H. unfold route.
  destruct (session req) as [student|]; [|exact H].
  destruct (runChains chains (body req)) as [b errs].
  destruct (_ ++ errs); [|exact H].
  unfold handle. specialize (Hh student (param req) b db H).
  destruct (handler student (param req) b db) as [[o|e] db1]; exact Hh.
Qed.
End Preservation.

Lemma getResponseById_state (env : Env) (responseId : JsValue) (db : Db) :
  snd (getResponseById env responseId db) = db.
Proof.
  unfold getResponseById. destruct (asObjectId responseId); [|reflexivity].
  rewrite onCollection_eq. destruct (unreachable env RESPONSES); reflexivity.
Qed.

(** *** The state each write of the data layer leaves *)

Lemma responseUpdateLoop_content (entries : JsObject) :
  forall f0 f,
    responseUpdateLoop entries f0 = Ok f ->
    (forall c, set_r_content f0 = Some c -> textOk 1 1500 c) ->
    forall c, set_r_content f = Some c -> textOk 1 1500 c.
Proof.
  induction entries as [|[k v] rest IH]; intros f0 f Hloop H0.
  - now injection Hloop as <-.
  - cbn [responseUpdateLoop] in Hloop.
    destruct (negb (existsb (String.eqb k) responseAllowedUpdates)); [discriminate|].
    destruct (String.eqb k "content").
    + destruct (validateString v "Content" 1 1500) as [s|] eqn:V; [|discriminate].
      apply (IH _ _ Hloop). cbn [set_r_content]. intros c [= <-].
      destruct (validateString_inv _ _ _ _ _ V) as (raw & _ & -> & Hlen).
      now apply textOk_validated.
    + destruct (String.eqb k "isHelpful"); [|now apply (IH _ _ Hloop)].
      destruct v; try discriminate. now apply (IH _ _ Hloop).
Qed.

Lemma questionUpdateLoop_texts (entries : JsObject) :
  forall f0 f,
    questionUpdateLoop entries f0 = Ok f ->
    ((forall t, set_title f0 = Some t -> textOk 1 200 t)
     /\ (forall c, set_q_content f0 = Some c -> textOk 1 2000 c)) ->
    (forall t, set_title f = Some t -> textOk 1 200 t)
    /\ (forall c, set_q_content f = Some c -> textOk 1 2000 c).
Proof.
  induction entries as [|[k v] rest IH]; intros f0 f Hloop H0.
  - now injection Hloop as <-.
  - cbn [questionUpdateLoop] in Hloop. destruct H0 as [Ht0 Hc0].
    destruct (negb (existsb (String.eqb k) questionAllowedUpdates)); [discriminate|].
    destruct (String.eqb k "title").
    + destruct (validateString v "Title" 1 200) as [s|] eqn:V; [|discriminate].
      apply (IH _ _ Hloop). cbn [set_title set_q_content]. split; [|exact Hc0].
      intros t [= <-].
      destruct (validateString_inv _ _ _ _ _ V) as (raw & _ & -> & Hlen).
      now apply textOk_validated.
    + destruct (String.eqb k "content").
      * destruct (validateString v "Content" 1 2000) as [s|] eqn:V; [|discriminate].
        apply (IH _ _ Hloop). cbn [set_title set_q_content]. split; [exact Ht0|].
        intros c [= <-].
        destruct (validateString_inv _ _ _ _ _ V) as (raw & _ & -> & Hlen).
        now apply textOk_validated.
      * destruct (String.eqb k "isResolved"); [|now apply (IH _ _ Hloop)].
        destruct v; try discriminate. now apply (IH _ _ Hloop).
Qed.

Lemma updateResponse_state (env : Env) (responseId : JsValue)
      (updates : option JsObject) (db : Db) :
  snd (updateResponse env responseId updates db) = db
  \/ exists i f,
      snd (updateResponse env responseId updates db)
      = withResponses
          (updateOne Response._id i (setResponse f (now env)) (responses db)) db
      /\ forall c, set_r_content f = Some c -> textOk 1 1500 c.
Proof.
  unfold updateResponse.
  destruct (asObjectId responseId) as [i|]; [|now left].
  destruct updates as [updates|]; [|now left].
  destruct (Nat.eqb (length updates) 0); [now left|].
  rewrite bind_eq. unfold lift.
  destruct (responseUpdateLoop updates (mkResponseFields None None)) as [f|] eqn:L;
    [|now left].
  rewrite bind_eq, onCollection_eq.
  destruct (unreachable env RESPONSES); [now left|]. cbn [fst snd].
  right. exists i, f. split.
  - destruct (option_map _ _); reflexivity.
  - apply (responseUpdateLoop_content _ _ _ L). discriminate.
Qed.

Lemma updateQuestion_state (env : Env) (questionId : JsValue)
      (updates : option JsObject) (db : Db) :
  snd (updateQuestion env questionId updates db) = db
  \/ exists i f,
      snd (updateQuestion env questionId updates db)
      = withQuestions
          (updateOne Question._id i (setQuestion f (now env)) (questions db)) db
      /\ (forall t, set_title f = Some t -> textOk 1 200 t)
      /\ (forall c, set_q_content f = Some c -> textOk 1 2000 c).
Proof.
  unfold updateQuestion.
  destruct (asObjectId questionId) as [i|]; [|now left].
  destruct updates as [updates|]; [|now left].
  destruct (Nat.eqb (length updates) 0); [now left|].
  rewrite bind_eq. unfold lift.
  destruct (questionUpdateLoop updates (mkQuestionFields None None None))
    as [f|] eqn:L; [|now left].
  rewrite bind_eq, onCollection_eq.
  destruct (unreachable env QUESTIONS); [now left|]. cbn [fst snd].
  right. exists i, f. split.
  - destruct (option_map _ _); reflexivity.
  - apply (questionUpdateLoop_texts _ _ _ L). split; discriminate.
Qed.

Lemma markNotificationAsRead_state (env : Env) (notificationId : JsValue) (db : Db) :
  snd (markNotificationAsRead env notificationId db) = db
  \/ exists i,
      snd (markNotificationAsRead env notificationId db)
      = withNotifications
          (updateOne Notification._id i setRead (notifications db)) db.
Proof.
  unfold markNotificationAsRead.
  destruct (asObjectId notificationId) as [i|]; [|now left].
  rewrite bind_eq, onCollection_eq.
  destruct (unreachable env NOTIFICATIONS); [now left|]. cbn [fst snd].
  right. exists i. destruct (option_map _ _); reflexivity.
Qed.

Lemma markAllNotificationsAsRead_state (env : Env) (studentId : JsValue) (db : Db) :
  snd (markAllNotificationsAsRead env studentId db) = db
  \/ exists i,
      snd (markAllNotificationsAsRead env studentId db)
      = withNotifications
          (map (fun n => if forStudent i true n then setRead n else n)
               (notifications db)) db.
Proof.
  unfold markAllNotificationsAsRead.
  destruct (asObjectId studentId) as [i|]; [|now left].
  rewrite onCollection_eq.
  destruct (unreachable env NOTIFICATIONS); [now left|]. cbn [fst snd].
  right. now exists i.
Qed.

Lemma createNotification_state (env : Env) (data : JsObject) (db : Db) :
  snd (createNotification env data db) = db
  \/ exists n,
      snd (createNotification env data db)
      = withNotifications (notifications db ++ [n]) db
      /\ (validId (insertedId env NOTIFICATIONS) -> notificationOk n).
Proof.
  unfold createNotification.
  destruct (asObjectId (prop "recipientId" data)) as [rid|] eqn:Er; [|now left].
  destruct (asObjectId (prop "questionId" data)) as [qid|] eqn:Eq; [|now left].
  destruct (asObjectId (prop "senderId" data)) as [sid|] eqn:Es; [|now left].
  rewrite bind_eq. unfold lift.
  destruct (validateString (prop "type" data) "Type" 1 1000) as [ty|] eqn:Vt;
    [|now left].
  rewrite bind_eq.
  destruct (validateString (prop "message" data) "Message" 1 1000) as [msg|] eqn:Vm;
    [|now left].
  rewrite bind_eq, onCollection_eq.
  destruct (unreachable env NOTIFICATIONS); [now left|].
  cbn [fst snd acknowledged negb ret result_insertedId].
  right. eexists. split; [reflexivity|].
  intros Hid. unfold notificationOk.
  cbn [Notification._id Notification.recipientId Notification.questionId
       Notification.senderId Notification.type Notification.message].
  destruct (validateString_inv _ _ _ _ _ Vt) as (rawt & _ & -> & Hlt).
  destruct (validateString_inv _ _ _ _ _ Vm) as (rawm & _ & -> & Hlm).
  pose proof (asObjectId_some _ _ Er) as Hr.
  pose proof (asObjectId_some _ _ Eq) as Hq.
  pose proof (asObjectId_some _ _ Es) as Hs.
  unfold validId, isValidObjectId in *.
  rewrite <- Hr, Er, <- Hq, Eq, <- Hs, Es.
  repeat split; try reflexivity; try exact Hid;
    try apply trim_idempotent; lia.
Qed.

Lemma createResponse_throw (env : Env) (data : JsObject) (db db' : Db) (e : Error) :
  createResponse env data db = (Throw e, db') -> db' = db.
Proof.
  unfold createResponse.
  destruct (asObjectId (prop "questionId" data)); [|intros [= _ <-]; reflexivity].
  destruct (asObjectId (prop "posterId" data)); [|intros [= _ <-]; reflexivity].
  rewrite bind_eq. unfold lift.
  destruct (validateString (prop "content" data) "Content" 1 1500);
    [|intros [= _ <-]; reflexivity].
  destruct (match prop "isAnonymous" data with JUndef => JBool false | v => v end);
    try (intros [= _ <-]; reflexivity).
  rewrite bind_eq, onCollection_eq.
  destruct (unreachable env RESPONSES); [intros [= _ <-]; reflexivity|].
  cbn. discriminate.
Qed.

Lemma createQuestion_throw (env : Env) (data : JsObject) (db db' : Db) (e : Error) :
  createQuestion env data db = (Throw e, db') -> db' = db.
Proof.
  unfold createQuestion.
  destruct (asObjectId (prop "courseId" data)); [|intros [= _ <-]; reflexivity].
  destruct (asObjectId (prop "posterId" data)); [|intros [= _ <-]; reflexivity].
  rewrite bind_eq. unfold lift.
  destruct (validateString (prop "title" data) "Title" 1 200);
    [|intros [= _ <-]; reflexivity].
  rewrite bind_eq.
  destruct (validateString (prop "content" data) "Content" 1 2000);
    [|intros [= _ <-]; reflexivity].
  destruct (match prop "isAnonymous" data with JUndef => JBool false | v => v end);
    try (intros [= _ <-]; reflexivity).
  rewrite bind_eq, onCollection_eq.
  destruct (unreachable env QUESTIONS); [intros [= _ <-]; reflexivity|].
  cbn. discriminate.
Qed.

Lemma createResponse_state (env : Env) (data : JsObject) (db : Db) :
  snd (createResponse env data db) = db
  \/ exists r,
      snd (createResponse env data db) = withResponses (responses db ++ [r]) db
      /\ (validId (insertedId env RESPONSES) -> responseOk r).
Proof.
  unfold createResponse.
  destruct (asObjectId (prop "questionId" data)) as [qid|] eqn:Eq; [|now left].
  destruct (asObjectId (prop "posterId" data)) as [pid|] eqn:Ep; [|now left].
  rewrite bind_eq. unfold lift.
  destruct (validateString (prop "content" data) "Content" 1 1500) as [c|] eqn:V;
    [|now left].
  destruct (match prop "isAnonymous" data with JUndef => JBool false | v => v end);
    try now left.
  rewrite bind_eq, onCollection_eq.
  destruct (unreachable env RESPONSES); [now left|].
  cbn [fst snd acknowledged negb ret result_insertedId].
  right. eexists. split; [reflexivity|].
  intros Hid. unfold responseOk.
  cbn [Response._id Response.questionId Response.posterId Response.content].
  destruct (validateString_inv _ _ _ _ _ V) as (raw & _ & -> & Hlen).
  pose proof (asObjectId_some _ _ Eq) as Hq.
  pose proof (asObjectId_some _ _ Ep) as Hp.
  unfold validId, isValidObjectId in *. rewrite <- Hq, Eq, <- Hp, Ep.
  repeat split; try reflexivity; try exact Hid; try apply trim_idempotent; lia.
Qed.

Lemma createQuestion_state (env : Env) (data : JsObject) (db : Db) :
  snd (createQuestion env data db) = db
  \/ exists q,
      snd (createQuestion env data db) = withQuestions (questions db ++ [q]) db
      /\ (validId (insertedId env QUESTIONS) -> questionOk q).
Proof.
  unfold createQuestion.
  destruct (asObjectId (prop "courseId" data)) as [cid|] eqn:Eq; [|now left].
  destruct (asObjectId (prop "posterId" data)) as [pid|] eqn:Ep; [|now left].
  rewrite bind_eq. unfold lift.
  destruct (validateString (prop "title" data) "Title" 1 200) as [t|] eqn:Vt;
    [|now left].
  rewrite bind_eq.
  destruct (validateString (prop "content" data) "Content" 1 2000) as [c|] eqn:Vc;
    [|now left].
  destruct (match prop "isAnonymous" data with JUndef => JBool false | v => v end);
    try now left.
  rewrite bind_eq, onCollection_eq.
  destruct (unreachable env QUESTIONS); [now left|].
  cbn [fst snd acknowledged negb ret result_insertedId].
  right. eexists. split; [reflexivity|].
  intros Hid. unfold questionOk.
  cbn [Question._id Question.courseId Question.posterId Question.content
       Question.title].
  destruct (validateString_inv _ _ _ _ _ Vt) as (rawt & _ & -> & Hlt).
  destruct (validateString_inv _ _ _ _ _ Vc) as (rawc & _ & -> & Hlc).
  pose proof (asObjectId_some _ _ Eq) as Hq.
  pose proof (asObjectId_some _ _ Ep) as Hp.
  unfold validId, isValidObjectId in *. rewrite <- Hq, Eq, <- Hp, Ep.
  repeat split; try reflexivity; try exact Hid; try apply trim_idempotent; lia.
Qed.

Section ForallFacts.
Context {D : Type}.
Variable idOf : D -> ObjectId.
Variable ok : D -> Prop.

Lemma Forall_updateOne (i : ObjectId) (set : D -> D) (docs : list D) :
  (forall d, ok d -> ok (set d)) -> Forall ok docs ->
  Forall ok (updateOne idOf i set docs).
Proof.
  intros Hset. induction 1 as [|d rest Hd Hrest IH]; simpl; [constructor|].
  destruct (String.eqb (idOf d) i); constructor; auto.
Qed.

Lemma Forall_deleteOne (i : ObjectId) (docs : list D) :
  Forall ok docs -> Forall ok (deleteOne idOf i docs).
Proof.
  induction 1 as [|d rest Hd Hrest IH]; simpl; [constructor|].
  destruct (String.eqb (idOf d) i); [exact Hrest | now constructor].
Qed.

Lemma Forall_deleteMany (matches : D -> bool) (docs : list D) :
  Forall ok docs -> Forall ok (deleteMany matches docs).
Proof.
  unfold deleteMany. induction 1 as [|d rest Hd Hrest IH]; simpl; [constructor|].
  destruct (negb (matches d)); [now constructor | exact IH].
Qed.

Lemma Forall_appended (docs : list D) (d : D) :
  Forall ok docs -> ok d -> Forall ok (docs ++ [d]).
Proof. intros H Hd. apply Forall_app. split; [exact H | now constructor]. Qed.
End ForallFacts.

Lemma setResponse_ok (f : ResponseUpdateFields) (t : Z) (r : Response.t) :
  (forall c, set_r_content f = Some c -> textOk 1 1500 c) ->
  responseOk r -> responseOk (setResponse f t r).
Proof.
  intros Hf (H1 & H2 & H3 & H4). unfold responseOk, setResponse.
  cbn [Response._id Response.questionId Response.posterId Response.content].
  repeat split; try assumption;
    destruct (set_r_content f) as [c|]; try apply (Hf c eq_refl); apply H4.
Qed.

Lemma setQuestion_ok (f : QuestionUpdateFields) (t : Z) (q : Question.t) :
  (forall x, set_title f = Some x -> textOk 1 200 x) ->
  (forall c, set_q_content f = Some c -> textOk 1 2000 c) ->
  questionOk q -> questionOk (setQuestion f t q).
Proof.
  intros Ht Hc (H1 & H2 & H3 & H4 & H5). unfold questionOk, setQuestion.
  cbn [Question._id Question.courseId Question.posterId Question.content
       Question.title].
  split; [exact H1|]. split; [exact H2|]. split; [exact H3|]. split.
  - destruct (set_title f) as [x|]; [apply (Ht x eq_refl) | exact H4].
  - destruct (set_q_content f) as [c|]; [apply (Hc c eq_refl) | exact H5].
Qed.

(** *** Well-formedness through the data layer *)

Section WellFormedData.
Variable env : Env.
Hypothesis fresh : freshIdsValid env.

Lemma wf_getResponseById i : preserves wellFormed (getResponseById env i).
Proof. apply preserves_reading, getResponseById_state. Qed.

Lemma wf_getQuestionById i : preserves wellFormed (getQuestionById env i).
Proof. apply preserves_reading, getQuestionById_state. Qed.

Lemma wf_createResponse data : preserves wellFormed (createResponse env data).
Proof.
  intros db (Hq & Hr & Hn).
  destruct (createResponse_state env data db) as [->|(r & -> & Hok)];
    [now repeat split|].
  repeat split; cbn; try assumption.
  apply Forall_appended; [exact Hr | apply Hok, fresh].
Qed.

Lemma wf_createQuestion data : preserves wellFormed (createQuestion env data).
Proof.
  intros db (Hq & Hr & Hn).
  destruct (createQuestion_state env data db) as [->|(q & -> & Hok)];
    [now repeat split|].
  repeat split; cbn; try assumption.
  apply Forall_appended; [exact Hq | apply Hok, fresh].
Qed.

Lemma wf_createNotification data : preserves wellFormed (createNotification env data).
Proof.
  intros db (Hq & Hr & Hn).
  destruct (createNotification_state env data db) as [->|(n & -> & Hok)];
    [now repeat split|].
  repeat split; cbn; try assumption.
  apply Forall_appended; [exact Hn | apply Hok, fresh].
Qed.

Lemma wf_updateResponse i u : preserves wellFormed (updateResponse env i u).
Proof.
  intros db (Hq & Hr & Hn).
  destruct (updateResponse_state env i u db) as [->|(j & f & -> & Hf)];
    [now repeat split|].
  repeat split; cbn; try assumption.
  apply Forall_updateOne; [|exact Hr]. intros r. now apply setResponse_ok.
Qed.

Lemma wf_updateQuestion i u : preserves wellFormed (updateQuestion env i u).
Proof.
  intros db (Hq & Hr & Hn).
  destruct (updateQuestion_state env i u db) as [->|(j & f & -> & Ht & Hc)];
    [now repeat split|].
  repeat split; cbn; try assumption.
  apply Forall_updateOne; [|exact Hq]. intros q. now apply setQuestion_ok.
Qed.

Lemma wf_markNotificationAsRead i :
  preserves wellFormed (markNotificationAsRead env i).
Proof.
  intros db (Hq & Hr & Hn).
  destruct (markNotificationAsRead_state env i db) as [->|(j & ->)];
    [now repeat split|].
  repeat split; cbn; try assumption.
  apply Forall_updateOne; [|exact Hn]. intros n Hok. exact Hok.
Qed.

Lemma wf_markAllNotificationsAsRead i :
  preserves wellFormed (markAllNotificationsAsRead env i).
Proof.
  intros db (Hq & Hr & Hn).
  destruct (markAllNotificationsAsRead_state env i db) as [->|(j & ->)];
    [now repeat split|].
  repeat split; cbn; try assumption.
  apply Forall_forall. intros n Hin. apply in_map_iff in Hin.
  destruct Hin as (m & <- & Hm).
  pose proof (proj1 (Forall_forall _ _) Hn m Hm) as Hok.
  destruct (forStudent j true m); exact Hok.
Qed.

Lemma wf_deleteResponse i : preserves wellFormed (deleteResponse env i).
Proof.
  intros db (Hq & Hr & Hn). unfold deleteResponse.
  destruct (asObjectId i); [|now repeat split].
  rewrite bind_eq, onCollection_eq.
  destruct (unreachable env RESPONSES); [now repeat split|]. cbn [fst snd].
  assert (wellFormed (withResponses (deleteOne Response._id o (responses db)) db)).
  { repeat split; cbn; try assumption. now apply Forall_deleteOne. }
  now destruct (Nat.eqb _ 0).
Qed.

Lemma wf_deleteQuestion i : preserves wellFormed (deleteQuestion env i).
Proof.
  intros db (Hq & Hr & Hn). unfold deleteQuestion.
  destruct (asObjectId i); [|now repeat split].
  rewrite bind_eq, onCollection_eq.
  destruct (unreachable env QUESTIONS); [now repeat split|]. cbn [fst snd].
  assert (wellFormed (withQuestions (deleteOne Question._id o (questions db)) db)).
  { repeat split; cbn; try assumption. now apply Forall_deleteOne. }
  now destruct (Nat.eqb _ 0).
Qed.

Lemma wf_deleteResponsesByQuestionId i :
  preserves wellFormed (deleteResponsesByQuestionId env i).
Proof.
  intros db (Hq & Hr & Hn). unfold deleteResponsesByQuestionId.
  destruct (asObjectId i); [|now repeat split].
  rewrite onCollection_eq.
  destruct (unreachable env RESPONSES); [now repeat split|]. cbn [fst snd].
  repeat split; cbn; try assumption. now apply Forall_deleteMany.
Qed.

Lemma wf_deleteNotificationsByQuestionId i :
  preserves wellFormed (deleteNotificationsByQuestionId env i).
Proof.
  intros db (Hq & Hr & Hn). unfold deleteNotificationsByQuestionId.
  destruct (asObjectId i); [|now repeat split].
  rewrite onCollection_eq.
  destruct (unreachable env NOTIFICATIONS); [now repeat split|]. cbn [fst snd].
  repeat split; cbn; try assumption. now apply Forall_deleteMany.
Qed.
End WellFormedData.

Ltac preserve_step :=
  match goal with
  | |- preserves _ (bind _ _) => apply preserves_bind; [|intros]
  | |- preserves _ (tryCatch _ _) => apply preserves_tryCatch; [|intros]
  | |- preserves _ (ret _) => apply preserves_ret
  | |- preserves _ (throw _) => apply preserves_throw
  | |- preserves _ (match ?x with _ => _ end) => destruct x
  end.

Ltac preserve_with lemmas :=
  cbv zeta; repeat (first [preserve_step | lemmas]).

(** X17.  Every route that writes to the database (the nine POST, PATCH
    and DELETE routes of the responses, questions and notifications
    routers) keeps it well-formed, whatever the request: if all stored
    ids are well-formed and all stored texts are trimmed and within
    their caps in code units (titles 1-200, question contents 1-2000,
    response contents 1-1500, notification types and messages 1-1000),
    the same holds after the request, provided the driver hands out
    well-formed ids.  Hence it holds after any history of requests. *)
Theorem routes_keep_well_formed
        (history : list (Env * Endpoint * Request)) (db : Db) :
  (forall env e req, In (env, e, req) history -> freshIdsValid env) ->
  wellFormed db ->
  wellFormed (serveAll history db).
Proof.
  assert (forall env e req db0,
             freshIdsValid env -> wellFormed db0 ->
             wellFormed (snd (serve env e req db0))) as Hone.
  { intros env e req db0 Hfresh Hwf.
    destruct e; cbn [serve];
      [ unfold postResponse | unfold patchResponse | unfold deleteResponseRoute
      | unfold patchHelpful | unfold postQuestion | unfold patchQuestion
      | unfold deleteQuestionRoute | unfold patchNotificationRead
      | unfold patchNotificationsReadAll ];
      (apply preserves_route; [|exact Hwf]); intros student p b;
      unfold notifyQuestionPoster, notifyResponsePoster;
      preserve_with
        ltac:(first [ apply wf_getResponseById | apply wf_getQuestionById
                    | apply wf_createResponse | apply wf_createQuestion
                    | apply wf_createNotification | apply wf_updateResponse
                    | apply wf_updateQuestion | apply wf_markNotificationAsRead
                    | apply wf_markAllNotificationsAsRead
                    | apply wf_deleteResponse | apply wf_deleteQuestion
                    | apply wf_deleteResponsesByQuestionId
                    | apply wf_deleteNotificationsByQuestionId
                    | exact Hfresh ]). }
  revert db. induction history as [|[[env e] req] rest IH]; intros db Hfresh Hwf.
  - exact Hwf.
  - cbn [serveAll]. apply IH.
    + intros env' e' req' Hin. apply (Hfresh env' e' req'). now right.
    + apply Hone; [|exact Hwf]. apply (Hfresh env e req). now left.
Qed.

Lemma freshIdsValid_sample : freshIdsValid Sample.env.
Proof. intros c. destruct c; reflexivity. Qed.

Lemma wellFormed_sample : wellFormed Sample.db.
Proof.
  unfold wellFormed, questionOk, responseOk, notificationOk, textOk, validId.
  cbn. repeat split; repeat constructor; cbn; try reflexivity; lia.
Qed.

(** Bob answers, Carol marks the answer helpful, Bob blanks his answer
    (refused), Alice reads all her notifications, renames and then
    deletes her question. *)
Lemma routes_keep_well_formed_witness :
  wellFormed
    (serveAll
       [ (Sample.env, PostResponse,
          mkRequest (Some Sample.bob) EmptyString
            [("questionId", JStr Sample.questionId); ("content", JStr " Try lia. ")]);
         (Sample.env, PatchHelpful,
          mkRequest (Some Sample.carol) Sample.responseId [("isHelpful", JBool true)]);
         (Sample.env, PatchResponse,
          mkRequest (Some Sample.bob) Sample.responseId [("content", JStr "   ")]);
         (Sample.env, PatchNotificationsReadAll,
          mkRequest (Some Sample.alice) EmptyString []);
         (Sample.env, PatchQuestion,
          mkRequest (Some Sample.alice) Sample.questionId
            [("title", JStr "  Solved: how do I prove this  ")]);
         (Sample.env, DeleteQuestion,
          mkRequest (Some Sample.alice) Sample.questionId []) ]
       Sample.db).
Proof.
  apply routes_keep_well_formed; [|exact wellFormed_sample].
  intros env e req Hin.
  repeat (destruct Hin as [[= <- _ _]|Hin]; [exact freshIdsValid_sample|]).
  destruct Hin.
Defined.

Lemma map_updateOne_same {D K} (idOf : D -> ObjectId) (key : D -> K)
      (i : ObjectId) (set : D -> D) (docs : list D) :
  (forall d, key (set d) = key d) ->
  map key (updateOne idOf i set docs) = map key docs.
Proof.
  intros Hkey. induction docs as [|d rest IH]; simpl; [reflexivity|].
  destruct (String.eqb (idOf d) i); simpl; [now rewrite Hkey | now rewrite IH].
Qed.

(** *** The entities through the edits *)

Section SameEntitiesData.
Variable env : Env.
Variable db0 : Db.

Let kept (db : Db) : Prop := sameEntities db0 db.
Let keptAll (db : Db) : Prop :=
  sameEntities db0 db /\ notifications db = notifications db0.

Lemma se_updateResponse i u : preserves kept (updateResponse env i u).
Proof.
  intros db (Hs & Hq & Hr).
  destruct (updateResponse_state env i u db) as [->|(j & f & -> & _)];
    [now repeat split|].
  repeat split; cbn; try assumption.
  now rewrite map_updateOne_same by reflexivity.
Qed.

Lemma se_updateQuestion i u : preserves kept (updateQuestion env i u).
Proof.
  intros db (Hs & Hq & Hr).
  destruct (updateQuestion_state env i u db) as [->|(j & f & -> & _)];
    [now repeat split|].
  repeat split; cbn; try assumption.
  now rewrite map_updateOne_same by reflexivity.
Qed.

Lemma se_markNotificationAsRead i : preserves kept (markNotificationAsRead env i).
Proof.
  intros db (Hs & Hq & Hr).
  destruct (markNotificationAsRead_state env i db) as [->|(j & ->)];
    now repeat split.
Qed.

Lemma se_markAllNotificationsAsRead i :
  preserves kept (markAllNotificationsAsRead env i).
Proof.
  intros db (Hs & Hq & Hr).
  destruct (markAllNotificationsAsRead_state env i db) as [->|(j & ->)];
    now repeat split.
Qed.

Lemma se_createNotification data : preserves kept (createNotification env data).
Proof.
  intros db (Hs & Hq & Hr).
  destruct (createNotification_others env data db) as (H1 & H2 & H3).
  cbv zeta in H1, H2, H3. unfold kept, sameEntities. now rewrite H1, H2, H3.
Qed.

Lemma all_updateResponse i u : preserves keptAll (updateResponse env i u).
Proof.
  intros db [Hk Hn]. split; [now apply se_updateResponse|].
  destruct (updateResponse_state env i u db) as [->|(j & f & -> & _)]; exact Hn.
Qed.

Lemma all_updateQuestion i u : preserves keptAll (updateQuestion env i u).
Proof.
  intros db [Hk Hn]. split; [now apply se_updateQuestion|].
  destruct (updateQuestion_state env i u db) as [->|(j & f & -> & _)]; exact Hn.
Qed.
End SameEntitiesData.

(** X18.  The five PATCH routes never create, delete, reorder or re-own
    a question or a response, whatever the request: after the request
    the questions and the responses are the same documents by id, in
    the same order, each with the course or question, the poster, the
    anonymity flag and the creation time it had, and the students are
    untouched.  The two edit routes also leave every notification as it
    was. *)
Theorem patch_routes_keep_entities (env : Env) (req : Request) (db : Db) :
  sameEntities db (snd (patchResponse env req db))
  /\ notifications (snd (patchResponse env req db)) = notifications db
  /\ sameEntities db (snd (patchQuestion env req db))
  /\ notifications (snd (patchQuestion env req db)) = notifications db
  /\ sameEntities db (snd (patchHelpful env req db))
  /\ sameEntities db (snd (patchNotificationRead env req db))
  /\ sameEntities db (snd (patchNotificationsReadAll env req db)).
Proof.
  assert (sameEntities db db) as Hrefl by (now repeat split).
  assert (sameEntities db db /\ notifications db = notifications db) as Hrefl2
      by (now split).
  assert (forall i, preserves (sameEntities db) (getResponseById env i)) as Hr1.
  { intros i. apply preserves_reading, getResponseById_state. }
  assert (forall i, preserves (sameEntities db) (getQuestionById env i)) as Hq1.
  { intros i. apply preserves_reading, getQuestionById_state. }
  assert (forall i, preserves (fun d => sameEntities db d
                                        /\ notifications d = notifications db)
                              (getResponseById env i)) as Hr2.
  { intros i. apply preserves_reading, getResponseById_state. }
  assert (forall i, preserves (fun d => sameEntities db d
                                        /\ notifications d = notifications db)
                              (getQuestionById env i)) as Hq2.
  { intros i. apply preserves_reading, getQuestionById_state. }
  assert (sameEntities db (snd (patchResponse env req db))
          /\ notifications (snd (patchResponse env req db)) = notifications db)
    as [H1 H2].
  { unfold patchResponse.
    apply (preserves_route (fun d => sameEntities db d
                                     /\ notifications d = notifications db));
      [|exact Hrefl2].
    intros student p b.
    preserve_with ltac:(first [ apply Hr2 | apply (all_updateResponse env db) ]). }
  assert (sameEntities db (snd (patchQuestion env req db))
          /\ notifications (snd (patchQuestion env req db)) = notifications db)
    as [H3 H4].
  { unfold patchQuestion.
    apply (preserves_route (fun d => sameEntities db d
                                     /\ notifications d = notifications db));
      [|exact Hrefl2].
    intros student p b.
    preserve_with ltac:(first [ apply Hq2 | apply (all_updateQuestion env db) ]). }
  split; [exact H1|]. split; [exact H2|]. split; [exact H3|]. split; [exact H4|].
  split; [|split].
  - unfold patchHelpful.
    apply (preserves_route (sameEntities db)); [|exact Hrefl].
    intros student p b. unfold notifyResponsePoster.
    preserve_with ltac:(first [ apply Hr1 | apply Hq1
                              | apply (se_updateResponse env db)
                              | apply (se_createNotification env db) ]).
  - unfold patchNotificationRead.
    apply (preserves_route (sameEntities db)); [|exact Hrefl].
    intros student p b.
    preserve_with ltac:(apply (se_markNotificationAsRead env db)).
  - unfold patchNotificationsReadAll.
    apply (preserves_route (sameEntities db)); [|exact Hrefl].
    intros student p b.
    preserve_with ltac:(apply (se_markAllNotificationsAsRead env db)).
Qed.

(* ===================================================================== *)
(** * Further properties: requests the routes turn away *)
(* ===================================================================== *)

(** X19.  None of the nine routes that write runs its handler for a
    request without a session or, on the six with an id in the path,
    with a malformed id: the first is answered 401, the second 400 with
    the validation messages, and in both cases the database is left as
    it was. *)
Theorem turned_away_before_handler
        (env : Env) (e : Endpoint) (req : Request) (db : Db) :
  (session req = None ->
   serve env e req db
   = (Respond 401 (Failure "Authentication required. Please log in."), db))
  /\
  (session req <> None ->
   isValidObjectId (JStr (param req)) = false ->
   e <> PostResponse -> e <> PostQuestion -> e <> PatchNotificationsReadAll ->
   exists message errors,
     serve env e req db = (Respond 400 (ValidationErrors (message :: errors)), db)).
Proof.
  split.
  - intros Hs. destruct e; cbn [serve];
      [ unfold postResponse | unfold patchResponse | unfold deleteResponseRoute
      | unfold patchHelpful | unfold postQuestion | unfold patchQuestion
      | unfold deleteQuestionRoute | unfold patchNotificationRead
      | unfold patchNotificationsReadAll ];
      unfold route; now rewrite Hs.
  - intros Hs Hbad Hpr Hpq Hall.
    destruct (session req) as [student|] eqn:Es; [|contradiction].
    destruct e; try contradiction; cbn [serve];
      [ unfold patchResponse | unfold deleteResponseRoute | unfold patchHelpful
      | unfold patchQuestion | unfold deleteQuestionRoute
      | unfold patchNotificationRead ];
      unfold route, checkObjectId; rewrite Es, Hbad;
      match goal with
      | |- context [runChains ?c ?b] => destruct (runChains c b) as [b' errs]
      end;
      cbn [app]; eexists; eexists; reflexivity.
Qed.

Lemma turned_away_before_handler_witness :
  serve Sample.env DeleteQuestion (mkRequest None Sample.questionId []) Sample.db
  = (Respond 401 (Failure "Authentication required. Please log in."), Sample.db)
  /\ exists message errors,
      serve Sample.env PatchHelpful
            (mkRequest (Some Sample.carol) "not-an-id" [("isHelpful", JBool true)])
            Sample.db
      = (Respond 400 (ValidationErrors (message :: errors)), Sample.db).
Proof.
  split.
  - exact (proj1 (turned_away_before_handler Sample.env DeleteQuestion
                    (mkRequest None Sample.questionId []) Sample.db) eq_refl).
  - apply (proj2 (turned_away_before_handler Sample.env PatchHelpful
                    (mkRequest (Some Sample.carol) "not-an-id"
                               [("isHelpful", JBool true)]) Sample.db));
      discriminate || reflexivity.
Defined.

(** X20.  A request for a response or a question that is not stored is
    answered 404 and changes nothing; this holds for the helpful route
    too, which writes nothing and notifies nobody.  The mark-read route
    has no such answer: for a notification that is not stored it passes
    the store's "Notification not found" error to [next]. *)
Theorem missing_entity (env : Env) (req : Request) (db : Db)
        (student : SessionStudent) :
  session req = Some student ->
  isValidObjectId (JStr (param req)) = true ->
  (unreachable env RESPONSES = false ->
   findOne Response._id (param req) (responses db) = None ->
   deleteResponseRoute env req db = (Respond 404 (Failure "Response not found"), db)
   /\ (snd (runChains patchResponseChains (body req)) = [] ->
       patchResponse env req db = (Respond 404 (Failure "Response not found"), db))
   /\ (snd (runChains patchHelpfulChains (body req)) = [] ->
       patchHelpful env req db = (Respond 404 (Failure "Response not found"), db)))
  /\
  (unreachable env QUESTIONS = false ->
   findOne Question._id (param req) (questions db) = None ->
   deleteQuestionRoute env req db = (Respond 404 (Failure "Question not found"), db)
   /\ (snd (runChains patchQuestionChains (body req)) = [] ->
       patchQuestion env req db = (Respond 404 (Failure "Question not found"), db)))
  /\
  (unreachable env NOTIFICATIONS = false ->
   findOne Notification._id (param req) (notifications db) = None ->
   patchNotificationRead env req db = (Next (NotFound "Notification"), db)).
Proof.
  intros Hs Hv. split; [|split].
  - intros Hr Hf. split; [|split].
    + unfold deleteResponseRoute. rewrite (route_no_chain _ _ _ student _ Hs Hv).
      unfold handle. rewrite bind_eq, (getResponseById_eq _ _ _ Hv), Hr, Hf.
      reflexivity.
    + intros Hc. unfold patchResponse.
      rewrite (route_eq _ _ _ _ student _ Hs Hv), Hc.
      unfold handle. rewrite bind_eq, (getResponseById_eq _ _ _ Hv), Hr, Hf.
      reflexivity.
    + intros Hc. unfold patchHelpful.
      rewrite (route_eq _ _ _ _ student _ Hs Hv), Hc.
      unfold handle. rewrite bind_eq, (getResponseById_eq _ _ _ Hv), Hr, Hf.
      reflexivity.
  - intros Hq Hf. split.
    + unfold deleteQuestionRoute. rewrite (route_no_chain _ _ _ student _ Hs Hv).
      unfold handle. rewrite bind_eq, (getQuestionById_eq _ _ _ Hv), Hq, Hf.
      reflexivity.
    + intros Hc. unfold patchQuestion.
      rewrite (route_eq _ _ _ _ student _ Hs Hv), Hc.
      unfold handle. rewrite bind_eq, (getQuestionById_eq _ _ _ Hv), Hq, Hf.
      reflexivity.
  - intros Hn Hf. unfold patchNotificationRead.
    rewrite (route_no_chain _ _ _ student _ Hs Hv).
    unfold handle, markNotificationAsRead.
    rewrite (asObjectId_valid _ Hv), !bind_eq, onCollection_eq, Hn.
    cbn [fst snd]. rewrite Hf. cbn [option_map].
    rewrite (updateOne_absent _ _ _ _ Hf), withNotifications_same. reflexivity.
Qed.

Lemma missing_entity_witness :
  patchHelpful Sample.env
    (mkRequest (Some Sample.alice) Sample.questionId [("isHelpful", JBool true)])
    Sample.db
  = (Respond 404 (Failure "Response not found"), Sample.db)
  /\ patchNotificationRead Sample.env
       (mkRequest (Some Sample.alice) Sample.questionId [("isHelpful", JBool true)])
       Sample.db
     = (Next (NotFound "Notification"), Sample.db).
Proof.
  destruct (missing_entity Sample.env
              (mkRequest (Some Sample.alice) Sample.questionId
                         [("isHelpful", JBool true)])
              Sample.db Sample.alice eq_refl eq_refl) as (Hr & _ & Hn).
  split.
  - destruct (Hr eq_refl eq_refl) as (_ & _ & Hh). exact (Hh eq_refl).
  - exact (Hn eq_refl eq_refl).
Defined.

(* ===================================================================== *)
(** * Further properties: what the owner can do *)
(* ===================================================================== *)

(** X21.  The poster of a stored response deletes it: the request is
    answered 200, the response is no longer found (ids being unique),
    every other response is found as before, and the questions and the
    notifications are untouched; notifications about the deleted
    response stay. *)
Theorem poster_deletes_response
        (env : Env) (req : Request) (db : Db)
        (student : SessionStudent) (r : Response.t) :
  session req = Some student ->
  isValidObjectId (JStr (param req)) = true ->
  unreachable env RESPONSES = false ->
  findOne Response._id (param req) (responses db) = Some r ->
  Response.posterId r = id student ->
  NoDup (map Response._id (responses db)) ->
  exists db',
    deleteResponseRoute env req db
    = (Respond 200 (Message "Response deleted successfully"), db')
    /\ findOne Response._id (param req) (responses db') = None
    /\ (forall j, j <> param req ->
                  findOne Response._id j (responses db')
                  = findOne Response._id j (responses db))
    /\ questions db' = questions db
    /\ notifications db' = notifications db
    /\ students db' = students db.
Proof.
  intros Hs Hv Hr Hf Hp Hnd.
  unfold deleteResponseRoute. rewrite (route_no_chain _ _ _ student _ Hs Hv).
  unfold handle. rewrite bind_eq, (getResponseById_eq _ _ _ Hv), Hr, Hf.
  rewrite Hp, String.eqb_refl. cbn [negb].
  rewrite bind_eq. unfold deleteResponse.
  rewrite (asObjectId_valid _ Hv), bind_eq, onCollection_eq, Hr. cbn [fst snd].
  rewrite (deleteOne_count _ _ _ _ Hf). cbn [Nat.eqb ret].
  eexists. split; [reflexivity|].
  cbn [responses withResponses questions notifications students].
  split; [now apply findOne_deleteOne|].
  split; [intros j Hj; now apply findOne_deleteOne_other|].
  repeat split.
Qed.

Lemma poster_deletes_response_witness :
  exists db',
    deleteResponseRoute Sample.env
      (mkRequest (Some Sample.bob) Sample.responseId []) Sample.db
    = (Respond 200 (Message "Response deleted successfully"), db')
    /\ responses db' = []
    /\ notifications db' = [Sample.notification].
Proof.
  assert (NoDup (map Response._id (responses Sample.db))) as Hnd.
  { repeat constructor. intros []. }
  destruct (poster_deletes_response Sample.env
              (mkRequest (Some Sample.bob) Sample.responseId [])
              Sample.db Sample.bob Sample.response
              eq_refl eq_refl eq_refl eq_refl eq_refl Hnd)
    as (db' & Hrun & _ & _ & _ & Hn & _).
  exists db'. split; [exact Hrun|]. split; [|exact Hn].
  injection Hrun as <-. reflexivity.
Defined.

(** X22.  A logged-in student posts a well-formed question: the request
    is answered 201 and the question is appended, open, dated now, in
    the course of the body, with the trimmed title and content, and with
    the session's student as poster, whatever else the body holds (a
    [posterId] or an [isResolved] in the body is ignored).  Nothing else
    changes; no enrollment in the course is asked for. *)
Theorem posted_question
        (env : Env) (req : Request) (db : Db) (student : SessionStudent)
        (cid title content : string) (a : option bool) :
  session req = Some student ->
  isValidObjectId (JStr (id student)) = true ->
  unreachable env QUESTIONS = false ->
  prop "courseId" (body req) = JStr cid ->
  isValidObjectId (JStr cid) = true ->
  prop "title" (body req) = JStr title ->
  1 <= String.length (trim title) <= 200 ->
  prop "content" (body req) = JStr content ->
  1 <= String.length (trim content) <= 2000 ->
  prop "isAnonymous" (body req) = anonymousField a ->
  let q := Question.mk (insertedId env QUESTIONS) cid (id student)
             (trim title) (trim content) (anonymousFlag a) false
             (now env) (now env) in
  postQuestion env req db
  = (Respond 201 (QuestionBody q), withQuestions (questions db ++ [q]) db).
Proof.
  intros Hs Hvu Hr Hc Hvc Ht Hlt Hb Hlb Ha q.
  set (body1 := setProp "title" (JStr (trim title)) (body req)).
  set (body2 := setProp "content" (JStr (trim content)) body1).
  assert (prop "content" body1 = JStr content) as Hb1.
  { subst body1. now rewrite prop_setProp_other by reflexivity. }
  assert (prop "isAnonymous" body2 = anonymousField a) as Ha2.
  { subst body2 body1. now rewrite !prop_setProp_other by reflexivity. }
  assert (isAnonymousOf body2 = JBool (anonymousFlag a)) as Hanon.
  { unfold isAnonymousOf. rewrite Ha2. now destruct a. }
  assert (runChains postQuestionChains (body req) = (body2, [])) as Hchains.
  { unfold postQuestionChains.
    rewrite (runChains_cons _ _ _ (body req) []).
    2:{ unfold bodyObjectId, checkObjectId. now rewrite Hc, Hvc. }
    rewrite (runChains_cons _ _ _ body1 []).
    2:{ unfold bodyTrimNotEmptyMax. rewrite Ht. cbn [toStr]. fold body1.
        destruct (Nat.eqb_spec (String.length (trim title)) 0) as [E|_]; [lia|].
        destruct (Nat.leb_spec (String.length (trim title)) 200) as [_|E]; [|lia].
        reflexivity. }
    rewrite (runChains_cons _ _ _ body2 []).
    2:{ unfold bodyTrimNotEmptyMax. rewrite Hb1. cbn [toStr]. fold body2.
        destruct (Nat.eqb_spec (String.length (trim content)) 0) as [E|_]; [lia|].
        destruct (Nat.leb_spec (String.length (trim content)) 2000) as [_|E]; [|lia].
        reflexivity. }
    rewrite (runChains_cons _ _ _ body2 []).
    2:{ unfold bodyOptionalBoolean. rewrite Ha2. now destruct a as [[|]|]. }
    reflexivity. }
  unfold postQuestion.
  rewrite (route_none_eq _ _ _ student _ Hs), Hchains. cbn [fst snd].
  unfold handle. rewrite bind_eq.
  unfold createQuestion, newQuestionPayload.
  cbn [prop String.eqb Ascii.eqb Bool.eqb].
  assert (prop "courseId" body2 = JStr cid) as Hc2.
  { subst body2 body1. now rewrite !prop_setProp_other by reflexivity. }
  assert (prop "title" body2 = JStr (trim title)) as Ht2.
  { subst body2 body1. rewrite prop_setProp_other by reflexivity.
    apply prop_setProp_same. }
  assert (prop "content" body2 = JStr (trim content)) as Hb2.
  { subst body2. apply prop_setProp_same. }
  rewrite Hc2, Ht2, Hb2, Hanon.
  rewrite (asObjectId_valid _ Hvc), (asObjectId_valid _ Hvu).
  rewrite bind_eq. unfold lift.
  rewrite validateString_ok by (rewrite trim_idempotent; exact Hlt).
  rewrite bind_eq.
  rewrite validateString_ok by (rewrite trim_idempotent; exact Hlb).
  rewrite !trim_idempotent.
  rewrite bind_eq, onCollection_eq, Hr. reflexivity.
Qed.

Lemma posted_question_witness :
  exists q,
    postQuestion Sample.env
      (mkRequest (Some Sample.carol) EmptyString
         [ ("courseId", JStr Sample.courseId); ("title", JStr " What is Qed? ");
           ("content", JStr "And Defined?"); ("posterId", JStr Sample.aliceId);
           ("isResolved", JBool true) ])
      Sample.db
    = (Respond 201 (QuestionBody q),
       withQuestions (questions Sample.db ++ [q]) Sample.db)
    /\ Question.posterId q = Sample.carolId
    /\ Question.isResolved q = false.
Proof.
  assert (1 <= String.length (trim " What is Qed? ") <= 200) as Ht.
  { simpl. lia. }
  assert (1 <= String.length (trim "And Defined?") <= 2000) as Hc.
  { simpl. lia. }
  eexists. split.
  - exact (posted_question Sample.env
             (mkRequest (Some Sample.carol) EmptyString
                [ ("courseId", JStr Sample.courseId); ("title", JStr " What is Qed? ");
                  ("content", JStr "And Defined?"); ("posterId", JStr Sample.aliceId);
                  ("isResolved", JBool true) ])
             Sample.db Sample.carol Sample.courseId " What is Qed? " "And Defined?"
             None eq_refl eq_refl eq_refl eq_refl eq_refl eq_refl Ht eq_refl Hc
             eq_refl).
  - split; reflexivity.
Defined.

(** X23.  The poster of a stored question resolves it or reopens it:
    with the body [{ isResolved: b }] the request is answered 200 and
    the stored question has [isResolved = b], whichever state it was in,
    with its title, content and poster as before and [updatedAt] set to
    now.  Responses and notifications are untouched: resolving notifies
    nobody. *)
Theorem poster_resolves_question
        (env : Env) (req : Request) (db : Db)
        (student : SessionStudent) (q : Question.t) (b : bool) :
  session req = Some student ->
  isValidObjectId (JStr (param req)) = true ->
  unreachable env QUESTIONS = false ->
  findOne Question._id (param req) (questions db) = Some q ->
  Question.posterId q = id student ->
  body req = [("isResolved", JBool b)] ->
  exists q' db',
    patchQuestion env req db = (Respond 200 (QuestionBody q'), db')
    /\ findOne Question._id (param req) (questions db') = Some q'
    /\ q' = Question.mk (Question._id q) (Question.courseId q) (Question.posterId q)
              (Question.title q) (Question.content q) (Question.isAnonymous q)
              b (Question.createdAt q) (now env)
    /\ responses db' = responses db
    /\ notifications db' = notifications db.
Proof.
  intros Hs Hv Hr Hf Hp Hb.
  unfold patchQuestion. rewrite (route_eq _ _ _ _ student _ Hs Hv), Hb.
  cbn [runChains patchQuestionChains bodyOptionalTrimLength bodyOptionalBoolean
       prop String.eqb Ascii.eqb Bool.eqb fst snd app].
  rewrite isBoolean_bool. cbn [app snd fst].
  unfold handle. rewrite bind_eq, (getQuestionById_eq _ _ _ Hv), Hr, Hf.
  cbn [option_map doc addPosterName]. rewrite Hp, String.eqb_refl. cbn [negb].
  rewrite bind_eq. unfold updateQuestion.
  rewrite (asObjectId_valid _ Hv).
  cbn [length Nat.eqb questionUpdateLoop questionAllowedUpdates existsb
       String.eqb Ascii.eqb Bool.eqb negb orb lift set_title set_q_content].
  unfold bind, lift. rewrite onCollection_eq, Hr. cbn [fst snd].
  rewrite Hf. cbn [option_map ret].
  do 2 eexists. split; [reflexivity|].
  cbn [questions withQuestions responses notifications].
  split.
  { rewrite (findOne_updateOne _ _ (setQuestion_keeps_id _ _)). now rewrite Hf. }
  split; [rewrite <- Hp; reflexivity | split; reflexivity].
Qed.

Lemma poster_resolves_question_witness :
  exists q' db',
    patchQuestion Sample.env
      (mkRequest (Some Sample.alice) Sample.questionId [("isResolved", JBool true)])
      Sample.db
    = (Respond 200 (QuestionBody q'), db')
    /\ Question.isResolved q' = true
    /\ notifications db' = notifications Sample.db.
Proof.
  destruct (poster_resolves_question Sample.env
              (mkRequest (Some Sample.alice) Sample.questionId
                         [("isResolved", JBool true)])
              Sample.db Sample.alice Sample.question true
              eq_refl eq_refl eq_refl eq_refl eq_refl eq_refl)
    as (q' & db' & Hrun & _ & Hq & _ & Hn).
  exists q', db'. split; [exact Hrun|]. split; [now rewrite Hq | exact Hn].
Defined.

(* ===================================================================== *)
(** * Blank text on the routes *)
(* ===================================================================== *)

(** A text made of a no-break space is blank for every field check:
    Bob cannot post it as an answer nor Carol as a question, and an edit
    with it is answered 400 before the entity is looked up, for a
    stranger (Carol on Bob's answer) and for a response that is not
    stored alike.  Nothing is written. *)
Example blank_text_is_refused :
  let blank := JStr (String "160" EmptyString) in
  postResponse Sample.env
    (mkRequest (Some Sample.bob) EmptyString
       [("questionId", JStr Sample.questionId); ("content", blank)]) Sample.db
  = (Respond 400 (ValidationErrors ["Content is required"]), Sample.db)
  /\ postQuestion Sample.env
       (mkRequest (Some Sample.carol) EmptyString
          [("courseId", JStr Sample.courseId); ("title", blank);
           ("content", JStr "Why?")]) Sample.db
     = (Respond 400 (ValidationErrors ["Title is required"]), Sample.db)
  /\ patchResponse Sample.env
       (mkRequest (Some Sample.carol) Sample.responseId [("content", blank)])
       Sample.db
     = (Respond 400 (ValidationErrors ["Content must be 1-1500 characters"]),
        Sample.db)
  /\ patchResponse Sample.env
       (mkRequest (Some Sample.bob) Sample.notificationId [("content", blank)])
       Sample.db
     = (Respond 400 (ValidationErrors ["Content must be 1-1500 characters"]),
        Sample.db).
Proof. cbv zeta. repeat split. Qed.

(** A number as text is checked as [String] prints it: a title of
    1e300 has six characters, so a stranger's edit with it passes the
    field checks and is answered 403. *)
Example number_as_title :
  toStr (JNum (10 ^ 300)) = "1e+300"
  /\ patchQuestion Sample.env
       (mkRequest (Some Sample.carol) Sample.questionId
                  [("title", JNum (10 ^ 300))]) Sample.db
     = (Respond 403 (Failure "You can only edit your own questions"), Sample.db).
Proof. split; vm_compute; reflexivity. Qed.
